(** * Pulse-Check: the ratio engine and the prompt assembler of [analysis.py]

    A shallow embedding of [src/analysis.py].  Python numbers are modelled as
    they are at run time: an [int] is an unbounded integer, a [float] is an
    IEEE 754 binary64 value (the standard library's [spec_float], with
    precision 53 and exponent bound 1024), and the arithmetic operators
    follow CPython: [+ - *] stay in [int] on two ints and otherwise convert
    to [float]; [/] is true division and always yields a [float]; dividing
    by zero raises [ZeroDivisionError]; converting an [int] beyond the float
    range raises [OverflowError]; float overflow itself yields an infinity.

    The ratio formulas are written once, over an interface of numbers
    ([PyNumber]), and read at two instances: the run-time numbers above and
    exact rationals, which give the formulas their analytic meaning. *)

From Stdlib Require Import ZArith QArith Bool List String Ascii Lia.
From Stdlib Require Import SpecFloat DecimalString.
Import ListNotations.

Local Open Scope Z_scope.

(** ** Exceptions and results *)

Inductive exn : Type :=
| ZeroDivisionError
| OverflowError
| GenerationError (msg : string).

Inductive result (A : Type) : Type :=
| Ok (a : A)
| Raise (e : exn).

Arguments Ok {A} a.
Arguments Raise {A} e.

Definition rbind {A B : Type} (r : result A) (k : A -> result B) : result B :=
  match r with
  | Ok a => k a
  | Raise e => Raise e
  end.

Declare Scope result_scope.
Delimit Scope result_scope with result.
Notation "x <- c ;; k" := (rbind c (fun x => k))
  (at level 61, c at next level, right associativity) : result_scope.

Definition is_ok {A : Type} (r : result A) : bool :=
  match r with Ok _ => true | Raise _ => false end.

(** ** Binary64 floats *)

Module B64.

Definition prec : Z := 53.
Definition emax : Z := 1024.

Definition add := SFadd prec emax.
Definition sub := SFsub prec emax.
Definition mul := SFmul prec emax.
Definition div := SFdiv prec emax.

Definition is_finite (f : spec_float) : bool :=
  match f with
  | S754_zero _ | S754_finite _ _ _ => true
  | S754_infinity _ | S754_nan => false
  end.

Definition is_zero (f : spec_float) : bool :=
  match f with S754_zero _ => true | _ => false end.

Definition sign (f : spec_float) : bool :=
  match f with
  | S754_zero s | S754_infinity s | S754_finite s _ _ => s
  | S754_nan => false
  end.

(** An integer as a float with exponent 0 (exact, not normalised); the
    operations below round it. *)
Definition of_Z_exact (z : Z) : spec_float :=
  match z with
  | Z0 => S754_zero false
  | Zpos p => S754_finite false p 0
  | Zneg p => S754_finite true p 0
  end.

(** The float nearest to an integer, ties to even ([PyLong_AsDouble]
    before its range check). *)
Definition of_Z (z : Z) : spec_float := binary_normalize prec emax z 0 false.

(** The float nearest to [a / b] for integers [a] and [b <> 0], ties to
    even; the sign of a zero quotient is the sign of the operands'
    product, a zero dividend counting as positive. *)
Definition of_ratio (a b : Z) : spec_float :=
  match a with
  | Z0 => S754_zero (b <? 0)
  | _ => div (of_Z_exact a) (of_Z_exact b)
  end.

(** [x > 0.0], [x >= y] as C compares doubles: false on NaN. *)
Definition gtb (x y : spec_float) : bool := SFltb y x.
Definition geb (x y : spec_float) : bool := SFleb y x.

(** Round-half-even of [n / d] to an integer, for [0 <= n], [0 < d]. *)
Definition div_half_even (n d : Z) : Z :=
  let q := n / d in
  let r := n mod d in
  match 2 * r ?= d with
  | Lt => q
  | Gt => q + 1
  | Eq => if Z.even q then q else q + 1
  end.

(** Round-half-even of [m * 2^e * 10^k] to an integer: the digits that
    [_Py_dg_dtoa] in mode 3 produces for [k] places after the point. *)
Definition scaled_digits (m : positive) (e : Z) (k : Z) : Z :=
  let n := Zpos m * 10 ^ k in
  match e with
  | Zneg p => div_half_even n (2 ^ Zpos p)
  | _ => n * 2 ^ e
  end.

End B64.

(** ** The interface of numbers the formulas use

    [analysis.py] is written against Python's number protocol: literals
    [0], [365], [3]; the operators [+ - * /]; truth value ([x if d else 0]);
    and the comparisons [d > 0], [x >= 3]. *)

Class PyNumber (T : Type) : Type := {
  of_int : Z -> T;
  py_add : T -> T -> result T;
  py_sub : T -> T -> result T;
  py_mul : T -> T -> result T;
  py_truediv : T -> T -> result T;
  truthy : T -> bool;
  py_gt : T -> T -> bool;
  py_ge : T -> T -> bool
}.

(** ** Run-time numbers: [int] and [float] *)

Inductive num : Type :=
| Int (z : Z)
| Float (f : spec_float).

Module Num.

(** [PyLong_AsDouble] / [PyFloat_AsDouble]: what the float operators do
    to an operand before computing. *)
Definition to_float (x : num) : result spec_float :=
  match x with
  | Float f => Ok f
  | Int z =>
      let f := B64.of_Z z in
      if B64.is_finite f then Ok f else Raise OverflowError
  end.

Definition lift2 (zop : Z -> Z -> Z) (fop : spec_float -> spec_float -> spec_float)
  (x y : num) : result num :=
  match x, y with
  | Int a, Int b => Ok (Int (zop a b))
  | _, _ =>
      (a <- to_float x ;;
       b <- to_float y ;;
       Ok (Float (fop a b)))%result
  end.

Definition add := lift2 Z.add B64.add.
Definition sub := lift2 Z.sub B64.sub.
Definition mul := lift2 Z.mul B64.mul.

(** [x / y]: [long_true_divide] on two ints, [float_div] otherwise. *)
Definition truediv (x y : num) : result num :=
  match x, y with
  | Int a, Int b =>
      if b =? 0 then Raise ZeroDivisionError
      else
        let q := B64.of_ratio a b in
        if B64.is_finite q then Ok (Float q) else Raise OverflowError
  | _, _ =>
      (a <- to_float x ;;
       b <- to_float y ;;
       if B64.is_zero b then Raise ZeroDivisionError
       else Ok (Float (B64.div a b)))%result
  end.

Definition bool_of (x : num) : bool :=
  match x with
  | Int z => negb (z =? 0)
  | Float f => negb (B64.is_zero f)
  end.

(** Comparison of a float with an int is exact in CPython. *)
Definition cmp_float_Z (f : spec_float) (z : Z) : option comparison :=
  match f with
  | S754_nan => None
  | S754_infinity s => Some (if s then Lt else Gt)
  | S754_zero _ => Some (0 ?= z)
  | S754_finite s m e =>
      let v := if s then Zneg m else Zpos m in
      Some (match e with
            | Zneg p => v ?= z * 2 ^ Zpos p
            | _ => v * 2 ^ e ?= z
            end)
  end.

Definition compare (x y : num) : option comparison :=
  match x, y with
  | Int a, Int b => Some (a ?= b)
  | Float a, Float b => SFcompare a b
  | Float a, Int b => cmp_float_Z a b
  | Int a, Float b => option_map CompOpp (cmp_float_Z b a)
  end.

Definition gt (x y : num) : bool :=
  match compare x y with Some Gt => true | _ => false end.

Definition ge (x y : num) : bool :=
  match compare x y with Some Gt | Some Eq => true | _ => false end.

(** [round(x, ndigits)] for [ndigits >= 0]: an int is returned as it is;
    a float goes through [double_round]: the correctly rounded decimal
    with [ndigits] places, read back as the nearest float. *)
Definition round_float (f : spec_float) (ndigits : N) : result spec_float :=
  match f with
  | S754_finite s m e =>
      match B64.scaled_digits m e (Z.of_N ndigits) with
      | Zpos d =>
          let r := B64.div (S754_finite s d 0) (B64.of_Z_exact (10 ^ Z.of_N ndigits)) in
          if B64.is_finite r then Ok r else Raise OverflowError
      | _ => Ok (S754_zero s)
      end
  | _ => Ok f
  end.

Definition round (x : num) (ndigits : N) : result num :=
  match x with
  | Int z => Ok (Int z)
  | Float f => (r <- round_float f ndigits ;; Ok (Float r))%result
  end.

Definition is_finite (x : num) : bool :=
  match x with
  | Int _ => true
  | Float f => B64.is_finite f
  end.

End Num.

#[export] Instance PyNumber_num : PyNumber num := {
  of_int := Int;
  py_add := Num.add;
  py_sub := Num.sub;
  py_mul := Num.mul;
  py_truediv := Num.truediv;
  truthy := Num.bool_of;
  py_gt := Num.gt;
  py_ge := Num.ge
}.

(** ** Exact numbers

    The same protocol over the rationals, with no rounding and no range:
    the analytic reading of the formulas.  Division by zero still raises. *)

Module Exact.

Definition truediv (x y : Q) : result Q :=
  if Qeq_bool y 0 then Raise ZeroDivisionError else Ok (x / y)%Q.

Definition bool_of (x : Q) : bool := negb (Qeq_bool x 0).

Definition gt (x y : Q) : bool := negb (Qle_bool x y).

Definition ge (x y : Q) : bool := Qle_bool y x.

End Exact.

#[export] Instance PyNumber_Q : PyNumber Q := {
  of_int := inject_Z;
  py_add := fun x y => Ok (x + y)%Q;
  py_sub := fun x y => Ok (x - y)%Q;
  py_mul := fun x y => Ok (x * y)%Q;
  py_truediv := Exact.truediv;
  truthy := Exact.bool_of;
  py_gt := Exact.gt;
  py_ge := Exact.ge
}.

(** ** Inputs

    The keyword arguments of [financial_analysis] and of
    [analyze_marketing_performance], as [app.py] collects them in
    [financial_data] and [marketing_data]. *)

Record FinancialData (T : Type) : Type := {
  Revenue : T;
  COGS : T;
  Gross_Profit : T;
  Sales_and_Marketing : T;
  Research_and_Development : T;
  General_and_Administrative : T;
  EBITDA : T;
  Depreciation_and_Amortization : T;
  EBIT : T;
  Interest_Expense : T;
  Net_Income : T;
  cash_equivalents : T;
  accounts_receivable : T;
  inventory : T;
  fixed_assets_ppe : T;
  intangible_assets : T;
  accounts_payable : T;
  accrued_expenses : T;
  long_term_debt : T;
  shareholders_equity : T;
  stock_price : T;
  shares_outstanding : T
}.

Arguments Revenue {T} _.
Arguments COGS {T} _.
Arguments Gross_Profit {T} _.
Arguments Sales_and_Marketing {T} _.
Arguments Research_and_Development {T} _.
Arguments General_and_Administrative {T} _.
Arguments EBITDA {T} _.
Arguments Depreciation_and_Amortization {T} _.
Arguments EBIT {T} _.
Arguments Interest_Expense {T} _.
Arguments Net_Income {T} _.
Arguments cash_equivalents {T} _.
Arguments accounts_receivable {T} _.
Arguments inventory {T} _.
Arguments fixed_assets_ppe {T} _.
Arguments intangible_assets {T} _.
Arguments accounts_payable {T} _.
Arguments accrued_expenses {T} _.
Arguments long_term_debt {T} _.
Arguments shareholders_equity {T} _.
Arguments stock_price {T} _.
Arguments shares_outstanding {T} _.

Record MarketingData (T : Type) : Type := {
  marketing_spend : T;
  new_customers_acquired : T;
  total_customers_start_period : T;
  total_customers_end_period : T;
  avg_revenue_per_user_monthly : T;
  gross_margin_pct : T;
  expansion_revenue : T
}.

Arguments marketing_spend {T} _.
Arguments new_customers_acquired {T} _.
Arguments total_customers_start_period {T} _.
Arguments total_customers_end_period {T} _.
Arguments avg_revenue_per_user_monthly {T} _.
Arguments gross_margin_pct {T} _.
Arguments expansion_revenue {T} _.

(** ** The local variables of the two ratio functions *)

Record FinancialRatios (T : Type) : Type := {
  Current_Assets : T;
  Total_Assets : T;
  Current_Liab : T;
  NWC : T;
  current_ratio : T;
  quick_ratio : T;
  cash_ratio : T;
  interval_measure : T;
  total_debt_ratio : T;
  equity_multiplier : T;
  ltd_ratio : T;
  tie : T;
  cash_coverage : T;
  total_asset_turnover : T;
  nwc_turnover : T;
  fixed_asset_turnover : T;
  gross_margin : T;
  profit_margin : T;
  roa : T;
  roe : T;
  dupont_roe : T;
  market_cap : T;
  pe_ratio : T;
  market_to_book : T;
  price_sales : T;
  enterprise_value : T;
  ev_ebitda : T;
  inv_turnover : T;
  days_sales_inv : T;
  rec_turnover : T;
  days_sales_rec : T
}.

Arguments Current_Assets {T} _.
Arguments Total_Assets {T} _.
Arguments Current_Liab {T} _.
Arguments NWC {T} _.
Arguments current_ratio {T} _.
Arguments quick_ratio {T} _.
Arguments cash_ratio {T} _.
Arguments interval_measure {T} _.
Arguments total_debt_ratio {T} _.
Arguments equity_multiplier {T} _.
Arguments ltd_ratio {T} _.
Arguments tie {T} _.
Arguments cash_coverage {T} _.
Arguments total_asset_turnover {T} _.
Arguments nwc_turnover {T} _.
Arguments fixed_asset_turnover {T} _.
Arguments gross_margin {T} _.
Arguments profit_margin {T} _.
Arguments roa {T} _.
Arguments roe {T} _.
Arguments dupont_roe {T} _.
Arguments market_cap {T} _.
Arguments pe_ratio {T} _.
Arguments market_to_book {T} _.
Arguments price_sales {T} _.
Arguments enterprise_value {T} _.
Arguments ev_ebitda {T} _.
Arguments inv_turnover {T} _.
Arguments days_sales_inv {T} _.
Arguments rec_turnover {T} _.
Arguments days_sales_rec {T} _.

Record MarketingRatios (T : Type) : Type := {
  cac : T;
  lost_customers : T;
  churn_rate : T;
  retention_rate : T;
  starting_rev : T;
  nrr : T;
  ltv : T;
  ltv_cac_ratio : T;
  payback_period : T;
  marketing_efficiency_ratio : T;
  marketing_spend_pct : T
}.

Arguments cac {T} _.
Arguments lost_customers {T} _.
Arguments churn_rate {T} _.
Arguments retention_rate {T} _.
Arguments starting_rev {T} _.
Arguments nrr {T} _.
Arguments ltv {T} _.
Arguments ltv_cac_ratio {T} _.
Arguments payback_period {T} _.
Arguments marketing_efficiency_ratio {T} _.
Arguments marketing_spend_pct {T} _.

(** ** The ratio formulas ([analysis.py], lines 91-128 and 158-173) *)

Section Formulas.

Context {T : Type} `{PyNumber T}.

Local Open Scope result_scope.

Local Notation "0" := (of_int 0%Z).
Local Notation "1" := (of_int 1%Z).
Local Notation "365" := (of_int 365%Z).

(** [n / d if d else 0] *)
Definition ratio_or_zero (n d : T) : result T :=
  if truthy d then py_truediv n d else Ok 0.

Definition financial_ratios (a : FinancialData T) : result (FinancialRatios T) :=
  t <- py_add (cash_equivalents a) (accounts_receivable a) ;;
  Current_Assets <- py_add t (inventory a) ;;
  t <- py_add Current_Assets (fixed_assets_ppe a) ;;
  Total_Assets <- py_add t (intangible_assets a) ;;
  Current_Liab <- py_add (accounts_payable a) (accrued_expenses a) ;;
  NWC <- py_sub Current_Assets Current_Liab ;;

  current_ratio <- ratio_or_zero Current_Assets Current_Liab ;;
  quick_ratio <-
    (if truthy Current_Liab
     then t <- py_sub Current_Assets (inventory a) ;; py_truediv t Current_Liab
     else Ok 0) ;;
  cash_ratio <- ratio_or_zero (cash_equivalents a) Current_Liab ;;
  interval_measure <-
    (if truthy (COGS a)
     then t <- py_truediv (COGS a) 365 ;; py_truediv Current_Assets t
     else Ok 0) ;;

  total_debt_ratio <-
    (if truthy Total_Assets
     then t <- py_sub Total_Assets (shareholders_equity a) ;; py_truediv t Total_Assets
     else Ok 0) ;;
  equity_multiplier <- ratio_or_zero Total_Assets (shareholders_equity a) ;;
  ltd_ratio <-
    (g <- py_add (long_term_debt a) (shareholders_equity a) ;;
     if truthy g
     then t <- py_add (long_term_debt a) (shareholders_equity a) ;;
          py_truediv (long_term_debt a) t
     else Ok 0) ;;
  tie <- ratio_or_zero (EBIT a) (Interest_Expense a) ;;
  cash_coverage <- ratio_or_zero (EBITDA a) (Interest_Expense a) ;;

  total_asset_turnover <- ratio_or_zero (Revenue a) Total_Assets ;;
  nwc_turnover <- ratio_or_zero (Revenue a) NWC ;;
  fixed_asset_turnover <- ratio_or_zero (Revenue a) (fixed_assets_ppe a) ;;

  gross_margin <- ratio_or_zero (Gross_Profit a) (Revenue a) ;;
  profit_margin <- ratio_or_zero (Net_Income a) (Revenue a) ;;
  roa <- ratio_or_zero (Net_Income a) Total_Assets ;;
  roe <- ratio_or_zero (Net_Income a) (shareholders_equity a) ;;

  t <- py_mul profit_margin total_asset_turnover ;;
  dupont_roe <- py_mul t equity_multiplier ;;

  market_cap <- py_mul (stock_price a) (shares_outstanding a) ;;
  pe_ratio <-
    (if truthy (Net_Income a) && truthy (shares_outstanding a)
     then t <- py_truediv (Net_Income a) (shares_outstanding a) ;;
          py_truediv (stock_price a) t
     else Ok 0) ;;
  market_to_book <- ratio_or_zero market_cap (shareholders_equity a) ;;
  price_sales <- ratio_or_zero market_cap (Revenue a) ;;
  t <- py_add market_cap (long_term_debt a) ;;
  enterprise_value <- py_sub t (cash_equivalents a) ;;
  ev_ebitda <- ratio_or_zero enterprise_value (EBITDA a) ;;

  inv_turnover <- ratio_or_zero (COGS a) (inventory a) ;;
  days_sales_inv <- ratio_or_zero 365 inv_turnover ;;
  rec_turnover <- ratio_or_zero (Revenue a) (accounts_receivable a) ;;
  days_sales_rec <- ratio_or_zero 365 rec_turnover ;;

  Ok {| Current_Assets := Current_Assets;
        Total_Assets := Total_Assets;
        Current_Liab := Current_Liab;
        NWC := NWC;
        current_ratio := current_ratio;
        quick_ratio := quick_ratio;
        cash_ratio := cash_ratio;
        interval_measure := interval_measure;
        total_debt_ratio := total_debt_ratio;
        equity_multiplier := equity_multiplier;
        ltd_ratio := ltd_ratio;
        tie := tie;
        cash_coverage := cash_coverage;
        total_asset_turnover := total_asset_turnover;
        nwc_turnover := nwc_turnover;
        fixed_asset_turnover := fixed_asset_turnover;
        gross_margin := gross_margin;
        profit_margin := profit_margin;
        roa := roa;
        roe := roe;
        dupont_roe := dupont_roe;
        market_cap := market_cap;
        pe_ratio := pe_ratio;
        market_to_book := market_to_book;
        price_sales := price_sales;
        enterprise_value := enterprise_value;
        ev_ebitda := ev_ebitda;
        inv_turnover := inv_turnover;
        days_sales_inv := days_sales_inv;
        rec_turnover := rec_turnover;
        days_sales_rec := days_sales_rec |}.

(** [n / d if d > 0 else 0] *)
Definition ratio_if_positive (n d : T) : result T :=
  if py_gt d 0 then py_truediv n d else Ok 0.

Definition marketing_ratios (Revenue : T) (a : MarketingData T)
  : result (MarketingRatios T) :=
  cac <- ratio_if_positive (marketing_spend a) (new_customers_acquired a) ;;

  t <- py_add (total_customers_start_period a) (new_customers_acquired a) ;;
  lost_customers <- py_sub t (total_customers_end_period a) ;;
  churn_rate <- ratio_if_positive lost_customers (total_customers_start_period a) ;;
  retention_rate <- py_sub 1 churn_rate ;;

  starting_rev <-
    py_mul (total_customers_start_period a) (avg_revenue_per_user_monthly a) ;;
  nrr <-
    (if py_gt starting_rev 0
     then t <- py_add starting_rev (expansion_revenue a) ;;
          u <- py_mul lost_customers (avg_revenue_per_user_monthly a) ;;
          t <- py_sub t u ;;
          py_truediv t starting_rev
     else Ok 0) ;;

  ltv <-
    (if py_gt churn_rate 0
     then t <- py_mul (avg_revenue_per_user_monthly a) (gross_margin_pct a) ;;
          py_truediv t churn_rate
     else Ok 0) ;;

  ltv_cac_ratio <- ratio_if_positive ltv cac ;;
  payback_period <-
    (if py_gt (avg_revenue_per_user_monthly a) 0 && py_gt (gross_margin_pct a) 0
     then t <- py_mul (avg_revenue_per_user_monthly a) (gross_margin_pct a) ;;
          py_truediv cac t
     else Ok 0) ;;

  marketing_efficiency_ratio <- ratio_if_positive Revenue (marketing_spend a) ;;
  marketing_spend_pct <- ratio_if_positive (marketing_spend a) Revenue ;;

  Ok {| cac := cac;
        lost_customers := lost_customers;
        churn_rate := churn_rate;
        retention_rate := retention_rate;
        starting_rev := starting_rev;
        nrr := nrr;
        ltv := ltv;
        ltv_cac_ratio := ltv_cac_ratio;
        payback_period := payback_period;
        marketing_efficiency_ratio := marketing_efficiency_ratio;
        marketing_spend_pct := marketing_spend_pct |}.

End Formulas.

(** ** Report values

    The two reports are dict literals whose leaves are numbers and strings.
    A dict keeps its keys in insertion order, which is what [json.dumps]
    walks, so a dict is the list of its items in that order. *)

Local Open Scope string_scope.

Inductive pyval : Type :=
| PNum (n : num)
| PStr (s : string)
| PDict (items : list (string * pyval)).

Fixpoint assoc (k : string) (items : list (string * pyval)) : option pyval :=
  match items with
  | [] => None
  | (k', v) :: rest => if String.eqb k k' then Some v else assoc k rest
  end.

(** [d[k]] *)
Definition getitem (d : pyval) (k : string) : option pyval :=
  match d with
  | PDict items => assoc k items
  | _ => None
  end.

(** [d[section][name]] *)
Definition getitem2 (d : pyval) (section name : string) : option pyval :=
  match getitem d section with
  | Some s => getitem s name
  | None => None
  end.

Definition keys (d : pyval) : list string :=
  match d with
  | PDict items => map fst items
  | _ => []
  end.

(** ** Number formatting *)

Module Fmt.

Definition dec (z : Z) : string := DecimalString.NilZero.string_of_int (Z.to_int z).

Definition sign_prefix (s : bool) : string := if s then "-" else "".

(** ['%.1f'] of a float: [PyOS_double_to_string(val, 'f', 1, ...)]. *)
Definition fixed1 (f : spec_float) : string :=
  match f with
  | S754_nan => "nan"
  | S754_infinity s => sign_prefix s ++ "inf"
  | S754_zero s => sign_prefix s ++ "0.0"
  | S754_finite s m e =>
      let d := B64.scaled_digits m e 1 in
      sign_prefix s ++ dec (d / 10) ++ "." ++ dec (d mod 10)
  end.

(** [f"{x:.1%}"]: the value becomes a float, is multiplied by 100 in
    float arithmetic, printed with one place and followed by [%]. *)
Definition percent1 (x : num) : result string :=
  (f <- Num.to_float x ;;
   Ok (fixed1 (B64.mul f (B64.of_Z 100)) ++ "%"))%result.

End Fmt.

(** ** The report dicts ([analysis.py], lines 130-143 and 175-192) *)

Section Reports.

Local Open Scope result_scope.

Definition financial_results (r : FinancialRatios num) : result pyval :=
  Current <- Num.round (current_ratio r) 2 ;;
  Quick <- Num.round (quick_ratio r) 2 ;;
  Cash <- Num.round (cash_ratio r) 2 ;;
  Interval <- Num.round (interval_measure r) 2 ;;
  Debt_Ratio <- Num.round (total_debt_ratio r) 2 ;;
  Multiplier <- Num.round (equity_multiplier r) 2 ;;
  LTD <- Num.round (ltd_ratio r) 2 ;;
  TIE <- Num.round (tie r) 2 ;;
  Cash_Coverage <- Num.round (cash_coverage r) 2 ;;
  Total_Asset <- Num.round (total_asset_turnover r) 2 ;;
  NWC' <- Num.round (nwc_turnover r) 2 ;;
  Fixed_Asset <- Num.round (fixed_asset_turnover r) 2 ;;
  Gross_Margin <- Num.round (gross_margin r) 4 ;;
  Profit_Margin <- Num.round (profit_margin r) 4 ;;
  ROA <- Num.round (roa r) 4 ;;
  ROE <- Num.round (roe r) 4 ;;
  Profitability_Lever <- Num.round (profit_margin r) 4 ;;
  Efficiency_Lever <- Num.round (total_asset_turnover r) 2 ;;
  Leverage_Lever <- Num.round (equity_multiplier r) 2 ;;
  Calculated_ROE <- Num.round (dupont_roe r) 4 ;;
  PE <- Num.round (pe_ratio r) 2 ;;
  Market_Book <- Num.round (market_to_book r) 2 ;;
  Price_Sales <- Num.round (price_sales r) 4 ;;
  EV <- Num.round (enterprise_value r) 2 ;;
  EV_EBITDA <- Num.round (ev_ebitda r) 2 ;;
  Inv_Turnover <- Num.round (inv_turnover r) 2 ;;
  DSI <- Num.round (days_sales_inv r) 2 ;;
  Rec_Turnover <- Num.round (rec_turnover r) 2 ;;
  DSO <- Num.round (days_sales_rec r) 2 ;;
  Ok (PDict [
    ("Liquidity", PDict [
       ("Current", PNum Current); ("Quick", PNum Quick);
       ("Cash", PNum Cash); ("Interval", PNum Interval)]);
    ("Solvency", PDict [
       ("Debt Ratio", PNum Debt_Ratio); ("Multiplier", PNum Multiplier);
       ("LTD", PNum LTD); ("TIE", PNum TIE);
       ("Cash Coverage", PNum Cash_Coverage)]);
    ("Turnover", PDict [
       ("Total Asset", PNum Total_Asset); ("NWC", PNum NWC');
       ("Fixed Asset", PNum Fixed_Asset)]);
    ("Profitability", PDict [
       ("Gross Margin", PNum Gross_Margin); ("Profit Margin", PNum Profit_Margin);
       ("ROA", PNum ROA); ("ROE", PNum ROE)]);
    ("DuPont_Breakdown", PDict [
       ("Profitability_Lever", PNum Profitability_Lever);
       ("Efficiency_Lever", PNum Efficiency_Lever);
       ("Leverage_Lever", PNum Leverage_Lever);
       ("Calculated_ROE", PNum Calculated_ROE)]);
    ("Market", PDict [
       ("P/E", PNum PE); ("Market/Book", PNum Market_Book);
       ("Price/Sales", PNum Price_Sales); ("EV", PNum EV);
       ("EV_EBITDA", PNum EV_EBITDA)]);
    ("Operational", PDict [
       ("Inv_Turnover", PNum Inv_Turnover); ("DSI", PNum DSI);
       ("Rec_Turnover", PNum Rec_Turnover); ("DSO", PNum DSO)])
  ]).

Definition status_of (ltv_cac_ratio : num) : string :=
  if py_ge ltv_cac_ratio (Int 3) then "Healthy" else "Needs Optimization".

Definition marketing_results (r : MarketingRatios num) : result pyval :=
  CAC <- Num.round (cac r) 2 ;;
  Marketing_Spend_Pct <- Fmt.percent1 (marketing_spend_pct r) ;;
  Marketing_Efficiency_Ratio <- Num.round (marketing_efficiency_ratio r) 2 ;;
  Retention_Rate <- Fmt.percent1 (retention_rate r) ;;
  Churn_Rate <- Fmt.percent1 (churn_rate r) ;;
  Net_Revenue_Retention <- Fmt.percent1 (nrr r) ;;
  LTV <- Num.round (ltv r) 2 ;;
  LTV_CAC_Ratio <- Num.round (ltv_cac_ratio r) 2 ;;
  Payback_Period_Months <- Num.round (payback_period r) 1 ;;
  Ok (PDict [
    ("Acquisition", PDict [
       ("CAC", PNum CAC);
       ("Marketing_Spend_Pct", PStr Marketing_Spend_Pct);
       ("Marketing_Efficiency_Ratio", PNum Marketing_Efficiency_Ratio)]);
    ("Retention_and_Value", PDict [
       ("Retention_Rate", PStr Retention_Rate);
       ("Churn_Rate", PStr Churn_Rate);
       ("Net_Revenue_Retention", PStr Net_Revenue_Retention);
       ("LTV", PNum LTV)]);
    ("Unit_Economics", PDict [
       ("LTV_CAC_Ratio", PNum LTV_CAC_Ratio);
       ("Payback_Period_Months", PNum Payback_Period_Months);
       ("Status", PStr (status_of (ltv_cac_ratio r)))])
  ]).

(** The metrics half of [financial_analysis] and of
    [analyze_marketing_performance]: everything before the call of the
    prompt function. *)
Definition financial_metrics (a : FinancialData num) : result pyval :=
  r <- financial_ratios a ;; financial_results r.

Definition marketing_metrics (Revenue : num) (a : MarketingData num) : result pyval :=
  r <- marketing_ratios Revenue a ;; marketing_results r.

End Reports.

(** ** Serialisation: [json.dumps(results, indent=2)] *)

Module Json.

Definition dq : string := String (ascii_of_nat 34) EmptyString.
Definition backslash : string := String (ascii_of_nat 92) EmptyString.
Definition newline : string := String (ascii_of_nat 10) EmptyString.

Definition hex_digit (n : nat) : ascii :=
  ascii_of_nat (if Nat.ltb n 10 then 48 + n else 87 + n).

(** One character of a string literal, as [py_encode_basestring_ascii]
    writes it. *)
Definition escape_char (c : ascii) : string :=
  let n := nat_of_ascii c in
  if Nat.eqb n 34 then backslash ++ dq
  else if Nat.eqb n 92 then backslash ++ backslash
  else if Nat.eqb n 10 then backslash ++ "n"
  else if Nat.eqb n 13 then backslash ++ "r"
  else if Nat.eqb n 9 then backslash ++ "t"
  else if Nat.eqb n 12 then backslash ++ "f"
  else if Nat.eqb n 8 then backslash ++ "b"
  else if Nat.ltb n 32 || Nat.leb 127 n then
    backslash ++ "u00" ++ String (hex_digit (n / 16)) (String (hex_digit (n mod 16)) "")
  else String c "".

Fixpoint escape (s : string) : string :=
  match s with
  | EmptyString => ""
  | String c rest => escape_char c ++ escape rest
  end.

Definition quote (s : string) : string := dq ++ escape s ++ dq.

Fixpoint spaces (n : nat) : string :=
  match n with
  | O => ""
  | S k => " " ++ spaces k
  end.

Section WithRepr.

(** [float.__repr__] on a finite float: the interpreter's shortest
    round-trip decimal, which the repository does not define. *)
Variable float_repr : spec_float -> string.

(** [floatstr] of [json.encoder] and [int.__repr__]. *)
Definition number (x : num) : string :=
  match x with
  | Int z => Fmt.dec z
  | Float S754_nan => "NaN"
  | Float (S754_infinity false) => "Infinity"
  | Float (S754_infinity true) => "-Infinity"
  | Float f => float_repr f
  end.

(** [_iterencode] with [indent=2] at nesting depth [level]: items in
    the dict's own order, one per line. *)
Fixpoint encode (level : nat) (v : pyval) : string :=
  match v with
  | PNum x => number x
  | PStr s => quote s
  | PDict [] => "{}"
  | PDict ((k0, v0) :: rest) =>
      let inner := newline ++ spaces (2 * S level) in
      let item k v := quote k ++ ": " ++ encode (S level) v in
      "{" ++ inner ++ item k0 v0
      ++ (fix tail (l : list (string * pyval)) : string :=
            match l with
            | [] => ""
            | (k, v) :: l' => "," ++ inner ++ item k v ++ tail l'
            end) rest
      ++ newline ++ spaces (2 * level) ++ "}"
  end.

Definition dumps (v : pyval) : string := encode 0 v.

End WithRepr.

End Json.

(** ** The prompt templates ([analysis.py], lines 11-25, 31-50, 56-75) *)

Module Template.

Import Json.

Definition cfo : string :=
"You are a Senior Strategic Business Consultant and Fractional CFO. I am going to provide you with a JSON object containing the financial ratios of my business.

Your Task:

Executive Summary: Give me a 3-sentence 'vibe check' on the company's health.

The Red Flags: Identify any ratios that suggest liquidity, solvency, or efficiency risks.

The Green Flags: What are we doing exceptionally well?

Operational Advice: Based on the 'Operational' and 'DuPont' sections, give me 3 actionable steps to improve profitability or cash flow.

Benchmark Comparison: Compare these to standard healthy industry benchmarks (assume a general mid-market manufacturing/retail context).

The Data: ".

Definition cmo : string :=
"You are a data-driven Chief Marketing Officer (CMO) with a background in Growth Engineering and Unit Economics.

Task: Analyze the provided Marketing & Customer Acquisition data and provide a high-level strategic evaluation.

Please structure your response as follows:

The Efficiency Score: On a scale of 1-10, how healthy is this growth engine? (Base this heavily on the LTV:CAC and Payback Period).

Growth vs. Burn: Are we spending too much to acquire customers, or are we being too conservative?

The Leaking Bucket Check: Analyze the Churn and Retention metrics. Is our growth sustainable, or are we losing customers too fast to keep the " ++ dq ++ "bucket" ++ dq ++ " full?

CMO Recommendations: Provide 3 specific strategies to either:
- Optimize CAC (if the payback period is too long).
- Increase LTV (if the margin or retention is low).
- Scale Spend (if the LTV:CAC is >3 and we should be " ++ dq ++ "pouring gas on the fire" ++ dq ++ ").

Financial Alignment: Briefly explain how these marketing metrics will impact the company's " ++ dq ++ "Bottom Line" ++ dq ++ " Net Income over the next 6 months.

The Data for Analysis: ".

Definition ceo_head : string :=
"You are the CEO of a high-growth company. You are presiding over a board meeting with your CFO and CMO.

The Objective: Synthesize the Financial Report and the Marketing Report to determine the company's " ++ dq ++ "True North." ++ dq ++ " You need to identify if the growth strategy is sustainable or if the company is at risk.

Analysis Requirements:

The Alignment Audit: Is the Marketing department spending cash at a rate that the Balance Sheet can support? Point out any friction between Marketing Spend and Net Income/Cash Reserves.

Unit Economics vs. Overhead: The CMO reports on LTV/CAC (unit level), but the CFO reports on OpEx (company level). Are we " ++ dq ++ "profitable on a unit basis" ++ dq ++ " but " ++ dq ++ "losing money on a GAAP basis" ++ dq ++ "? Explain what this means for our runway.

The " ++ dq ++ "Growth-Profitability" ++ dq ++ " Seesaw: Should we:
- Aggressive Growth: Pour more cash into marketing because the LTV/CAC and ROE justify it?
- Operational Efficiency: Freeze marketing spend and focus on fixing the " ++ dq ++ "clogged" ++ dq ++ " inventory/assets identified by the CFO?
- Capital Raise: Is our current trajectory going to require a debt or equity raise in the next 6-12 months?

CEO Directive: Give 3 high-level directives. These should be " ++ dq ++ "Orders" ++ dq ++ " to your CFO and CMO to get them in sync.

CFO DATA (Financials): ".

Definition ceo_middle : string :=
"

CMO DATA (Marketing): ".

End Template.

(** ** The text-generation collaborator and the three entry points

    [call_llm] is the only effect of [analysis.py].  It is modelled as a
    function of the prompt and of the backend's state (the client object and
    the environment of [llm_client.py]) that returns the narrative or raises,
    together with the next state.  The world also records, in order, every
    prompt handed to [call_llm]. *)

Section Pipeline.

Variable float_repr : spec_float -> string.
Variable Backend : Type.
Variable call_llm : string -> Backend -> result string * Backend.

Record world : Type := { backend : Backend; sent : list string }.

Definition M (A : Type) : Type := world -> result A * world.

Definition ret {A : Type} (a : A) : M A := fun w => (Ok a, w).

Definition bind {A B : Type} (c : M A) (k : A -> M B) : M B :=
  fun w =>
    match c w with
    | (Ok a, w') => k a w'
    | (Raise e, w') => (Raise e, w')
    end.

Definition lift {A : Type} (r : result A) : M A := fun w => (r, w).

Definition call (prompt : string) : M string :=
  fun w =>
    let (r, b) := call_llm prompt (backend w) in
    (r, {| backend := b; sent := sent w ++ [prompt] |}).

Local Notation "x <- c ;; k" := (bind c (fun x => k))
  (at level 61, c at next level, right associativity).

Definition financial_prompt (results : pyval) : string :=
  Template.cfo ++ Json.dumps float_repr results.

Definition marketing_prompt (results : pyval) : string :=
  Template.cmo ++ Json.dumps float_repr results.

Definition ceo_prompt (financial_report marketing_report : string) : string :=
  Template.ceo_head ++ financial_report ++ Template.ceo_middle ++ marketing_report.

Definition construct_prompt_financial (results : pyval) : M string :=
  let prompt := financial_prompt results in
  call prompt.

Definition construct_prompt_marketing (results : pyval) : M string :=
  let prompt := marketing_prompt results in
  call prompt.

Definition construct_prompt_ceo (financial_report marketing_report : string) : M string :=
  let prompt := ceo_prompt financial_report marketing_report in
  call prompt.

Definition financial_analysis (a : FinancialData num) : M (pyval * string) :=
  financial_results <- lift (financial_metrics a) ;;
  ai_report <- construct_prompt_financial financial_results ;;
  ret (financial_results, ai_report).

Definition analyze_marketing_performance (Revenue : num) (a : MarketingData num)
  : M (pyval * string) :=
  marketing_results <- lift (marketing_metrics Revenue a) ;;
  ai_report <- construct_prompt_marketing marketing_results ;;
  ret (marketing_results, ai_report).

Definition analyze_business (f : FinancialData num) (m : MarketingData num) : M pyval :=
  fin <- financial_analysis f ;;
  mkt <- analyze_marketing_performance (Revenue f) m ;;
  ceo_report <- construct_prompt_ceo (snd fin) (snd mkt) ;;
  ret (PDict [
    ("financial_metrics", fst fin);
    ("financial_report", PStr (snd fin));
    ("marketing_metrics", fst mkt);
    ("marketing_report", PStr (snd mkt));
    ("ceo_report", PStr ceo_report)]).

End Pipeline.

Arguments backend {Backend} _.
Arguments sent {Backend} _.

(** ** Reading a report, and the sample inputs of [app.py] *)

Definition reports (rep : pyval) (section name : string) (x : num) : Prop :=
  getitem2 rep section name = Some (PNum x).

Definition reports_zero (rep : pyval) (section name : string) : Prop :=
  getitem2 rep section name = Some (PNum (Int 0)).

Definition reports_text (rep : pyval) (section name text : string) : Prop :=
  getitem2 rep section name = Some (PStr text).

(** A float literal [m * 10^e10] with [e10 <= 0], correctly rounded as the
    Python parser does. *)
Definition float_lit (m : Z) (e10 : Z) : num :=
  Float (B64.of_ratio m (10 ^ (- e10))).

(** The default values of the form in [get_financial_form]. *)
Definition sample_financial_data : FinancialData num := {|
  Revenue := Int 1200000;
  COGS := Int 420000;
  Gross_Profit := Int 780000;
  Sales_and_Marketing := Int 200000;
  Research_and_Development := Int 120000;
  General_and_Administrative := Int 150000;
  EBITDA := Int 310000;
  Depreciation_and_Amortization := Int 40000;
  EBIT := Int 270000;
  Interest_Expense := Int 12000;
  Net_Income := Int 203820;
  cash_equivalents := Int 250000;
  accounts_receivable := Int 95000;
  inventory := Int 180000;
  fixed_assets_ppe := Int 400000;
  intangible_assets := Int 100000;
  accounts_payable := Int 60000;
  accrued_expenses := Int 25000;
  long_term_debt := Int 350000;
  shareholders_equity := Int 600000;
  stock_price := float_lit 450 (-1);
  shares_outstanding := Int 50000
|}.

(** The default values of the form in [get_marketing_form]. *)
Definition sample_marketing_data : MarketingData num := {|
  marketing_spend := Int 75000;
  new_customers_acquired := Int 300;
  total_customers_start_period := Int 2000;
  total_customers_end_period := Int 2200;
  avg_revenue_per_user_monthly := float_lit 1500 (-1);
  gross_margin_pct := float_lit 65 (-2);
  expansion_revenue := Int 12000
|}.

(** Every field zero: each denominator of each ratio is zero. *)
Definition zero_financial_data : FinancialData num := {|
  Revenue := Int 0;
  COGS := Int 0;
  Gross_Profit := Int 0;
  Sales_and_Marketing := Int 0;
  Research_and_Development := Int 0;
  General_and_Administrative := Int 0;
  EBITDA := Int 0;
  Depreciation_and_Amortization := Int 0;
  EBIT := Int 0;
  Interest_Expense := Int 0;
  Net_Income := Int 0;
  cash_equivalents := Int 0;
  accounts_receivable := Int 0;
  inventory := Int 0;
  fixed_assets_ppe := Int 0;
  intangible_assets := Int 0;
  accounts_payable := Int 0;
  accrued_expenses := Int 0;
  long_term_debt := Int 0;
  shareholders_equity := Int 0;
  stock_price := Int 0;
  shares_outstanding := Int 0
|}.

Definition zero_marketing_data : MarketingData num := {|
  marketing_spend := Int 0;
  new_customers_acquired := Int 0;
  total_customers_start_period := Int 0;
  total_customers_end_period := Int 0;
  avg_revenue_per_user_monthly := Int 0;
  gross_margin_pct := Int 0;
  expansion_revenue := Int 0
|}.

(** Inputs with negative counts and amounts, for the strict guards. *)
Definition negative_marketing_data : MarketingData num := {|
  marketing_spend := Int (-10);
  new_customers_acquired := Int (-5);
  total_customers_start_period := Int (-100);
  total_customers_end_period := Int 50;
  avg_revenue_per_user_monthly := float_lit (-15) (-1);
  gross_margin_pct := float_lit 65 (-2);
  expansion_revenue := Int 0
|}.

(** Inputs whose LTV:CAC is 2996 / 1000 = 2.996: one customer lost of one,
    ARPU 2996 at full margin, 1000 spent on one new customer. *)
Definition rounding_edge_marketing_data : MarketingData num := {|
  marketing_spend := Int 1000;
  new_customers_acquired := Int 1;
  total_customers_start_period := Int 1;
  total_customers_end_period := Int 1;
  avg_revenue_per_user_monthly := Int 2996;
  gross_margin_pct := Int 1;
  expansion_revenue := Int 0
|}.

(** The order of the keys of a two-level report: each section with the
    names under it. *)
Definition layout (d : pyval) : list (string * list string) :=
  match d with
  | PDict items => map (fun kv => (fst kv, keys (snd kv))) items
  | _ => []
  end.

(** Test collaborators.  The backend state counts the calls made so far;
    the first collaborator always answers, the second fails on its second
    call. *)
Definition answering_collaborator (prompt : string) (calls : nat)
  : result string * nat :=
  (Ok "narrative", S calls).

Definition failing_on_second_call (prompt : string) (calls : nat)
  : result string * nat :=
  if Nat.eqb calls 1
  then (Raise (GenerationError "quota exceeded"), S calls)
  else (Ok "narrative", S calls).

(** A stand-in for [float.__repr__] where a closed run needs one. *)
Definition placeholder_repr (f : spec_float) : string := "<float>".

Definition fresh_world : world nat := {| backend := 0%nat; sent := [] |}.

(** The shape [-?[0-9]+\.[0-9]%] of a percentage with one place. *)
Definition is_digit (c : ascii) : bool :=
  (Nat.leb 48 (nat_of_ascii c) && Nat.leb (nat_of_ascii c) 57)%bool.

Fixpoint digits_point_digit_percent (seen_digit : bool) (s : string) : bool :=
  match s with
  | EmptyString => false
  | String c rest =>
      if is_digit c then digits_point_digit_percent true rest
      else if Ascii.eqb c "." then
        (seen_digit &&
         match rest with
         | String d (String p EmptyString) => is_digit d && Ascii.eqb p "%"
         | _ => false
         end)%bool
      else false
  end.

Definition one_decimal_percent (s : string) : bool :=
  match s with
  | String c rest =>
      if Ascii.eqb c "-" then digits_point_digit_percent false rest
      else digits_point_digit_percent false s
  | EmptyString => false
  end.

(** The sample marketing inputs with an ARPU of [1e308], a value the form
    accepts: the starting revenue overflows to infinity. *)
Definition huge_arpu_marketing_data : MarketingData num := {|
  marketing_spend := Int 75000;
  new_customers_acquired := Int 300;
  total_customers_start_period := Int 2000;
  total_customers_end_period := Int 2200;
  avg_revenue_per_user_monthly := Float (B64.of_Z (10 ^ 308));
  gross_margin_pct := float_lit 65 (-2);
  expansion_revenue := Int 12000
|}.

Fixpoint all_digits (s : string) : bool :=
  match s with
  | EmptyString => true
  | String c rest => (is_digit c && all_digits rest)%bool
  end.

(** The statements of a company before its first sale, in whole currency
    units: no revenue, a loss of 50000, the sample balance sheet. *)
Definition pre_revenue_financial_data {T : Type} `{PyNumber T} : FinancialData T := {|
  Revenue := of_int 0;
  COGS := of_int 0;
  Gross_Profit := of_int 0;
  Sales_and_Marketing := of_int 20000;
  Research_and_Development := of_int 20000;
  General_and_Administrative := of_int 10000;
  EBITDA := of_int (-50000);
  Depreciation_and_Amortization := of_int 0;
  EBIT := of_int (-50000);
  Interest_Expense := of_int 0;
  Net_Income := of_int (-50000);
  cash_equivalents := of_int 250000;
  accounts_receivable := of_int 95000;
  inventory := of_int 180000;
  fixed_assets_ppe := of_int 400000;
  intangible_assets := of_int 100000;
  accounts_payable := of_int 60000;
  accrued_expenses := of_int 25000;
  long_term_debt := of_int 350000;
  shareholders_equity := of_int 600000;
  stock_price := of_int 0;
  shares_outstanding := of_int 1
|}.

(** The sample statements with every amount an integer. *)
Definition integer_sample_financial_data {T : Type} `{PyNumber T} : FinancialData T := {|
  Revenue := of_int 1200000;
  COGS := of_int 420000;
  Gross_Profit := of_int 780000;
  Sales_and_Marketing := of_int 200000;
  Research_and_Development := of_int 120000;
  General_and_Administrative := of_int 150000;
  EBITDA := of_int 310000;
  Depreciation_and_Amortization := of_int 40000;
  EBIT := of_int 270000;
  Interest_Expense := of_int 12000;
  Net_Income := of_int 203820;
  cash_equivalents := of_int 250000;
  accounts_receivable := of_int 95000;
  inventory := of_int 180000;
  fixed_assets_ppe := of_int 400000;
  intangible_assets := of_int 100000;
  accounts_payable := of_int 60000;
  accrued_expenses := of_int 25000;
  long_term_debt := of_int 350000;
  shareholders_equity := of_int 600000;
  stock_price := of_int 45;
  shares_outstanding := of_int 50000
|}.

(** The sample statements at a share price of [1e308]: a finite float the
    form accepts, whose market capitalisation overflows. *)
Definition overflow_financial_data : FinancialData num := {|
  Revenue := Int 1200000;
  COGS := Int 420000;
  Gross_Profit := Int 780000;
  Sales_and_Marketing := Int 200000;
  Research_and_Development := Int 120000;
  General_and_Administrative := Int 150000;
  EBITDA := Int 310000;
  Depreciation_and_Amortization := Int 40000;
  EBIT := Int 270000;
  Interest_Expense := Int 12000;
  Net_Income := Int 203820;
  cash_equivalents := Int 250000;
  accounts_receivable := Int 95000;
  inventory := Int 180000;
  fixed_assets_ppe := Int 400000;
  intangible_assets := Int 100000;
  accounts_payable := Int 60000;
  accrued_expenses := Int 25000;
  long_term_debt := Int 350000;
  shareholders_equity := Int 600000;
  stock_price := Float (B64.of_Z (10 ^ 308));
  shares_outstanding := Int 50000
|}.

(** The sample statements with [COGS = 5e-324], the smallest positive
    float: [COGS] is not zero but [COGS / 365] is. *)
Definition underflow_financial_data : FinancialData num := {|
  Revenue := Int 1200000;
  COGS := Float (S754_finite false 1 (-1074));
  Gross_Profit := Int 780000;
  Sales_and_Marketing := Int 200000;
  Research_and_Development := Int 120000;
  General_and_Administrative := Int 150000;
  EBITDA := Int 310000;
  Depreciation_and_Amortization := Int 40000;
  EBIT := Int 270000;
  Interest_Expense := Int 12000;
  Net_Income := Int 203820;
  cash_equivalents := Int 250000;
  accounts_receivable := Int 95000;
  inventory := Int 180000;
  fixed_assets_ppe := Int 400000;
  intangible_assets := Int 100000;
  accounts_payable := Int 60000;
  accrued_expenses := Int 25000;
  long_term_debt := Int 350000;
  shareholders_equity := Int 600000;
  stock_price := float_lit 450 (-1);
  shares_outstanding := Int 50000
|}.

(** ** Magnitudes

    The magnitude of a finite float [m * 2^e] is the number of binary digits
    of [m] plus [e]: the value lies in [[2^(mag-1), 2^mag)]. *)

(** A zero, or a finite float below [2^K]. *)
Definition at_most (K : Z) (f : spec_float) : Prop :=
  match f with
  | S754_zero _ => True
  | S754_finite _ m e => (Zpos (digits2_pos m) + e <= K)%Z
  | _ => False
  end.

(** A finite float in [[2^(-K-1), 2^K)] in absolute value. *)
Definition within (K : Z) (f : spec_float) : Prop :=
  match f with
  | S754_finite _ m e => (- K <= Zpos (digits2_pos m) + e <= K)%Z
  | _ => False
  end.

(** [fexp] of binary64. *)
Definition fexp64 (x : Z) : Z := Z.max (x - 53) (-1074).

(** A number below [2^K] in absolute value. *)
Definition tame (K : Z) (x : num) : Prop :=
  match x with
  | Int z => (Z.abs z < 2 ^ K)%Z
  | Float f => at_most K f
  end.

(** A number that is not zero, below [2^K] and, for a float, not below
    [2^(-K-1)] in absolute value. *)
Definition solid (K : Z) (x : num) : Prop :=
  match x with
  | Int z => (0 < Z.abs z < 2 ^ K)%Z
  | Float f => within K f
  end.

(** A zero or a solid number. *)
Definition neat (K : Z) (x : num) : Prop :=
  match x with
  | Int z => (Z.abs z < 2 ^ K)%Z
  | Float f => B64.is_zero f = true \/ within K f
  end.

(** The numbers of a report, in order. *)
Fixpoint leaves (v : pyval) : list num :=
  match v with
  | PNum x => [x]
  | PStr _ => []
  | PDict items =>
      (fix walk (l : list (string * pyval)) : list num :=
         match l with
         | [] => []
         | (_, v') :: l' => (leaves v' ++ walk l')%list
         end) items
  end.

Definition every_leaf_finite (rep : pyval) : bool :=
  forallb Num.is_finite (leaves rep).

(** An int of magnitude below [2^53]. *)
Definition form_int (x : num) : Prop :=
  exists z : Z, x = Int z /\ (Z.abs z < 2 ^ 53)%Z.

(** Inputs in the range of the form: every amount and the share count an
    int below [2^53] in absolute value, the share price such an int or a
    finite float below [2^53]. *)
Definition in_form_range (a : FinancialData num) : Prop :=
  form_int (Revenue a) /\ form_int (COGS a) /\ form_int (Gross_Profit a) /\
  form_int (Sales_and_Marketing a) /\ form_int (Research_and_Development a) /\
  form_int (General_and_Administrative a) /\ form_int (EBITDA a) /\
  form_int (Depreciation_and_Amortization a) /\ form_int (EBIT a) /\
  form_int (Interest_Expense a) /\ form_int (Net_Income a) /\
  form_int (cash_equivalents a) /\ form_int (accounts_receivable a) /\
  form_int (inventory a) /\ form_int (fixed_assets_ppe a) /\
  form_int (intangible_assets a) /\ form_int (accounts_payable a) /\
  form_int (accrued_expenses a) /\ form_int (long_term_debt a) /\
  form_int (shareholders_equity a) /\ form_int (shares_outstanding a) /\
  tame 53 (stock_price a).

(** The values [financial_analysis] rounds into its report, in the order of
    their assignment. *)
Definition reported_locals (r : FinancialRatios num) : list num :=
  [current_ratio r; quick_ratio r; cash_ratio r; interval_measure r;
   total_debt_ratio r; equity_multiplier r; ltd_ratio r; tie r; cash_coverage r;
   total_asset_turnover r; nwc_turnover r; fixed_asset_turnover r;
   gross_margin r; profit_margin r; roa r; roe r;
   dupont_roe r;
   pe_ratio r; market_to_book r; price_sales r; enterprise_value r; ev_ebitda r;
   inv_turnover r; days_sales_inv r; rec_turnover r; days_sales_rec r].

(** The fields of the input, and the inputs whose numbers are all finite. *)
Definition inputs (a : FinancialData num) : list num :=
  [Revenue a; COGS a; Gross_Profit a; Sales_and_Marketing a;
   Research_and_Development a; General_and_Administrative a; EBITDA a;
   Depreciation_and_Amortization a; EBIT a; Interest_Expense a; Net_Income a;
   cash_equivalents a; accounts_receivable a; inventory a; fixed_assets_ppe a;
   intangible_assets a; accounts_payable a; accrued_expenses a;
   long_term_debt a; shareholders_equity a; stock_price a;
   shares_outstanding a].

Definition finite_inputs (a : FinancialData num) : bool :=
  forallb Num.is_finite (inputs a).

(** The sample marketing inputs with an ARPU and a gross margin of [1e-200]
    each: both are positive and their product rounds to [0.0]. *)
Definition underflow_marketing_data : MarketingData num := {|
  marketing_spend := Int 75000;
  new_customers_acquired := Int 300;
  total_customers_start_period := Int 2000;
  total_customers_end_period := Int 2200;
  avg_revenue_per_user_monthly := float_lit 1 (-200);
  gross_margin_pct := float_lit 1 (-200);
  expansion_revenue := Int 12000
|}.

(** The sample marketing inputs with 2400 customers at the end of the
    period: more than the 2000 at the start and the 300 acquired. *)
Definition net_growth_marketing_data : MarketingData num := {|
  marketing_spend := Int 75000;
  new_customers_acquired := Int 300;
  total_customers_start_period := Int 2000;
  total_customers_end_period := Int 2400;
  avg_revenue_per_user_monthly := float_lit 1500 (-1);
  gross_margin_pct := float_lit 65 (-2);
  expansion_revenue := Int 12000
|}.

(** A collaborator that fails on its call number [k] (counting from 0) and
    answers every other call. *)
Definition failing_on_call (k : nat) (prompt : string) (calls : nat)
  : result string * nat :=
  if Nat.eqb calls k
  then (Raise (GenerationError "quota exceeded"), S calls)
  else (Ok "narrative", S calls).

(** Marketing inputs in the range of the form: the revenue, the spend, the
    three customer counts and the expansion revenue ints below [2^53] in
    absolute value; ARPU and gross margin each zero, or of absolute value in
    [[2^(-201), 2^200)]. *)
Definition in_marketing_form_range (Rev : num) (m : MarketingData num) : Prop :=
  form_int Rev /\ form_int (marketing_spend m) /\
  form_int (new_customers_acquired m) /\
  form_int (total_customers_start_period m) /\
  form_int (total_customers_end_period m) /\
  form_int (expansion_revenue m) /\
  neat 200 (avg_revenue_per_user_monthly m) /\
  neat 200 (gross_margin_pct m).

(** The locals of [analyze_marketing_performance] that reach its report. *)
Definition reported_marketing_locals (r : MarketingRatios num) : list num :=
  [cac r; marketing_spend_pct r; marketing_efficiency_ratio r;
   retention_rate r; churn_rate r; nrr r; ltv r; ltv_cac_ratio r;
   payback_period r].

(** The sample marketing inputs as exact numbers (ARPU 150, margin 65/100),
    with the sample revenue. *)
Definition exact_sample_revenue : Q := 1200000.

Definition exact_sample_marketing_data : MarketingData Q := {|
  marketing_spend := 75000;
  new_customers_acquired := 300;
  total_customers_start_period := 2000;
  total_customers_end_period := 2200;
  avg_revenue_per_user_monthly := 150;
  gross_margin_pct := 65 # 100;
  expansion_revenue := 12000
|}%Q.

(** The sample statements with the market data at the defaults of
    [financial_analysis]: [stock_price=0], [shares_outstanding=1]. *)
Definition default_market_financial_data : FinancialData num := {|
  Revenue := Int 1200000;
  COGS := Int 420000;
  Gross_Profit := Int 780000;
  Sales_and_Marketing := Int 200000;
  Research_and_Development := Int 120000;
  General_and_Administrative := Int 150000;
  EBITDA := Int 310000;
  Depreciation_and_Amortization := Int 40000;
  EBIT := Int 270000;
  Interest_Expense := Int 12000;
  Net_Income := Int 203820;
  cash_equivalents := Int 250000;
  accounts_receivable := Int 95000;
  inventory := Int 180000;
  fixed_assets_ppe := Int 400000;
  intangible_assets := Int 100000;
  accounts_payable := Int 60000;
  accrued_expenses := Int 25000;
  long_term_debt := Int 350000;
  shareholders_equity := Int 600000;
  stock_price := Int 0;
  shares_outstanding := Int 1
|}.

(** * The client of the text-generation service ([llm_client.py])

    [call_llm] picks a provider from the process environment, creates the
    provider's client object on first use and keeps it in the module global
    [_llm_client], and sends the prompt with the provider's request.  What
    the libraries do is outside the repository and is taken as given:
    whether a module imports, what a request on a client object returns or
    raises (with the read of the text off its response), and
    [str.lower]. *)

Module LlmClient.

Definition MODEL_CONFIG : list (string * string) :=
  [("gemini", "gemini-2.5-flash");
   ("openai", "gpt-4o");
   ("ollama", "mistral");
   ("deepseek", "deepseek-chat")].

(** [d[k]] on a dict of strings. *)
Fixpoint subscript (d : list (string * string)) (k : string) : option string :=
  match d with
  | [] => None
  | (k', v) :: rest => if String.eqb k k' then Some v else subscript rest k
  end.

(** [os.environ]: a variable is unset or holds a string. *)
Definition environment : Type := string -> option string.

(** [os.getenv(k, default)] *)
Definition getenv (env : environment) (k : string) (default : option string)
  : option string :=
  match env k with
  | Some v => Some v
  | None => default
  end.

(** [os.environ[k] = v] *)
Definition setenv (env : environment) (k v : string) : environment :=
  fun k' => if String.eqb k' k then Some v else env k'.

(** Truth value of a string or [None]. *)
Definition nonempty (s : option string) : bool :=
  match s with
  | Some (String _ _) => true
  | _ => false
  end.

(** [a or b] *)
Definition or_else (a b : option string) : option string :=
  if nonempty a then a else b.

(** The objects [_llm_client] is bound to: a [genai.GenerativeModel], an
    [OpenAI] client, or the [ollama] module. *)
Inductive client : Type :=
| GenerativeModel (model_name : string)
| OpenAI (api_key : string) (base_url : option string)
| ollama.

(** The three requests of [call_llm]. *)
Inductive request : Type :=
| generate_content (prompt : string)
| chat_completions_create
    (model : string) (messages : list (string * string)) (temperature : num)
| generate (model prompt : string) (stream : bool).

Section WithLibraries.

(** What a library raises. *)
Variable library_error : Type.

(** [str.lower]. *)
Variable lower : string -> string.

(** An [import] succeeds ([None]) or raises. *)
Variable import_module : string -> option library_error.

(** Whether [except ImportError] catches what an import raised. *)
Variable is_import_error : library_error -> bool.

(** The state of the services, and a request on a client object: the
    method call and the read of the text off the response
    ([response.text], [response.choices[0].message.content],
    [response["response"]]), under the key given to [genai.configure]. *)
Variable Remote : Type.
Variable send :
  option string -> client -> request -> Remote -> (library_error + string) * Remote.

Inductive error : Type :=
| ValueError (msg : string)
| ImportError (msg : string)
| KeyError (key : string)
| AttributeError (attribute : string)
| Library (e : library_error).

Inductive outcome (A : Type) : Type :=
| Returns (a : A)
| Raises (e : error).

Arguments Returns {A} a.
Arguments Raises {A} e.

(** The process: its environment, the module global [_llm_client], the key
    last given to [genai.configure], and the services. *)
Record process : Type := {
  environ : environment;
  _llm_client : option client;
  genai_api_key : option string;
  remote : Remote
}.

Definition set_client (c : client) (p : process) : process :=
  {| environ := environ p;
     _llm_client := Some c;
     genai_api_key := genai_api_key p;
     remote := remote p |}.

(** The process under another environment. *)
Definition with_environ (env : environment) (p : process) : process :=
  {| environ := env;
     _llm_client := _llm_client p;
     genai_api_key := genai_api_key p;
     remote := remote p |}.

(** [genai.configure(api_key=k)] *)
Definition configure (k : string) (p : process) : process :=
  {| environ := environ p;
     _llm_client := _llm_client p;
     genai_api_key := Some k;
     remote := remote p |}.

(** [os.getenv("LLM_PROVIDER", "gemini").lower()] *)
Definition provider (p : process) : string :=
  match getenv (environ p) "LLM_PROVIDER" (Some "gemini") with
  | Some v => lower v
  | None => lower "gemini"
  end.

Definition _init_llm (p : process) : outcome unit * process :=
  let llm_provider := provider p in
  if String.eqb llm_provider "gemini" then
    match import_module "google.generativeai" with
    | Some e => (Raises (Library e), p)
    | None =>
        let api_key :=
          or_else (getenv (environ p) "GOOGLE_API_KEY" None)
                  (getenv (environ p) "GEMINI_API_KEY" None) in
        match api_key with
        | Some (String c k) =>
            let p := configure (String c k) p in
            match subscript MODEL_CONFIG "gemini" with
            | Some model => (Returns tt, set_client (GenerativeModel model) p)
            | None => (Raises (KeyError "gemini"), p)
            end
        | _ =>
            (Raises (ValueError
               "GOOGLE_API_KEY or GEMINI_API_KEY must be set in environment. Create a .env file with your API key."),
             p)
        end
    end
  else if String.eqb llm_provider "openai" then
    match import_module "openai" with
    | Some e => (Raises (Library e), p)
    | None =>
        match getenv (environ p) "OPENAI_API_KEY" None with
        | Some (String c k) => (Returns tt, set_client (OpenAI (String c k) None) p)
        | _ => (Raises (ValueError "OPENAI_API_KEY must be set in environment."), p)
        end
    end
  else if String.eqb llm_provider "ollama" then
    match import_module "ollama" with
    | Some e =>
        if is_import_error e
        then (Raises (ImportError "Install ollama: pip install ollama"), p)
        else (Raises (Library e), p)
    | None => (Returns tt, set_client ollama p)
    end
  else if String.eqb llm_provider "deepseek" then
    match import_module "openai" with
    | Some e => (Raises (Library e), p)
    | None =>
        match getenv (environ p) "DEEPSEEK_API_KEY" None with
        | Some (String c k) =>
            (Returns tt,
             set_client (OpenAI (String c k) (Some "https://api.deepseek.com")) p)
        | _ => (Raises (ValueError "DEEPSEEK_API_KEY must be set in environment."), p)
        end
    end
  else (Raises (ValueError ("Unknown LLM provider: " ++ llm_provider)), p).

(** What a request answers, as [call_llm] hands it on. *)
Definition answer_of (r : library_error + string) : outcome string :=
  match r with
  | inl e => Raises (Library e)
  | inr text => Returns text
  end.

(** A request on [_llm_client]. *)
Definition on_client (mk : unit -> outcome request) (attribute : string)
  (p : process) : outcome string * process :=
  match _llm_client p with
  | None => (Raises (AttributeError attribute), p)
  | Some c =>
      match mk tt with
      | Raises e => (Raises e, p)
      | Returns r =>
          let (answer, remote') := send (genai_api_key p) c r (remote p) in
          (answer_of answer,
           {| environ := environ p;
              _llm_client := _llm_client p;
              genai_api_key := genai_api_key p;
              remote := remote' |})
      end
  end.

(** The outcome of the request [r] on the client [c], and the process
    after it. *)
Definition delivered (c : client) (r : request) (p : process)
  : outcome string * process :=
  (answer_of (fst (send (genai_api_key p) c r (remote p))),
   {| environ := environ p;
      _llm_client := Some c;
      genai_api_key := genai_api_key p;
      remote := snd (send (genai_api_key p) c r (remote p)) |}).

(** [MODEL_CONFIG[k]] as an argument of a request. *)
Definition with_model (k : string) (mk : string -> request) (_ : unit)
  : outcome request :=
  match subscript MODEL_CONFIG k with
  | Some model => Returns (mk model)
  | None => Raises (KeyError k)
  end.

Definition temperature : num := float_lit 7 (-1).

Definition call_llm (prompt : string) (p : process) : outcome string * process :=
  let llm_provider := provider p in
  let (initialised, p) :=
    match _llm_client p with
    | None => _init_llm p
    | Some _ => (Returns tt, p)
    end in
  match initialised with
  | Raises e => (Raises e, p)
  | Returns _ =>
      if String.eqb llm_provider "gemini" then
        on_client (fun _ => Returns (generate_content prompt)) "generate_content" p
      else if String.eqb llm_provider "openai" then
        on_client
          (with_model "openai"
             (fun model => chat_completions_create model [("user", prompt)] temperature))
          "chat" p
      else if String.eqb llm_provider "ollama" then
        on_client
          (with_model "ollama" (fun model => generate model prompt false))
          "generate" p
      else if String.eqb llm_provider "deepseek" then
        on_client
          (with_model "deepseek"
             (fun model => chat_completions_create model [("user", prompt)] temperature))
          "chat" p
      else (Raises (ValueError ("Unknown LLM provider: " ++ llm_provider)), p)
  end.

End WithLibraries.

Arguments Returns {library_error A} a.
Arguments Raises {library_error A} e.
Arguments ValueError {library_error} msg.
Arguments ImportError {library_error} msg.
Arguments KeyError {library_error} key.
Arguments AttributeError {library_error} attribute.
Arguments Library {library_error} e.
Arguments environ {Remote} p.
Arguments _llm_client {Remote} p.
Arguments genai_api_key {Remote} p.
Arguments remote {Remote} p.
Arguments set_client {Remote} c p.
Arguments configure {Remote} k p.
Arguments with_environ {Remote} env p.

(** The provider names [call_llm] knows. *)
Definition known_provider (name : string) : bool :=
  existsb (String.eqb name) ["gemini"; "openai"; "ollama"; "deepseek"].

(** Stand-ins where a closed run needs the libraries: an environment given
    by a list, every module installed, names already in lower case, and a
    service that counts the requests and answers each with the same
    text. *)
Definition environment_of (vars : list (string * string)) : environment :=
  subscript vars.

Definition installed (name : string) : option string := None.

(** No module installed: each import raises, the error being the name. *)
Definition uninstalled (name : string) : option string := Some name.

Definition already_lower (s : string) : string := s.

Definition counting_service (key : option string) (c : client) (r : request)
  (requests : nat) : (string + string) * nat :=
  (inr "narrative", S requests).

Definition fresh_process (vars : list (string * string)) : process nat :=
  {| environ := environment_of vars;
     _llm_client := None;
     genai_api_key := None;
     remote := 0%nat |}.

End LlmClient.

(** * The sidebar of [app.py] *)

Module App.

Import LlmClient.

(** [configure_llm]: [provider] is the choice of the select box and
    [typed] the content of the key box shown for it.  The function stores
    the key and the provider in the process environment and returns the
    truth value of [api_key or provider == "ollama"]. *)
Definition configure_llm (provider typed : string) (env : environment)
  : bool * environment :=
  let '(api_key, env) :=
    if String.eqb provider "gemini" then
      let api_key := Some typed in
      (api_key,
       if nonempty api_key
       then setenv (setenv env "GOOGLE_API_KEY" typed) "LLM_PROVIDER" provider
       else env)
    else if String.eqb provider "openai" then
      let api_key := Some typed in
      (api_key,
       if nonempty api_key
       then setenv (setenv env "OPENAI_API_KEY" typed) "LLM_PROVIDER" provider
       else env)
    else if String.eqb provider "deepseek" then
      let api_key := Some typed in
      (api_key,
       if nonempty api_key
       then setenv (setenv env "DEEPSEEK_API_KEY" typed) "LLM_PROVIDER" provider
       else env)
    else (None, setenv env "LLM_PROVIDER" provider) in
  (nonempty api_key || String.eqb provider "ollama", env).

End App.

(** A process whose client was created under Gemini and whose environment
    has since been switched to OpenAI. *)
Definition switched_process : LlmClient.process nat :=
  {| LlmClient.environ :=
       LlmClient.environment_of
         [("LLM_PROVIDER", "openai"); ("OPENAI_API_KEY", "sk-2");
          ("GOOGLE_API_KEY", "AIza")];
     LlmClient._llm_client := Some (LlmClient.GenerativeModel "gemini-2.5-flash");
     LlmClient.genai_api_key := Some "AIza";
     LlmClient.remote := 1%nat |}.

(** * The forms and the run of [app.py]

    [app.py] collects the widget values in two dicts and calls the entry
    points of [analysis.py] by keyword.  A call by keyword binds each key to
    the parameter of that name; a key that names no parameter, a parameter
    left without value or default, and a keyword given twice are each a
    [TypeError]. *)

Module Forms.

Inductive type_error : Type :=
| unexpected_keyword (key : string)
| missing_arguments (names : list string)
| multiple_values (key : string).

(** A dict of numbers, in insertion order. *)
Definition kwargs : Type := list (string * num).

Fixpoint dict_get (d : kwargs) (k : string) : option num :=
  match d with
  | [] => None
  | (k', v) :: rest => if String.eqb k k' then Some v else dict_get rest k
  end.

(** [d[k] = v]: the value is replaced in place, a new key goes last. *)
Fixpoint dict_set (d : kwargs) (k : string) (v : num) : kwargs :=
  match d with
  | [] => [(k, v)]
  | (k', v') :: rest =>
      if String.eqb k k' then (k', v) :: rest else (k', v') :: dict_set rest k v
  end.

(** The dict display that unpacks [a] and then [b]. *)
Definition dict_merge (a b : kwargs) : kwargs :=
  fold_left (fun d kv => dict_set d (fst kv) (snd kv)) b a.

(** The parameters of a function with their defaults. *)
Definition signature : Type := list (string * option num).

Definition financial_analysis_signature : signature :=
  [("Revenue", None); ("COGS", None); ("Gross_Profit", None);
   ("Sales_and_Marketing", None); ("Research_and_Development", None);
   ("General_and_Administrative", None); ("EBITDA", None);
   ("Depreciation_and_Amortization", None); ("EBIT", None);
   ("Interest_Expense", None); ("Net_Income", None); ("cash_equivalents", None);
   ("accounts_receivable", None); ("inventory", None); ("fixed_assets_ppe", None);
   ("intangible_assets", None); ("accounts_payable", None);
   ("accrued_expenses", None); ("long_term_debt", None);
   ("shareholders_equity", None);
   ("stock_price", Some (Int 0)); ("shares_outstanding", Some (Int 1))].

Definition analyze_marketing_performance_signature : signature :=
  [("Revenue", None); ("marketing_spend", None); ("new_customers_acquired", None);
   ("total_customers_start_period", None); ("total_customers_end_period", None);
   ("avg_revenue_per_user_monthly", None); ("gross_margin_pct", None);
   ("expansion_revenue", None)].

Definition analyze_business_signature : signature :=
  [("Revenue", None); ("marketing_spend", None); ("new_customers_acquired", None);
   ("total_customers_start_period", None); ("total_customers_end_period", None);
   ("avg_revenue_per_user_monthly", None); ("gross_margin_pct", None);
   ("expansion_revenue", None);
   ("COGS", None); ("Gross_Profit", None);
   ("Sales_and_Marketing", None); ("Research_and_Development", None);
   ("General_and_Administrative", None); ("EBITDA", None);
   ("Depreciation_and_Amortization", None); ("EBIT", None);
   ("Interest_Expense", None); ("Net_Income", None); ("cash_equivalents", None);
   ("accounts_receivable", None); ("inventory", None); ("fixed_assets_ppe", None);
   ("intangible_assets", None); ("accounts_payable", None);
   ("accrued_expenses", None); ("long_term_debt", None);
   ("shareholders_equity", None);
   ("stock_price", Some (Int 0)); ("shares_outstanding", Some (Int 1))].

Definition is_parameter (sig : signature) (k : string) : bool :=
  existsb (fun p => String.eqb k (fst p)) sig.

(** The first keyword that names no parameter. *)
Definition first_unexpected (sig : signature) (kw : kwargs) : option string :=
  option_map fst (find (fun kv => negb (is_parameter sig (fst kv))) kw).

(** The parameters left without a value. *)
Definition unfilled (sig : signature) (kw : kwargs) : list string :=
  map fst
    (filter (fun p => match dict_get kw (fst p), snd p with
                      | None, None => true
                      | _, _ => false
                      end) sig).

(** The value of each parameter, in the order of the signature. *)
Definition arguments (sig : signature) (kw : kwargs) : list num :=
  flat_map (fun p => match dict_get kw (fst p), snd p with
                     | Some v, _ => [v]
                     | None, Some v => [v]
                     | None, None => []
                     end) sig.

(** [f] called with the dict [kw] unpacked into keywords, up to the body
    of [f]. *)
Definition bind_keywords (sig : signature) (kw : kwargs) : type_error + list num :=
  match first_unexpected sig kw with
  | Some k => inl (unexpected_keyword k)
  | None =>
      match unfilled sig kw with
      | [] => inr (arguments sig kw)
      | names => inl (missing_arguments names)
      end
  end.

(** [f] called with the keyword [k=v] and the dict [kw] unpacked, up to
    the body of [f]. *)
Definition bind_keywords_with (sig : signature) (k : string) (v : num) (kw : kwargs)
  : type_error + list num :=
  match dict_get kw k with
  | Some _ => inl (multiple_values k)
  | None => bind_keywords sig ((k, v) :: kw)
  end.

(** The dict [get_financial_form] returns, from the values of its widgets
    (named as its locals). *)
Definition get_financial_form
  (revenue cogs gross_profit sales_marketing rd gna ebitda dep_amort ebit interest
   net_income cash ar inv ppe intangibles ap accrued ltd equity stock_price
   shares : num) : kwargs :=
  [("Revenue", revenue); ("COGS", cogs); ("Gross_Profit", gross_profit);
   ("Sales_and_Marketing", sales_marketing); ("Research_and_Development", rd);
   ("General_and_Administrative", gna); ("EBITDA", ebitda);
   ("Depreciation_and_Amortization", dep_amort); ("EBIT", ebit);
   ("Interest_Expense", interest); ("Net_Income", net_income);
   ("cash_equivalents", cash); ("accounts_receivable", ar); ("inventory", inv);
   ("fixed_assets_ppe", ppe); ("intangible_assets", intangibles);
   ("accounts_payable", ap); ("accrued_expenses", accrued);
   ("long_term_debt", ltd); ("shareholders_equity", equity);
   ("stock_price", stock_price); ("shares_outstanding", shares)].

Definition get_marketing_form
  (marketing_spend new_customers customers_start customers_end arpu
   gross_margin_pct expansion_revenue : num) : kwargs :=
  [("marketing_spend", marketing_spend);
   ("new_customers_acquired", new_customers);
   ("total_customers_start_period", customers_start);
   ("total_customers_end_period", customers_end);
   ("avg_revenue_per_user_monthly", arpu);
   ("gross_margin_pct", gross_margin_pct);
   ("expansion_revenue", expansion_revenue)].

End Forms.

Module Run.

Import Forms.

(** What the [try] block of [main] can catch: an exception of the analysis,
    a [TypeError] of a call by keyword, a [KeyError] of a subscript. *)
Inductive failure : Type :=
| Analysis (e : exn)
| TypeError (e : type_error)
| KeyError (key : string).

(** The calls of [main] that put content on the page.  Layout calls
    ([st.tabs], [st.columns], [st.expander], [st.spinner]) put none and are
    not recorded. *)
Inductive shown : Type :=
| st_error (msg : string)
| st_exception (e : failure)
| st_success (msg : string)
| st_markdown (body : pyval)
| st_json (body : pyval).

(** Positional argument number [i], counting from 0. *)
Definition argument (args : list num) (i : nat) : num := nth i args (Int 0).

(** The parameters of [financial_analysis] from its positional arguments. *)
Definition financial_data_of (args : list num) : FinancialData num :=
  {| Revenue := argument args 0;
     COGS := argument args 1;
     Gross_Profit := argument args 2;
     Sales_and_Marketing := argument args 3;
     Research_and_Development := argument args 4;
     General_and_Administrative := argument args 5;
     EBITDA := argument args 6;
     Depreciation_and_Amortization := argument args 7;
     EBIT := argument args 8;
     Interest_Expense := argument args 9;
     Net_Income := argument args 10;
     cash_equivalents := argument args 11;
     accounts_receivable := argument args 12;
     inventory := argument args 13;
     fixed_assets_ppe := argument args 14;
     intangible_assets := argument args 15;
     accounts_payable := argument args 16;
     accrued_expenses := argument args 17;
     long_term_debt := argument args 18;
     shareholders_equity := argument args 19;
     stock_price := argument args 20;
     shares_outstanding := argument args 21 |}.

(** The parameters of [analyze_marketing_performance] after [Revenue]. *)
Definition marketing_data_of (args : list num) : MarketingData num :=
  {| marketing_spend := argument args 1;
     new_customers_acquired := argument args 2;
     total_customers_start_period := argument args 3;
     total_customers_end_period := argument args 4;
     avg_revenue_per_user_monthly := argument args 5;
     gross_margin_pct := argument args 6;
     expansion_revenue := argument args 7 |}.

Section Main.

Variable float_repr : spec_float -> string.
Variable Backend : Type.
Variable call_llm : string -> Backend -> result string * Backend.

(** [str(e)]. *)
Variable str : failure -> string.

Definition outcome (A : Type) : Type := (failure + A) * world Backend.

Definition of_analysis {A : Type} (r : result A * world Backend) : outcome A :=
  match r with
  | (Ok a, w) => (inr a, w)
  | (Raise e, w) => (inl (Analysis e), w)
  end.

(** The three entry points called by keyword.  [analyze_business] passes
    its arguments on by position: [Revenue] and the financial ones to
    [financial_analysis], [Revenue] and the marketing ones to
    [analyze_marketing_performance]. *)
Definition financial_analysis_by_keyword (kw : kwargs) (w : world Backend)
  : outcome (pyval * string) :=
  match bind_keywords financial_analysis_signature kw with
  | inl e => (inl (TypeError e), w)
  | inr args =>
      of_analysis
        (financial_analysis float_repr Backend call_llm (financial_data_of args) w)
  end.

Definition analyze_marketing_performance_by_keyword
  (Revenue : num) (kw : kwargs) (w : world Backend) : outcome (pyval * string) :=
  match bind_keywords_with analyze_marketing_performance_signature
          "Revenue" Revenue kw with
  | inl e => (inl (TypeError e), w)
  | inr args =>
      of_analysis
        (analyze_marketing_performance float_repr Backend call_llm
           (argument args 0) (marketing_data_of args) w)
  end.

Definition analyze_business_by_keyword (kw : kwargs) (w : world Backend)
  : outcome pyval :=
  match bind_keywords analyze_business_signature kw with
  | inl e => (inl (TypeError e), w)
  | inr args =>
      of_analysis
        (analyze_business float_repr Backend call_llm
           (financial_data_of (argument args 0 :: skipn 8 args))
           (marketing_data_of args) w)
  end.

(** [display_results]: what it has shown, and the [KeyError] that stopped
    it, if any. *)
Definition display_results (results : pyval) : list shown * option failure :=
  let page :=
    [st_success "Analysis complete! Review your reports below.";
     st_markdown (PStr "### CFO Financial Analysis");
     st_markdown (PStr "---")] in
  match getitem results "financial_report" with
  | None => (page, Some (KeyError "financial_report"))
  | Some financial_report =>
  let page :=
    (page ++ [st_markdown financial_report;
              st_markdown (PStr "### CMO Marketing Analysis");
              st_markdown (PStr "---")])%list in
  match getitem results "marketing_report" with
  | None => (page, Some (KeyError "marketing_report"))
  | Some marketing_report =>
  let page :=
    (page ++ [st_markdown marketing_report;
              st_markdown (PStr "### CEO Business Synthesis");
              st_markdown (PStr "---")])%list in
  match getitem results "ceo_report" with
  | None => (page, Some (KeyError "ceo_report"))
  | Some ceo_report =>
  let page := (page ++ [st_markdown ceo_report])%list in
  match getitem results "financial_metrics" with
  | None => (page, Some (KeyError "financial_metrics"))
  | Some financial_metrics =>
  let page := (page ++ [st_json financial_metrics])%list in
  match getitem results "marketing_metrics" with
  | None => (page, Some (KeyError "marketing_metrics"))
  | Some marketing_metrics => ((page ++ [st_json marketing_metrics])%list, None)
  end end end end end.

(** The body of [try] in [main], by analysis type. *)
Definition analysis (analysis_type : string) (financial_data marketing_data : kwargs)
  (w : world Backend) : (list shown * option failure) * world Backend :=
  if String.eqb analysis_type "Full Analysis (Financial + Marketing + CEO)" then
    let all_data := dict_merge financial_data marketing_data in
    match analyze_business_by_keyword all_data w with
    | (inl e, w') => (([], Some e), w')
    | (inr results, w') => (display_results results, w')
    end
  else if String.eqb analysis_type "Financial Only" then
    match financial_analysis_by_keyword financial_data w with
    | (inl e, w') => (([], Some e), w')
    | (inr (metrics, report), w') =>
        (([st_success "Analysis complete!";
           st_markdown (PStr "### CFO Financial Analysis");
           st_markdown (PStr "---");
           st_markdown (PStr report);
           st_json metrics], None), w')
    end
  else
    match dict_get financial_data "Revenue" with
    | None => (([], Some (KeyError "Revenue")), w)
    | Some Revenue =>
        match analyze_marketing_performance_by_keyword Revenue marketing_data w with
        | (inl e, w') => (([], Some e), w')
        | (inr (metrics, report), w') =>
            (([st_success "Analysis complete!";
               st_markdown (PStr "### CMO Marketing Analysis");
               st_markdown (PStr "---");
               st_markdown (PStr report);
               st_json metrics], None), w')
        end
    end.

(** [main] from [if run_analysis:] on, the button pressed: what is shown
    and the state of the collaborator afterwards. *)
Definition run_analysis (api_configured : bool) (analysis_type : string)
  (financial_data marketing_data : kwargs) (w : world Backend)
  : list shown * world Backend :=
  if negb api_configured
  then ([st_error "Please configure your API key in the sidebar first."], w)
  else
    match analysis analysis_type financial_data marketing_data w with
    | ((page, None), w') => (page, w')
    | ((page, Some e), w') =>
        ((page ++ [st_error ("Analysis failed: " ++ str e); st_exception e])%list, w')
    end.

End Main.

End Run.

(** A stand-in for [str] on exceptions where a closed run needs one. *)
Definition placeholder_str (e : Run.failure) : string := "<exception>".

(** The sample statements with no current liabilities and [COGS = 5e-324]:
    the guard of the three liquidity ratios is off, and the divisor of the
    interval measure is [0.0] behind a guard that passes. *)
Definition no_liabilities_underflow_data : FinancialData num := {|
  Revenue := Int 1200000;
  COGS := Float (S754_finite false 1 (-1074));
  Gross_Profit := Int 780000;
  Sales_and_Marketing := Int 200000;
  Research_and_Development := Int 120000;
  General_and_Administrative := Int 150000;
  EBITDA := Int 310000;
  Depreciation_and_Amortization := Int 40000;
  EBIT := Int 270000;
  Interest_Expense := Int 12000;
  Net_Income := Int 203820;
  cash_equivalents := Int 250000;
  accounts_receivable := Int 95000;
  inventory := Int 180000;
  fixed_assets_ppe := Int 400000;
  intangible_assets := Int 100000;
  accounts_payable := Int 0;
  accrued_expenses := Int 0;
  long_term_debt := Int 350000;
  shareholders_equity := Int 600000;
  stock_price := float_lit 450 (-1);
  shares_outstanding := Int 50000
|}.

(** ** Equal reports

    [x == y] on the values of two reports built by separate calls.  Numbers
    compare by value, an int and a float alike, both zeros are equal, and
    NaN equals nothing; strings compare by their characters; two dicts are
    equal when they have as many items and every key of the first is a key
    of the second with an equal value, whatever the order of insertion. *)
Definition num_eq (x y : num) : bool :=
  match Num.compare x y with
  | Some Eq => true
  | _ => false
  end.

Fixpoint py_equal (x y : pyval) {struct x} : bool :=
  match x, y with
  | PNum a, PNum b => num_eq a b
  | PStr s, PStr t => String.eqb s t
  | PDict items, PDict items' =>
      (Nat.eqb (List.length items) (List.length items') &&
       (fix every (l : list (string * pyval)) : bool :=
          match l with
          | [] => true
          | (k, v) :: l' =>
              (match assoc k items' with
               | Some v' => py_equal v v'
               | None => false
               end && every l')%bool
          end) items)%bool
  | _, _ => false
  end.

(** What the text of a number shows besides its value: its type and, for a
    float, its sign bit. *)
Definition same_kind (x y : num) : bool :=
  match x, y with
  | Int _, Int _ => true
  | Float f, Float g => Bool.eqb (B64.sign f) (B64.sign g)
  | _, _ => false
  end.

(** Statements with one payable of 1 and nothing else: the three liquidity
    ratios are [0 / 1] and the turnover of the net working capital is
    [0 / -1]. *)
Definition one_payable_financial_data : FinancialData num := {|
  Revenue := Int 0;
  COGS := Int 0;
  Gross_Profit := Int 0;
  Sales_and_Marketing := Int 0;
  Research_and_Development := Int 0;
  General_and_Administrative := Int 0;
  EBITDA := Int 0;
  Depreciation_and_Amortization := Int 0;
  EBIT := Int 0;
  Interest_Expense := Int 0;
  Net_Income := Int 0;
  cash_equivalents := Int 0;
  accounts_receivable := Int 0;
  inventory := Int 0;
  fixed_assets_ppe := Int 0;
  intangible_assets := Int 0;
  accounts_payable := Int 1;
  accrued_expenses := Int 0;
  long_term_debt := Int 0;
  shareholders_equity := Int 0;
  stock_price := Int 0;
  shares_outstanding := Int 0
|}.

(** The sample statements with other operating expenses, which no ratio
    reads. *)
Definition other_expenses_financial_data : FinancialData num := {|
  Revenue := Int 1200000;
  COGS := Int 420000;
  Gross_Profit := Int 780000;
  Sales_and_Marketing := Int 150000;
  Research_and_Development := Int 170000;
  General_and_Administrative := Int 150000;
  EBITDA := Int 310000;
  Depreciation_and_Amortization := Int 40000;
  EBIT := Int 270000;
  Interest_Expense := Int 12000;
  Net_Income := Int 203820;
  cash_equivalents := Int 250000;
  accounts_receivable := Int 95000;
  inventory := Int 180000;
  fixed_assets_ppe := Int 400000;
  intangible_assets := Int 100000;
  accounts_payable := Int 60000;
  accrued_expenses := Int 25000;
  long_term_debt := Int 350000;
  shareholders_equity := Int 600000;
  stock_price := float_lit 450 (-1);
  shares_outstanding := Int 50000
|}.

(** A stand-in for [float.__repr__] that tells the two zeros apart, as
    [repr] does, and writes the placeholder for every other float. *)
Definition zero_repr (f : spec_float) : string :=
  match f with
  | S754_zero false => "0.0"
  | S754_zero true => "-0.0"
  | _ => placeholder_repr f
  end.

(** * Properties *)

(** ** Inversion of the sequenced computations *)

Lemma rbind_ok {A B : Type} (c : result A) (k : A -> result B) (b : B) :
  rbind c k = Ok b -> exists a, c = Ok a /\ k a = Ok b.
Proof.
  destruct c as [a|e]; cbn; intros Hk; [exists a; split; [reflexivity|exact Hk] | discriminate].
Qed.

Ltac bind_inv H :=
  repeat (let x := fresh "x" in
          let E := fresh "E" in
          apply rbind_ok in H; destruct H as (x & E & H)).


(** What each local of [financial_analysis] satisfies once the function
    has come through: its defining line. *)
Record FinancialRatiosSpec {T : Type} `{PyNumber T}
  (a : FinancialData T) (r : FinancialRatios T) : Prop := {
  fr_Current_Assets :
    (t <- py_add (cash_equivalents a) (accounts_receivable a) ;;
     py_add t (inventory a))%result = Ok (Current_Assets r);
  fr_Total_Assets :
    (t <- py_add (Current_Assets r) (fixed_assets_ppe a) ;;
     py_add t (intangible_assets a))%result = Ok (Total_Assets r);
  fr_Current_Liab :
    py_add (accounts_payable a) (accrued_expenses a) = Ok (Current_Liab r);
  fr_NWC : py_sub (Current_Assets r) (Current_Liab r) = Ok (NWC r);
  fr_current_ratio :
    ratio_or_zero (Current_Assets r) (Current_Liab r) = Ok (current_ratio r);
  fr_quick_ratio :
    (if truthy (Current_Liab r)
     then (t <- py_sub (Current_Assets r) (inventory a) ;;
           py_truediv t (Current_Liab r))%result
     else Ok (of_int 0)) = Ok (quick_ratio r);
  fr_cash_ratio :
    ratio_or_zero (cash_equivalents a) (Current_Liab r) = Ok (cash_ratio r);
  fr_interval_measure :
    (if truthy (COGS a)
     then (t <- py_truediv (COGS a) (of_int 365) ;;
           py_truediv (Current_Assets r) t)%result
     else Ok (of_int 0)) = Ok (interval_measure r);
  fr_total_debt_ratio :
    (if truthy (Total_Assets r)
     then (t <- py_sub (Total_Assets r) (shareholders_equity a) ;;
           py_truediv t (Total_Assets r))%result
     else Ok (of_int 0)) = Ok (total_debt_ratio r);
  fr_equity_multiplier :
    ratio_or_zero (Total_Assets r) (shareholders_equity a) = Ok (equity_multiplier r);
  fr_ltd_ratio :
    (g <- py_add (long_term_debt a) (shareholders_equity a) ;;
     if truthy g
     then t <- py_add (long_term_debt a) (shareholders_equity a) ;;
          py_truediv (long_term_debt a) t
     else Ok (of_int 0))%result = Ok (ltd_ratio r);
  fr_tie : ratio_or_zero (EBIT a) (Interest_Expense a) = Ok (tie r);
  fr_cash_coverage :
    ratio_or_zero (EBITDA a) (Interest_Expense a) = Ok (cash_coverage r);
  fr_total_asset_turnover :
    ratio_or_zero (Revenue a) (Total_Assets r) = Ok (total_asset_turnover r);
  fr_nwc_turnover : ratio_or_zero (Revenue a) (NWC r) = Ok (nwc_turnover r);
  fr_fixed_asset_turnover :
    ratio_or_zero (Revenue a) (fixed_assets_ppe a) = Ok (fixed_asset_turnover r);
  fr_gross_margin : ratio_or_zero (Gross_Profit a) (Revenue a) = Ok (gross_margin r);
  fr_profit_margin : ratio_or_zero (Net_Income a) (Revenue a) = Ok (profit_margin r);
  fr_roa : ratio_or_zero (Net_Income a) (Total_Assets r) = Ok (roa r);
  fr_roe : ratio_or_zero (Net_Income a) (shareholders_equity a) = Ok (roe r);
  fr_dupont_roe :
    (t <- py_mul (profit_margin r) (total_asset_turnover r) ;;
     py_mul t (equity_multiplier r))%result = Ok (dupont_roe r);
  fr_market_cap :
    py_mul (stock_price a) (shares_outstanding a) = Ok (market_cap r);
  fr_pe_ratio :
    (if truthy (Net_Income a) && truthy (shares_outstanding a)
     then (t <- py_truediv (Net_Income a) (shares_outstanding a) ;;
           py_truediv (stock_price a) t)%result
     else Ok (of_int 0)) = Ok (pe_ratio r);
  fr_market_to_book :
    ratio_or_zero (market_cap r) (shareholders_equity a) = Ok (market_to_book r);
  fr_price_sales : ratio_or_zero (market_cap r) (Revenue a) = Ok (price_sales r);
  fr_enterprise_value :
    (t <- py_add (market_cap r) (long_term_debt a) ;;
     py_sub t (cash_equivalents a))%result = Ok (enterprise_value r);
  fr_ev_ebitda :
    ratio_or_zero (enterprise_value r) (EBITDA a) = Ok (ev_ebitda r);
  fr_inv_turnover : ratio_or_zero (COGS a) (inventory a) = Ok (inv_turnover r);
  fr_days_sales_inv :
    ratio_or_zero (of_int 365) (inv_turnover r) = Ok (days_sales_inv r);
  fr_rec_turnover :
    ratio_or_zero (Revenue a) (accounts_receivable a) = Ok (rec_turnover r);
  fr_days_sales_rec :
    ratio_or_zero (of_int 365) (rec_turnover r) = Ok (days_sales_rec r)
}.

Lemma financial_ratios_spec {T : Type} `{PyNumber T}
  (a : FinancialData T) (r : FinancialRatios T) :
  financial_ratios a = Ok r -> FinancialRatiosSpec a r.
Proof.
  unfold financial_ratios. intros Hr.
  bind_inv Hr.
  injection Hr as <-.
  constructor; cbn [Current_Assets Total_Assets Current_Liab NWC current_ratio
    quick_ratio cash_ratio interval_measure total_debt_ratio equity_multiplier
    ltd_ratio tie cash_coverage total_asset_turnover nwc_turnover
    fixed_asset_turnover gross_margin profit_margin roa roe dupont_roe market_cap
    pe_ratio market_to_book price_sales enterprise_value ev_ebitda inv_turnover
    days_sales_inv rec_turnover days_sales_rec];
    try assumption;
    repeat match goal with
    | E : ?c = Ok ?x |- rbind ?c _ = _ => rewrite E; cbn beta iota delta [rbind]
    end;
    assumption.
Qed.

(** The same for the locals of [analyze_marketing_performance]. *)
Record MarketingRatiosSpec {T : Type} `{PyNumber T}
  (Revenue : T) (a : MarketingData T) (r : MarketingRatios T) : Prop := {
  mr_cac :
    ratio_if_positive (marketing_spend a) (new_customers_acquired a) = Ok (cac r);
  mr_lost_customers :
    (t <- py_add (total_customers_start_period a) (new_customers_acquired a) ;;
     py_sub t (total_customers_end_period a))%result = Ok (lost_customers r);
  mr_churn_rate :
    ratio_if_positive (lost_customers r) (total_customers_start_period a)
    = Ok (churn_rate r);
  mr_retention_rate : py_sub (of_int 1) (churn_rate r) = Ok (retention_rate r);
  mr_starting_rev :
    py_mul (total_customers_start_period a) (avg_revenue_per_user_monthly a)
    = Ok (starting_rev r);
  mr_nrr :
    (if py_gt (starting_rev r) (of_int 0)
     then (t <- py_add (starting_rev r) (expansion_revenue a) ;;
           u <- py_mul (lost_customers r) (avg_revenue_per_user_monthly a) ;;
           t <- py_sub t u ;;
           py_truediv t (starting_rev r))%result
     else Ok (of_int 0)) = Ok (nrr r);
  mr_ltv :
    (if py_gt (churn_rate r) (of_int 0)
     then (t <- py_mul (avg_revenue_per_user_monthly a) (gross_margin_pct a) ;;
           py_truediv t (churn_rate r))%result
     else Ok (of_int 0)) = Ok (ltv r);
  mr_ltv_cac_ratio : ratio_if_positive (ltv r) (cac r) = Ok (ltv_cac_ratio r);
  mr_payback_period :
    (if py_gt (avg_revenue_per_user_monthly a) (of_int 0)
        && py_gt (gross_margin_pct a) (of_int 0)
     then (t <- py_mul (avg_revenue_per_user_monthly a) (gross_margin_pct a) ;;
           py_truediv (cac r) t)%result
     else Ok (of_int 0)) = Ok (payback_period r);
  mr_marketing_efficiency_ratio :
    ratio_if_positive Revenue (marketing_spend a) = Ok (marketing_efficiency_ratio r);
  mr_marketing_spend_pct :
    ratio_if_positive (marketing_spend a) Revenue = Ok (marketing_spend_pct r)
}.

Lemma marketing_ratios_spec {T : Type} `{PyNumber T}
  (Revenue : T) (a : MarketingData T) (r : MarketingRatios T) :
  marketing_ratios Revenue a = Ok r -> MarketingRatiosSpec Revenue a r.
Proof.
  unfold marketing_ratios. intros Hr.
  bind_inv Hr.
  injection Hr as <-.
  constructor; cbn [cac lost_customers churn_rate retention_rate starting_rev nrr
    ltv ltv_cac_ratio payback_period marketing_efficiency_ratio marketing_spend_pct];
    try assumption;
    repeat match goal with
    | E : ?c = Ok ?x |- rbind ?c _ = _ => rewrite E; cbn beta iota delta [rbind]
    end;
    assumption.
Qed.

(** The report dicts, read back: every leaf is the rounding or the
    formatting of one local, in the order of the dict literal. *)
Lemma financial_results_inv (r : FinancialRatios num) (rep : pyval) :
  financial_results r = Ok rep ->
  exists Current Quick Cash Interval Debt_Ratio Multiplier LTD TIE Cash_Coverage
         Total_Asset NWC' Fixed_Asset Gross_Margin Profit_Margin ROA ROE
         Profitability_Lever Efficiency_Lever Leverage_Lever Calculated_ROE
         PE Market_Book Price_Sales EV EV_EBITDA Inv_Turnover DSI Rec_Turnover DSO,
    (Num.round (current_ratio r) 2 = Ok Current /\
     Num.round (quick_ratio r) 2 = Ok Quick /\
     Num.round (cash_ratio r) 2 = Ok Cash /\
     Num.round (interval_measure r) 2 = Ok Interval) /\
    (Num.round (total_debt_ratio r) 2 = Ok Debt_Ratio /\
     Num.round (equity_multiplier r) 2 = Ok Multiplier /\
     Num.round (ltd_ratio r) 2 = Ok LTD /\
     Num.round (tie r) 2 = Ok TIE /\
     Num.round (cash_coverage r) 2 = Ok Cash_Coverage) /\
    (Num.round (total_asset_turnover r) 2 = Ok Total_Asset /\
     Num.round (nwc_turnover r) 2 = Ok NWC' /\
     Num.round (fixed_asset_turnover r) 2 = Ok Fixed_Asset) /\
    (Num.round (gross_margin r) 4 = Ok Gross_Margin /\
     Num.round (profit_margin r) 4 = Ok Profit_Margin /\
     Num.round (roa r) 4 = Ok ROA /\
     Num.round (roe r) 4 = Ok ROE) /\
    (Num.round (profit_margin r) 4 = Ok Profitability_Lever /\
     Num.round (total_asset_turnover r) 2 = Ok Efficiency_Lever /\
     Num.round (equity_multiplier r) 2 = Ok Leverage_Lever /\
     Num.round (dupont_roe r) 4 = Ok Calculated_ROE) /\
    (Num.round (pe_ratio r) 2 = Ok PE /\
     Num.round (market_to_book r) 2 = Ok Market_Book /\
     Num.round (price_sales r) 4 = Ok Price_Sales /\
     Num.round (enterprise_value r) 2 = Ok EV /\
     Num.round (ev_ebitda r) 2 = Ok EV_EBITDA) /\
    (Num.round (inv_turnover r) 2 = Ok Inv_Turnover /\
     Num.round (days_sales_inv r) 2 = Ok DSI /\
     Num.round (rec_turnover r) 2 = Ok Rec_Turnover /\
     Num.round (days_sales_rec r) 2 = Ok DSO) /\
    rep = PDict [
      ("Liquidity", PDict [
         ("Current", PNum Current); ("Quick", PNum Quick);
         ("Cash", PNum Cash); ("Interval", PNum Interval)]);
      ("Solvency", PDict [
         ("Debt Ratio", PNum Debt_Ratio); ("Multiplier", PNum Multiplier);
         ("LTD", PNum LTD); ("TIE", PNum TIE);
         ("Cash Coverage", PNum Cash_Coverage)]);
      ("Turnover", PDict [
         ("Total Asset", PNum Total_Asset); ("NWC", PNum NWC');
         ("Fixed Asset", PNum Fixed_Asset)]);
      ("Profitability", PDict [
         ("Gross Margin", PNum Gross_Margin); ("Profit Margin", PNum Profit_Margin);
         ("ROA", PNum ROA); ("ROE", PNum ROE)]);
      ("DuPont_Breakdown", PDict [
         ("Profitability_Lever", PNum Profitability_Lever);
         ("Efficiency_Lever", PNum Efficiency_Lever);
         ("Leverage_Lever", PNum Leverage_Lever);
         ("Calculated_ROE", PNum Calculated_ROE)]);
      ("Market", PDict [
         ("P/E", PNum PE); ("Market/Book", PNum Market_Book);
         ("Price/Sales", PNum Price_Sales); ("EV", PNum EV);
         ("EV_EBITDA", PNum EV_EBITDA)]);
      ("Operational", PDict [
         ("Inv_Turnover", PNum Inv_Turnover); ("DSI", PNum DSI);
         ("Rec_Turnover", PNum Rec_Turnover); ("DSO", PNum DSO)])
    ].
Proof.
  unfold financial_results. intros Hr.
  bind_inv Hr.
  injection Hr as <-.
  do 29 eexists.
  repeat apply conj.
  30: reflexivity.
  all: assumption.
Qed.

Lemma marketing_results_inv (r : MarketingRatios num) (rep : pyval) :
  marketing_results r = Ok rep ->
  exists CAC Marketing_Spend_Pct Marketing_Efficiency_Ratio Retention_Rate
         Churn_Rate Net_Revenue_Retention LTV LTV_CAC_Ratio Payback_Period_Months,
    (Num.round (cac r) 2 = Ok CAC /\
     Fmt.percent1 (marketing_spend_pct r) = Ok Marketing_Spend_Pct /\
     Num.round (marketing_efficiency_ratio r) 2 = Ok Marketing_Efficiency_Ratio) /\
    (Fmt.percent1 (retention_rate r) = Ok Retention_Rate /\
     Fmt.percent1 (churn_rate r) = Ok Churn_Rate /\
     Fmt.percent1 (nrr r) = Ok Net_Revenue_Retention /\
     Num.round (ltv r) 2 = Ok LTV) /\
    (Num.round (ltv_cac_ratio r) 2 = Ok LTV_CAC_Ratio /\
     Num.round (payback_period r) 1 = Ok Payback_Period_Months) /\
    rep = PDict [
      ("Acquisition", PDict [
         ("CAC", PNum CAC);
         ("Marketing_Spend_Pct", PStr Marketing_Spend_Pct);
         ("Marketing_Efficiency_Ratio", PNum Marketing_Efficiency_Ratio)]);
      ("Retention_and_Value", PDict [
         ("Retention_Rate", PStr Retention_Rate);
         ("Churn_Rate", PStr Churn_Rate);
         ("Net_Revenue_Retention", PStr Net_Revenue_Retention);
         ("LTV", PNum LTV)]);
      ("Unit_Economics", PDict [
         ("LTV_CAC_Ratio", PNum LTV_CAC_Ratio);
         ("Payback_Period_Months", PNum Payback_Period_Months);
         ("Status", PStr (status_of (ltv_cac_ratio r)))])
    ].
Proof.
  unfold marketing_results. intros Hr.
  bind_inv Hr.
  injection Hr as <-.
  do 9 eexists.
  repeat apply conj.
  10: reflexivity.
  all: assumption.
Qed.

(** Evaluate the closed left-hand side of an equation. *)
Ltac compute_lhs E :=
  match type of E with
  | ?l = _ =>
      let v := eval vm_compute in l in
      replace l with v in E by (vm_compute; reflexivity)
  end.

(** ** Guards *)

Lemma ratio_or_zero_falsy {T : Type} `{PyNumber T} (n d : T) :
  truthy d = false -> ratio_or_zero n d = Ok (of_int 0).
Proof. unfold ratio_or_zero. intros ->. reflexivity. Qed.

Lemma ratio_if_positive_not_gt {T : Type} `{PyNumber T} (n d : T) :
  py_gt d (of_int 0) = false -> ratio_if_positive n d = Ok (of_int 0).
Proof. unfold ratio_if_positive. intros ->. reflexivity. Qed.

(** A zero, of either type and either sign, is not [> 0]. *)
Lemma falsy_not_gt_zero (x : num) :
  truthy x = false -> py_gt x (of_int 0) = false.
Proof.
  destruct x as [z|f]; cbn.
  - intros Hz. apply negb_false_iff, Z.eqb_eq in Hz. subst z. reflexivity.
  - destruct f; cbn; intros Hz; try discriminate; reflexivity.
Qed.

(** Non-positive ints and floats, and NaN, are not [> 0]. *)
Lemma int_not_gt_zero (z : Z) : z <= 0 -> py_gt (Int z) (of_int 0) = false.
Proof.
  intros Hz. cbn. unfold Num.gt, Num.compare.
  destruct (Z.compare z 0) eqn:E; try reflexivity.
  apply Z.compare_gt_iff in E. lia.
Qed.

Lemma float_not_gt_zero (f : spec_float) :
  B64.sign f = true \/ B64.is_zero f = true \/ f = S754_nan ->
  py_gt (Float f) (of_int 0) = false.
Proof.
  intros [Hs | [Hz | ->]]; [ | | reflexivity].
  - destruct f as [s|s| |s m e]; cbn in Hs; subst; try discriminate; try reflexivity.
    change (Num.gt (Float (S754_finite true m e)) (Int 0) = false).
    unfold Num.gt, Num.compare, Num.cmp_float_Z.
    assert (Hp : forall p, (0 < 2 ^ Z.pos p)%Z) by (intros p; apply Z.pow_pos_nonneg; lia).
    destruct e as [|p|p];
      match goal with
      | |- context [Z.compare ?x ?y] => destruct (Z.compare x y) eqn:E
      end; try reflexivity; apply Z.compare_gt_iff in E;
      try specialize (Hp p); try rewrite Z.pow_0_r in E; nia.
  - destruct f; try discriminate. reflexivity.
Qed.

Lemma round_zero (n : N) (x : num) : Num.round (Int 0) n = Ok x -> x = Int 0.
Proof. cbn. intros [= <-]. reflexivity. Qed.

Lemma percent1_zero (s : string) : Fmt.percent1 (Int 0) = Ok s -> s = "0.0%".
Proof. vm_compute. intros [= <-]. reflexivity. Qed.

(** From a defining line whose guard is off to the value of the local. *)
Ltac guard_off E Hz :=
  unfold ratio_or_zero, ratio_if_positive in E;
  rewrite ?Hz, ?andb_false_r in E; cbn [andb] in E;
  injection E as E; symmetry in E.

(** What the marketing report holds when the guard of a ratio is off. *)
Lemma marketing_guard_off (Rev : num) (m : MarketingData num)
  (mr : MarketingRatios num) (mrep : pyval) :
  marketing_ratios Rev m = Ok mr ->
  marketing_results mr = Ok mrep ->
  (py_gt (new_customers_acquired m) (of_int 0) = false ->
     cac mr = Int 0 /\ reports_zero mrep "Acquisition" "CAC") /\
  (py_gt (total_customers_start_period m) (of_int 0) = false ->
     churn_rate mr = Int 0 /\
     reports_text mrep "Retention_and_Value" "Churn_Rate" "0.0%") /\
  (py_gt (starting_rev mr) (of_int 0) = false ->
     nrr mr = Int 0 /\
     reports_text mrep "Retention_and_Value" "Net_Revenue_Retention" "0.0%") /\
  (py_gt (churn_rate mr) (of_int 0) = false ->
     ltv mr = Int 0 /\ reports_zero mrep "Retention_and_Value" "LTV") /\
  (py_gt (cac mr) (of_int 0) = false ->
     ltv_cac_ratio mr = Int 0 /\ reports_zero mrep "Unit_Economics" "LTV_CAC_Ratio") /\
  (py_gt (avg_revenue_per_user_monthly m) (of_int 0) = false \/
   py_gt (gross_margin_pct m) (of_int 0) = false ->
     payback_period mr = Int 0 /\
     reports_zero mrep "Unit_Economics" "Payback_Period_Months") /\
  (py_gt (marketing_spend m) (of_int 0) = false ->
     marketing_efficiency_ratio mr = Int 0 /\
     reports_zero mrep "Acquisition" "Marketing_Efficiency_Ratio") /\
  (py_gt Rev (of_int 0) = false ->
     marketing_spend_pct mr = Int 0 /\
     reports_text mrep "Acquisition" "Marketing_Spend_Pct" "0.0%").
Proof.
  intros Hr Hrep.
  pose proof (marketing_ratios_spec _ _ _ Hr) as S.
  apply marketing_results_inv in Hrep.
  destruct Hrep as (CAC & MSP & MER & RR & CR & NRR & LTV & LCR & PP &
                    (R1 & R2 & R3) & (R4 & R5 & R6 & R7) & (R8 & R9) & ->).
  unfold reports_zero, reports_text.
  repeat apply conj.
  - intros Hz. pose proof (mr_cac _ _ _ S) as E. guard_off E Hz.
    rewrite E in R1. apply round_zero in R1. subst. split; [exact E | reflexivity].
  - intros Hz. pose proof (mr_churn_rate _ _ _ S) as E. guard_off E Hz.
    rewrite E in R5. apply percent1_zero in R5. subst. split; [exact E | reflexivity].
  - intros Hz. pose proof (mr_nrr _ _ _ S) as E. guard_off E Hz.
    rewrite E in R6. apply percent1_zero in R6. subst. split; [exact E | reflexivity].
  - intros Hz. pose proof (mr_ltv _ _ _ S) as E. guard_off E Hz.
    rewrite E in R7. apply round_zero in R7. subst. split; [exact E | reflexivity].
  - intros Hz. pose proof (mr_ltv_cac_ratio _ _ _ S) as E. guard_off E Hz.
    rewrite E in R8. apply round_zero in R8. subst. split; [exact E | reflexivity].
  - intros [Hz | Hz]; pose proof (mr_payback_period _ _ _ S) as E; guard_off E Hz;
      rewrite E in R9; apply round_zero in R9; subst; (split; [exact E | reflexivity]).
  - intros Hz. pose proof (mr_marketing_efficiency_ratio _ _ _ S) as E. guard_off E Hz.
    rewrite E in R3. apply round_zero in R3. subst. split; [exact E | reflexivity].
  - intros Hz. pose proof (mr_marketing_spend_pct _ _ _ S) as E. guard_off E Hz.
    rewrite E in R2. apply percent1_zero in R2. subst. split; [exact E | reflexivity].
Qed.

(** What the financial report holds when the guard of a ratio is off. *)
Lemma financial_guard_off (a : FinancialData num) (r : FinancialRatios num)
  (rep : pyval) :
  financial_ratios a = Ok r ->
  financial_results r = Ok rep ->
  (truthy (Current_Liab r) = false ->
     reports_zero rep "Liquidity" "Current" /\
     reports_zero rep "Liquidity" "Quick" /\
     reports_zero rep "Liquidity" "Cash") /\
  (truthy (COGS a) = false -> reports_zero rep "Liquidity" "Interval") /\
  (truthy (Total_Assets r) = false ->
     reports_zero rep "Solvency" "Debt Ratio" /\
     reports_zero rep "Turnover" "Total Asset" /\
     reports_zero rep "Profitability" "ROA" /\
     reports_zero rep "DuPont_Breakdown" "Efficiency_Lever") /\
  (truthy (shareholders_equity a) = false ->
     reports_zero rep "Solvency" "Multiplier" /\
     reports_zero rep "Profitability" "ROE" /\
     reports_zero rep "DuPont_Breakdown" "Leverage_Lever" /\
     reports_zero rep "Market" "Market/Book") /\
  (forall g, py_add (long_term_debt a) (shareholders_equity a) = Ok g ->
     truthy g = false -> reports_zero rep "Solvency" "LTD") /\
  (truthy (Interest_Expense a) = false ->
     reports_zero rep "Solvency" "TIE" /\
     reports_zero rep "Solvency" "Cash Coverage") /\
  (truthy (NWC r) = false -> reports_zero rep "Turnover" "NWC") /\
  (truthy (fixed_assets_ppe a) = false -> reports_zero rep "Turnover" "Fixed Asset") /\
  (truthy (Revenue a) = false ->
     reports_zero rep "Profitability" "Gross Margin" /\
     reports_zero rep "Profitability" "Profit Margin" /\
     reports_zero rep "DuPont_Breakdown" "Profitability_Lever" /\
     reports_zero rep "Market" "Price/Sales") /\
  (truthy (Net_Income a) = false \/ truthy (shares_outstanding a) = false ->
     reports_zero rep "Market" "P/E") /\
  (truthy (EBITDA a) = false -> reports_zero rep "Market" "EV_EBITDA") /\
  (truthy (inventory a) = false ->
     reports_zero rep "Operational" "Inv_Turnover" /\
     reports_zero rep "Operational" "DSI") /\
  (truthy (inv_turnover r) = false -> reports_zero rep "Operational" "DSI") /\
  (truthy (accounts_receivable a) = false ->
     reports_zero rep "Operational" "Rec_Turnover" /\
     reports_zero rep "Operational" "DSO") /\
  (truthy (rec_turnover r) = false -> reports_zero rep "Operational" "DSO").
Proof.
  intros Hr Hrep.
  pose proof (financial_ratios_spec _ _ Hr) as S.
  apply financial_results_inv in Hrep.
  destruct Hrep as
    (Current & Quick & Cash & Interval & Debt_Ratio & Multiplier & LTD & TIE &
     Cash_Coverage & Total_Asset & NWC' & Fixed_Asset & Gross_Margin &
     Profit_Margin & ROA & ROE & Profitability_Lever & Efficiency_Lever &
     Leverage_Lever & Calculated_ROE & PE & Market_Book & Price_Sales & EV &
     EV_EBITDA & Inv_Turnover & DSI & Rec_Turnover & DSO &
     (L1 & L2 & L3 & L4) & (S1 & S2 & S3 & S4 & S5) & (T1 & T2 & T3) &
     (P1 & P2 & P3 & P4) & (D1 & D2 & D3 & D4) & (M1 & M2 & M3 & M4 & M5) &
     (O1 & O2 & O3 & O4) & ->).
  destruct S.
  unfold reports_zero.
  repeat apply conj; try intros g Hg; intros Hz.
  - guard_off fr_current_ratio0 Hz. guard_off fr_quick_ratio0 Hz.
    guard_off fr_cash_ratio0 Hz.
    rewrite fr_current_ratio0 in L1. rewrite fr_quick_ratio0 in L2.
    rewrite fr_cash_ratio0 in L3.
    apply round_zero in L1, L2, L3. subst. repeat split.
  - guard_off fr_interval_measure0 Hz. rewrite fr_interval_measure0 in L4.
    apply round_zero in L4. subst. reflexivity.
  - guard_off fr_total_debt_ratio0 Hz. guard_off fr_total_asset_turnover0 Hz.
    guard_off fr_roa0 Hz.
    rewrite fr_total_debt_ratio0 in S1. rewrite fr_total_asset_turnover0 in T1, D2.
    rewrite fr_roa0 in P3.
    apply round_zero in S1, T1, D2, P3. subst. repeat split.
  - guard_off fr_equity_multiplier0 Hz. guard_off fr_roe0 Hz.
    guard_off fr_market_to_book0 Hz.
    rewrite fr_equity_multiplier0 in S2, D3. rewrite fr_roe0 in P4.
    rewrite fr_market_to_book0 in M2.
    apply round_zero in S2, D3, P4, M2. subst. repeat split.
  - rewrite Hg in fr_ltd_ratio0. cbn beta iota delta [rbind] in fr_ltd_ratio0.
    guard_off fr_ltd_ratio0 Hz. rewrite fr_ltd_ratio0 in S3.
    apply round_zero in S3. subst. reflexivity.
  - guard_off fr_tie0 Hz. guard_off fr_cash_coverage0 Hz.
    rewrite fr_tie0 in S4. rewrite fr_cash_coverage0 in S5.
    apply round_zero in S4, S5. subst. repeat split.
  - guard_off fr_nwc_turnover0 Hz. rewrite fr_nwc_turnover0 in T2.
    apply round_zero in T2. subst. reflexivity.
  - guard_off fr_fixed_asset_turnover0 Hz. rewrite fr_fixed_asset_turnover0 in T3.
    apply round_zero in T3. subst. reflexivity.
  - guard_off fr_gross_margin0 Hz. guard_off fr_profit_margin0 Hz.
    guard_off fr_price_sales0 Hz.
    rewrite fr_gross_margin0 in P1. rewrite fr_profit_margin0 in P2, D1.
    rewrite fr_price_sales0 in M3.
    apply round_zero in P1, P2, D1, M3. subst. repeat split.
  - destruct Hz as [Hz | Hz]; guard_off fr_pe_ratio0 Hz; rewrite fr_pe_ratio0 in M1;
      apply round_zero in M1; subst; reflexivity.
  - guard_off fr_ev_ebitda0 Hz. rewrite fr_ev_ebitda0 in M5.
    apply round_zero in M5. subst. reflexivity.
  - guard_off fr_inv_turnover0 Hz. rewrite fr_inv_turnover0 in *.
    cbn in fr_days_sales_inv0. injection fr_days_sales_inv0 as E. rewrite <- E in O2.
    apply round_zero in O1, O2. subst. repeat split.
  - guard_off fr_days_sales_inv0 Hz. rewrite fr_days_sales_inv0 in O2.
    apply round_zero in O2. subst. reflexivity.
  - guard_off fr_rec_turnover0 Hz. rewrite fr_rec_turnover0 in *.
    cbn in fr_days_sales_rec0. injection fr_days_sales_rec0 as E. rewrite <- E in O4.
    apply round_zero in O3, O4. subst. repeat split.
  - guard_off fr_days_sales_rec0 Hz. rewrite fr_days_sales_rec0 in O4.
    apply round_zero in O4. subst. reflexivity.
Qed.

(** The same for the marketing report and operands that are zero. *)
Lemma marketing_zero_guard_off (Rev : num) (m : MarketingData num)
  (mr : MarketingRatios num) (mrep : pyval) :
  marketing_ratios Rev m = Ok mr ->
  marketing_results mr = Ok mrep ->
  (truthy (new_customers_acquired m) = false ->
     cac mr = Int 0 /\ reports_zero mrep "Acquisition" "CAC") /\
  (truthy (total_customers_start_period m) = false ->
     churn_rate mr = Int 0 /\
     reports_text mrep "Retention_and_Value" "Churn_Rate" "0.0%") /\
  (truthy (starting_rev mr) = false ->
     nrr mr = Int 0 /\
     reports_text mrep "Retention_and_Value" "Net_Revenue_Retention" "0.0%") /\
  (truthy (churn_rate mr) = false ->
     ltv mr = Int 0 /\ reports_zero mrep "Retention_and_Value" "LTV") /\
  (truthy (cac mr) = false ->
     ltv_cac_ratio mr = Int 0 /\ reports_zero mrep "Unit_Economics" "LTV_CAC_Ratio") /\
  (truthy (avg_revenue_per_user_monthly m) = false \/
   truthy (gross_margin_pct m) = false ->
     payback_period mr = Int 0 /\
     reports_zero mrep "Unit_Economics" "Payback_Period_Months") /\
  (truthy (marketing_spend m) = false ->
     marketing_efficiency_ratio mr = Int 0 /\
     reports_zero mrep "Acquisition" "Marketing_Efficiency_Ratio") /\
  (truthy Rev = false ->
     marketing_spend_pct mr = Int 0 /\
     reports_text mrep "Acquisition" "Marketing_Spend_Pct" "0.0%").
Proof.
  intros Hmr Hmrep.
  destruct (marketing_guard_off _ _ _ _ Hmr Hmrep)
    as (G1 & G2 & G3 & G4 & G5 & G6 & G7 & G8).
  repeat apply conj; intros Hz.
  - apply G1, falsy_not_gt_zero, Hz.
  - apply G2, falsy_not_gt_zero, Hz.
  - apply G3, falsy_not_gt_zero, Hz.
  - apply G4, falsy_not_gt_zero, Hz.
  - apply G5, falsy_not_gt_zero, Hz.
  - apply G6. destruct Hz as [Hz | Hz]; [left | right]; apply falsy_not_gt_zero, Hz.
  - apply G7, falsy_not_gt_zero, Hz.
  - apply G8, falsy_not_gt_zero, Hz.
Qed.

(** ** C8: the worked marketing example *)

(** C8.  With [marketing_spend = 75000] and [new_customers_acquired = 300]
    the reported CAC is [250.00]; with [total_customers_start_period = 2000]
    and [total_customers_end_period = 2200], [lost_customers] is
    [2000 + 300 - 2200 = 100], [churn_rate] is [100 / 2000 = 0.05] and the
    reported [Churn_Rate] is the string [5.0%], whatever the other inputs
    of a run that produces the report. *)
Theorem worked_example_cac_and_churn
  (Rev : num) (m : MarketingData num) (mr : MarketingRatios num) (mrep : pyval) :
  marketing_spend m = Int 75000 ->
  new_customers_acquired m = Int 300 ->
  total_customers_start_period m = Int 2000 ->
  total_customers_end_period m = Int 2200 ->
  marketing_ratios Rev m = Ok mr ->
  marketing_results mr = Ok mrep ->
  cac mr = float_lit 25000 (-2) /\
  reports mrep "Acquisition" "CAC" (float_lit 25000 (-2)) /\
  lost_customers mr = Int (2000 + 300 - 2200) /\
  lost_customers mr = Int 100 /\
  churn_rate mr = float_lit 5 (-2) /\
  reports_text mrep "Retention_and_Value" "Churn_Rate" "5.0%".
Proof.
  intros Hspend Hnew Hstart Hend Hmr Hmrep.
  pose proof (marketing_ratios_spec _ _ _ Hmr) as S.
  apply marketing_results_inv in Hmrep.
  destruct Hmrep as (CAC & MSP & MER & RR & CR & NRR & LTV & LCR & PP &
                     (R1 & R2 & R3) & (R4 & R5 & R6 & R7) & (R8 & R9) & ->).
  pose proof (mr_cac _ _ _ S) as Ecac.
  pose proof (mr_lost_customers _ _ _ S) as Elost.
  pose proof (mr_churn_rate _ _ _ S) as Echurn.
  rewrite Hspend, Hnew in Ecac.
  rewrite Hstart, Hnew, Hend in Elost.
  compute_lhs Ecac. injection Ecac as Ecac.
  compute_lhs Elost. injection Elost as Elost.
  rewrite <- Elost, Hstart in Echurn.
  compute_lhs Echurn. injection Echurn as Echurn.
  rewrite <- Ecac in R1. compute_lhs R1. injection R1 as R1.
  rewrite <- Echurn in R5. compute_lhs R5. injection R5 as R5.
  subst CAC CR.
  repeat split; try (symmetry; assumption).
Qed.

Lemma worked_example_cac_and_churn_witness :
  exists mr mrep,
    marketing_ratios (Int 1200000) sample_marketing_data = Ok mr /\
    marketing_results mr = Ok mrep /\
    reports mrep "Acquisition" "CAC" (float_lit 25000 (-2)) /\
    reports_text mrep "Retention_and_Value" "Churn_Rate" "5.0%".
Proof.
  eexists. eexists.
  split; [vm_compute; reflexivity | ].
  split; [vm_compute; reflexivity | ].
  match goal with
  | |- reports ?mrep _ _ _ /\ _ =>
      destruct (worked_example_cac_and_churn (Int 1200000) sample_marketing_data
                  _ mrep eq_refl eq_refl eq_refl eq_refl eq_refl eq_refl)
        as (_ & G1 & _ & _ & _ & G2)
  end.
  split; [exact G1 | exact G2].
Defined.

(** ** C4: the status threshold *)

(** C4, as stated, fails: with an LTV:CAC of 2.996 the report shows
    [LTV_CAC_Ratio = 3.0], which is [>= 3], and [Status] is
    [Needs Optimization]. *)
Lemma status_differs_from_reported_ratio :
  exists mrep,
    marketing_metrics (Int 1200000) rounding_edge_marketing_data = Ok mrep /\
    reports mrep "Unit_Economics" "LTV_CAC_Ratio" (float_lit 30 (-1)) /\
    py_ge (float_lit 30 (-1)) (Int 3) = true /\
    reports_text mrep "Unit_Economics" "Status" "Needs Optimization".
Proof.
  eexists. split; [vm_compute; reflexivity | ].
  repeat split.
Qed.

(** C4, amended.  [Status] is [Healthy] exactly when the unrounded
    [ltv_cac_ratio] is [>= 3], and [Needs Optimization] otherwise; the
    threshold is inclusive ([Healthy] at exactly 3.0, [Needs Optimization]
    at 2.99); the reported [LTV_CAC_Ratio] is that ratio rounded to two
    places. *)
Theorem status_follows_unrounded_ratio
  (Rev : num) (m : MarketingData num) (mr : MarketingRatios num) (mrep : pyval) :
  marketing_ratios Rev m = Ok mr ->
  marketing_results mr = Ok mrep ->
  (reports_text mrep "Unit_Economics" "Status" "Healthy" <->
     py_ge (ltv_cac_ratio mr) (Int 3) = true) /\
  (reports_text mrep "Unit_Economics" "Status" "Needs Optimization" <->
     py_ge (ltv_cac_ratio mr) (Int 3) = false) /\
  (ltv_cac_ratio mr = float_lit 30 (-1) ->
     reports_text mrep "Unit_Economics" "Status" "Healthy") /\
  (ltv_cac_ratio mr = float_lit 299 (-2) ->
     reports_text mrep "Unit_Economics" "Status" "Needs Optimization") /\
  (exists x, Num.round (ltv_cac_ratio mr) 2 = Ok x /\
     reports mrep "Unit_Economics" "LTV_CAC_Ratio" x).
Proof.
  intros Hmr Hmrep.
  apply marketing_results_inv in Hmrep.
  destruct Hmrep as (CAC & MSP & MER & RR & CR & NRR & LTV & LCR & PP &
                     (R1 & R2 & R3) & (R4 & R5 & R6 & R7) & (R8 & R9) & ->).
  assert (Hs : forall text,
             reports_text
               (PDict [
                  ("Acquisition", PDict [
                     ("CAC", PNum CAC);
                     ("Marketing_Spend_Pct", PStr MSP);
                     ("Marketing_Efficiency_Ratio", PNum MER)]);
                  ("Retention_and_Value", PDict [
                     ("Retention_Rate", PStr RR);
                     ("Churn_Rate", PStr CR);
                     ("Net_Revenue_Retention", PStr NRR);
                     ("LTV", PNum LTV)]);
                  ("Unit_Economics", PDict [
                     ("LTV_CAC_Ratio", PNum LCR);
                     ("Payback_Period_Months", PNum PP);
                     ("Status", PStr (status_of (ltv_cac_ratio mr)))])])
               "Unit_Economics" "Status" text
             <-> status_of (ltv_cac_ratio mr) = text).
  { intros text. unfold reports_text. cbn. split.
    - intros [= ->]. reflexivity.
    - intros ->. reflexivity. }
  repeat apply conj.
  - intros Hh. apply Hs in Hh. unfold status_of in Hh.
    destruct (py_ge (ltv_cac_ratio mr) (Int 3)); [reflexivity | discriminate].
  - intros Hge. apply Hs. unfold status_of.
    rewrite Hge. reflexivity.
  - intros Hh. apply Hs in Hh. unfold status_of in Hh.
    destruct (py_ge (ltv_cac_ratio mr) (Int 3)); [discriminate | reflexivity].
  - intros Hge. apply Hs. unfold status_of.
    rewrite Hge. reflexivity.
  - intros E. apply Hs. rewrite E. reflexivity.
  - intros E. apply Hs. rewrite E. reflexivity.
  - exists LCR. split; [exact R8 | reflexivity].
Qed.

Lemma status_follows_unrounded_ratio_witness :
  exists mr mrep,
    marketing_ratios (Int 1200000) rounding_edge_marketing_data = Ok mr /\
    marketing_results mr = Ok mrep /\
    py_ge (ltv_cac_ratio mr) (Int 3) = false /\
    reports_text mrep "Unit_Economics" "Status" "Needs Optimization".
Proof.
  eexists. eexists.
  split; [vm_compute; reflexivity | ].
  split; [vm_compute; reflexivity | ].
  split; [vm_compute; reflexivity | ].
  match goal with
  | |- reports_text ?mrep _ _ _ =>
      destruct (status_follows_unrounded_ratio (Int 1200000)
                  rounding_edge_marketing_data _ mrep eq_refl eq_refl)
        as (_ & (_ & G) & _)
  end.
  apply G. vm_compute. reflexivity.
Defined.

(** ** C5: a failing collaborator aborts the orchestration *)

(** C5.  In [analyze_business], when the collaborator answers the financial
    prompt and raises on the marketing prompt, the call raises that same
    exception: no dict is returned, so neither the financial metrics nor
    the financial narrative reach the caller; the collaborator has been
    handed exactly the financial and the marketing prompt, and is left in
    the state of its second call, so the CEO call was never made. *)
Theorem second_call_failure_aborts
  (float_repr : spec_float -> string) (Backend : Type)
  (call_llm : string -> Backend -> result string * Backend)
  (f : FinancialData num) (m : MarketingData num) (w : world Backend)
  (fm mm : pyval) (narrative : string) (e : exn) (b1 b2 : Backend) :
  financial_metrics f = Ok fm ->
  call_llm (financial_prompt float_repr fm) (backend w) = (Ok narrative, b1) ->
  marketing_metrics (Revenue f) m = Ok mm ->
  call_llm (marketing_prompt float_repr mm) b1 = (Raise e, b2) ->
  analyze_business float_repr Backend call_llm f m w =
    (Raise e,
     {| backend := b2;
        sent := sent w ++ [financial_prompt float_repr fm;
                           marketing_prompt float_repr mm] |}).
Proof.
  intros Hfm Hc1 Hmm Hc2.
  unfold analyze_business, financial_analysis, analyze_marketing_performance,
    construct_prompt_financial, construct_prompt_marketing, bind, lift, call, ret.
  rewrite Hfm. rewrite Hc1. cbn [backend sent].
  rewrite Hmm. cbn [backend sent]. rewrite Hc2.
  rewrite <- app_assoc. reflexivity.
Qed.

Lemma second_call_failure_aborts_witness :
  exists w' : world nat,
    analyze_business placeholder_repr nat failing_on_second_call
      sample_financial_data sample_marketing_data fresh_world
    = (Raise (GenerationError "quota exceeded"), w') /\
    backend w' = 2%nat /\
    List.length (sent w') = 2%nat.
Proof.
  eexists. split.
  - eapply second_call_failure_aborts
      with (narrative := "narrative") (b1 := 1%nat) (b2 := 2%nat).
    + vm_compute. reflexivity.
    + reflexivity.
    + vm_compute. reflexivity.
    + reflexivity.
  - split; reflexivity.
Defined.

(** ** C6: what [construct_prompt_financial] returns *)

(** C6, as stated, fails: the function does not return the prompt it
    formats.  With a collaborator that answers [narrative], it returns
    [narrative], and the prompt is a different string. *)
Lemma construct_prompt_financial_returns_the_answer :
  fst (construct_prompt_financial placeholder_repr nat answering_collaborator
         (PDict []) fresh_world) = Ok "narrative" /\
  fst (construct_prompt_financial placeholder_repr nat answering_collaborator
         (PDict []) fresh_world) <> Ok (financial_prompt placeholder_repr (PDict [])).
Proof.
  split.
  - reflexivity.
  - vm_compute. discriminate.
Qed.

Lemma append_assoc (a b c : string) : (a ++ b) ++ c = a ++ (b ++ c).
Proof.
  induction a as [|x a IH]; cbn; [reflexivity | rewrite IH; reflexivity].
Qed.

Lemma starts_with_append (p s : string) : String.prefix p (p ++ s) = true.
Proof.
  induction p as [|c p IH]; cbn.
  - destruct s; reflexivity.
  - destruct (ascii_dec c c) as [_|Hne]; [exact IH | contradiction].
Qed.

Lemma cfo_prompt_opening (s : string) :
  String.prefix
    "You are a Senior Strategic Business Consultant and Fractional CFO."
    (Template.cfo ++ s) = true.
Proof.
  replace Template.cfo with
    ("You are a Senior Strategic Business Consultant and Fractional CFO."
     ++ substring 66 (String.length Template.cfo) Template.cfo)
    by (vm_compute; reflexivity).
  rewrite append_assoc. apply starts_with_append.
Qed.

(** C6, amended.  [construct_prompt_financial] formats the prompt (the
    fixed Fractional-CFO template followed by the report as
    [json.dumps(results, indent=2)] writes it), hands exactly that prompt
    to [call_llm], once, and returns what [call_llm] returns: the narrative
    or its exception, not the prompt.  It only serialises: the report that
    [financial_analysis] returns next to the narrative is the one it
    computed and serialised. *)
Theorem construct_prompt_financial_sends_the_prompt
  (float_repr : spec_float -> string) (Backend : Type)
  (call_llm : string -> Backend -> result string * Backend) :
  (forall (results : pyval) (w : world Backend),
     let prompt := Template.cfo ++ Json.dumps float_repr results in
     let out := construct_prompt_financial float_repr Backend call_llm results w in
     fst out = fst (call_llm prompt (backend w)) /\
     backend (snd out) = snd (call_llm prompt (backend w)) /\
     sent (snd out) = (sent w ++ [prompt])%list /\
     String.prefix
       "You are a Senior Strategic Business Consultant and Fractional CFO."
       prompt = true) /\
  (forall (a : FinancialData num) (w w' : world Backend)
          (rep : pyval) (narrative : string),
     financial_analysis float_repr Backend call_llm a w = (Ok (rep, narrative), w') ->
     financial_metrics a = Ok rep /\
     fst (call_llm (financial_prompt float_repr rep) (backend w)) = Ok narrative /\
     sent w' = (sent w ++ [financial_prompt float_repr rep])%list).
Proof.
  split.
  - intros results w prompt out.
    unfold out, construct_prompt_financial, call, financial_prompt.
    fold prompt.
    destruct (call_llm prompt (backend w)) as [r b] eqn:Hc.
    cbn [fst snd backend sent].
    split; [reflexivity | ].
    split; [reflexivity | ].
    split; [reflexivity | ].
    apply cfo_prompt_opening.
  - intros a w w' rep narrative.
    unfold financial_analysis, construct_prompt_financial, bind, lift, call, ret.
    destruct (financial_metrics a) as [fm|e]; [ | discriminate].
    destruct (call_llm (financial_prompt float_repr fm) (backend w)) as [r b] eqn:Hc.
    destruct r as [text|e]; [ | discriminate].
    intros [= <- <- <-].
    rewrite Hc. repeat split.
Qed.

Lemma construct_prompt_financial_sends_the_prompt_witness :
  exists (rep : pyval) (w' : world nat),
    financial_analysis placeholder_repr nat answering_collaborator
      sample_financial_data fresh_world = (Ok (rep, "narrative"), w') /\
    financial_metrics sample_financial_data = Ok rep /\
    sent w' = [financial_prompt placeholder_repr rep].
Proof.
  eexists. eexists.
  split; [vm_compute; reflexivity | ].
  match goal with
  | |- financial_metrics _ = Ok ?rep /\ sent ?w' = _ =>
      destruct (proj2 (construct_prompt_financial_sends_the_prompt
                         placeholder_repr nat answering_collaborator)
                  sample_financial_data fresh_world w' rep "narrative")
        as (G1 & _ & G2)
  end.
  - vm_compute. reflexivity.
  - split; [exact G1 | exact G2].
Defined.

(** ** C7: which reports give the same prompt *)

Lemma append_cancel (p s t : string) : p ++ s = p ++ t -> s = t.
Proof.
  induction p as [|c p IH]; cbn; intros H; [exact H | ].
  injection H as H. exact (IH H).
Qed.


(** Two numbers that are equal and of one kind are written alike. *)
Lemma number_of_equal_kind (float_repr : spec_float -> string) (x y : num) :
  (forall f g : spec_float,
     num_eq (Float f) (Float g) = true -> B64.sign f = B64.sign g ->
     float_repr f = float_repr g) ->
  num_eq x y = true -> same_kind x y = true ->
  Json.number float_repr x = Json.number float_repr y.
Proof.
  intros Hrepr He Hk.
  destruct x as [a|f], y as [b|g]; try discriminate Hk.
  - unfold num_eq, Num.compare in He.
    destruct (a ?= b)%Z eqn:E; try discriminate He.
    apply Z.compare_eq in E. subst b. reflexivity.
  - cbn [same_kind] in Hk. apply Bool.eqb_prop in Hk.
    pose proof (Hrepr f g He Hk) as R.
    destruct f as [s|s| |s m e], g as [s'|s'| |s' m' e'];
      try (vm_compute in He; discriminate He);
      try (cbn in Hk; subst; reflexivity);
      try exact R;
      try (destruct s, s'; vm_compute in He; discriminate He).
Qed.

Ltac split_equal H :=
  repeat match type of H with
         | (_ && _)%bool = true =>
             let H1 := fresh "Q" in
             apply andb_prop in H; destruct H as [H1 H];
             try split_equal H1
         end.

Ltac split_kinds K :=
  repeat match type of K with
         | Forall2 _ (_ :: _) (_ :: _) =>
             let K1 := fresh "K" in
             apply Forall2_cons_iff in K; destruct K as [K1 K]
         end.

Ltac equal_numbers Hrepr :=
  repeat match goal with
         | Q : num_eq ?x ?y = true, K : same_kind ?x ?y = true |- _ =>
             rewrite (number_of_equal_kind _ x y Hrepr Q K); clear Q K
         end.



(** ** C9: the formats of the marketing report *)

Lemma string_of_uint_digits (d : Decimal.uint) :
  all_digits (NilEmpty.string_of_uint d) = true.
Proof. induction d; cbn; try rewrite IHd; reflexivity. Qed.

Lemma dec_nonneg (z : Z) :
  (0 <= z)%Z -> all_digits (Fmt.dec z) = true /\ Fmt.dec z <> "".
Proof.
  intros Hz. unfold Fmt.dec. destruct z as [|p|p]; [ | | lia].
  - split; [reflexivity | discriminate].
  - cbn. unfold NilZero.string_of_uint.
    destruct (Pos.to_uint p) eqn:E;
      (split; [ | discriminate ]);
      try reflexivity; rewrite <- E; apply string_of_uint_digits.
Qed.

Lemma dec_one_digit (k : Z) :
  (0 <= k < 10)%Z -> exists c, Fmt.dec k = String c "" /\ is_digit c = true.
Proof.
  intros Hk.
  assert (H : (k = 0 \/ k = 1 \/ k = 2 \/ k = 3 \/ k = 4 \/ k = 5 \/ k = 6 \/
               k = 7 \/ k = 8 \/ k = 9)%Z) by lia.
  repeat (destruct H as [-> | H]; [eexists; split; reflexivity | ]).
  subst k. eexists; split; reflexivity.
Qed.

Lemma digits_then_point (p : string) (d : ascii) (seen : bool) :
  all_digits p = true -> seen = true \/ p <> "" -> is_digit d = true ->
  digits_point_digit_percent seen (p ++ "." ++ String d "%") = true.
Proof.
  revert seen. induction p as [|c p IH]; intros seen Hp Hs Hd.
  - destruct Hs as [-> | Hs]; [ | contradiction].
    cbn. rewrite Hd. reflexivity.
  - cbn in Hp. apply andb_true_iff in Hp. destruct Hp as [Hc Hp].
    cbn [append digits_point_digit_percent]. rewrite Hc.
    apply IH; [exact Hp | left; reflexivity | exact Hd].
Qed.

Lemma digit_is_not_minus (c : ascii) : is_digit c = true -> Ascii.eqb c "-" = false.
Proof.
  intros Hc. destruct (Ascii.eqb_spec c "-") as [-> | _]; [discriminate | reflexivity].
Qed.

Lemma div_half_even_nonneg (n d : Z) :
  (0 <= n)%Z -> (0 < d)%Z -> (0 <= B64.div_half_even n d)%Z.
Proof.
  intros Hn Hd. unfold B64.div_half_even.
  assert (0 <= n / d)%Z by (apply Z.div_pos; lia).
  destruct (Z.compare (2 * (n mod d)) d); [destruct (Z.even (n / d)) | | ]; lia.
Qed.

Lemma scaled_digits_nonneg (m : positive) (e k : Z) :
  (0 <= k)%Z -> (0 <= B64.scaled_digits m e k)%Z.
Proof.
  intros Hk. unfold B64.scaled_digits.
  assert (0 < 10 ^ k)%Z by (apply Z.pow_pos_nonneg; lia).
  destruct e as [|p|p].
  - lia.
  - assert (0 < 2 ^ Z.pos p)%Z by (apply Z.pow_pos_nonneg; lia). nia.
  - apply div_half_even_nonneg; [nia | apply Z.pow_pos_nonneg; lia].
Qed.

(** ['%.1f' % x + '%'] has one place when [x] is finite, and is [nan%],
    [inf%] or [-inf%] otherwise. *)
Lemma fixed1_shape (f : spec_float) :
  (B64.is_finite f = true -> one_decimal_percent (Fmt.fixed1 f ++ "%") = true) /\
  (B64.is_finite f = false ->
     Fmt.fixed1 f ++ "%" = "nan%" \/ Fmt.fixed1 f ++ "%" = "inf%" \/
     Fmt.fixed1 f ++ "%" = "-inf%").
Proof.
  split.
  - destruct f as [s|s| |s m e]; try discriminate; intros _.
    + destruct s; reflexivity.
    + unfold Fmt.fixed1.
      pose proof (scaled_digits_nonneg m e 1 ltac:(lia)) as Hd.
      set (d := B64.scaled_digits m e 1) in *.
      destruct (dec_nonneg (d / 10)) as [Hi Hne]; [apply Z.div_pos; lia | ].
      destruct (dec_one_digit (d mod 10)) as (c & Ec & Hc);
        [apply Z.mod_pos_bound; lia | ].
      rewrite Ec. rewrite !append_assoc.
      change (String c "" ++ "%") with (String c "%").
      set (body := Fmt.dec (d / 10) ++ "." ++ String c "%").
      assert (Hbody : digits_point_digit_percent false body = true)
        by (apply digits_then_point; [exact Hi | right; exact Hne | exact Hc]).
      destruct s; cbn [Fmt.sign_prefix append].
      * exact Hbody.
      * unfold one_decimal_percent.
        destruct body as [|b body'] eqn:Eb; [discriminate Hbody | ].
        assert (Hb : is_digit b = true).
        { destruct (Fmt.dec (d / 10)) as [|x rest]; [contradiction | ].
          cbn in Eb. injection Eb as -> _.
          cbn in Hi. apply andb_true_iff in Hi. apply Hi. }
        rewrite (digit_is_not_minus b Hb). exact Hbody.
  - destruct f as [s|s| |s m e]; try discriminate; intros _.
    + destruct s; [right; right | right; left]; reflexivity.
    + left. reflexivity.
Qed.

(** C9, as stated, fails: with an ARPU of [1e308] the starting revenue is
    infinite and [Net_Revenue_Retention] is the string [nan%], which has no
    decimal place. *)
Lemma percentage_field_without_decimal_place :
  exists mrep,
    marketing_metrics (Int 1200000) huge_arpu_marketing_data = Ok mrep /\
    reports_text mrep "Retention_and_Value" "Net_Revenue_Retention" "nan%" /\
    one_decimal_percent "nan%" = false.
Proof.
  eexists. split; [vm_compute; reflexivity | ].
  split; reflexivity.
Qed.

(** C9, amended.  In every marketing report the four fields
    [Marketing_Spend_Pct], [Retention_Rate], [Churn_Rate] and
    [Net_Revenue_Retention] are the strings that the format [.1%] gives for
    the locals: a percentage with exactly one decimal place whenever the
    value times 100 is finite, and [nan%], [inf%] or [-inf%] otherwise.
    [CAC], [Marketing_Efficiency_Ratio], [LTV] and [LTV_CAC_Ratio] are the
    locals rounded with [round(x, 2)], and [Payback_Period_Months] with
    [round(x, 1)]. *)
Theorem marketing_report_formats
  (Rev : num) (m : MarketingData num) (mr : MarketingRatios num) (mrep : pyval) :
  marketing_ratios Rev m = Ok mr ->
  marketing_results mr = Ok mrep ->
  (exists s, Fmt.percent1 (marketing_spend_pct mr) = Ok s /\
     reports_text mrep "Acquisition" "Marketing_Spend_Pct" s) /\
  (exists s, Fmt.percent1 (retention_rate mr) = Ok s /\
     reports_text mrep "Retention_and_Value" "Retention_Rate" s) /\
  (exists s, Fmt.percent1 (churn_rate mr) = Ok s /\
     reports_text mrep "Retention_and_Value" "Churn_Rate" s) /\
  (exists s, Fmt.percent1 (nrr mr) = Ok s /\
     reports_text mrep "Retention_and_Value" "Net_Revenue_Retention" s) /\
  (forall (x : num) (f : spec_float) (s : string),
     Num.to_float x = Ok f ->
     Fmt.percent1 x = Ok s ->
     (B64.is_finite (B64.mul f (B64.of_Z 100)) = true ->
        one_decimal_percent s = true) /\
     (B64.is_finite (B64.mul f (B64.of_Z 100)) = false ->
        s = "nan%" \/ s = "inf%" \/ s = "-inf%")) /\
  (exists x, Num.round (cac mr) 2 = Ok x /\
     reports mrep "Acquisition" "CAC" x) /\
  (exists x, Num.round (marketing_efficiency_ratio mr) 2 = Ok x /\
     reports mrep "Acquisition" "Marketing_Efficiency_Ratio" x) /\
  (exists x, Num.round (ltv mr) 2 = Ok x /\
     reports mrep "Retention_and_Value" "LTV" x) /\
  (exists x, Num.round (ltv_cac_ratio mr) 2 = Ok x /\
     reports mrep "Unit_Economics" "LTV_CAC_Ratio" x) /\
  (exists x, Num.round (payback_period mr) 1 = Ok x /\
     reports mrep "Unit_Economics" "Payback_Period_Months" x).
Proof.
  intros Hmr Hmrep.
  apply marketing_results_inv in Hmrep.
  destruct Hmrep as (CAC & MSP & MER & RR & CR & NRR & LTV & LCR & PP &
                     (R1 & R2 & R3) & (R4 & R5 & R6 & R7) & (R8 & R9) & ->).
  repeat apply conj;
    try (eexists; split; [eassumption | reflexivity]).
  intros x f s Hf Hs. unfold Fmt.percent1 in Hs. rewrite Hf in Hs.
  cbn [rbind] in Hs. injection Hs as <-.
  apply fixed1_shape.
Qed.

Lemma marketing_report_formats_witness :
  exists mr mrep,
    marketing_ratios (Int 1200000) sample_marketing_data = Ok mr /\
    marketing_results mr = Ok mrep /\
    reports_text mrep "Acquisition" "Marketing_Spend_Pct" "6.2%" /\
    reports mrep "Acquisition" "CAC" (float_lit 25000 (-2)).
Proof.
  eexists. eexists.
  split; [vm_compute; reflexivity | ].
  split; [vm_compute; reflexivity | ].
  match goal with
  | |- reports_text ?mrep _ _ _ /\ _ =>
      destruct (marketing_report_formats (Int 1200000) sample_marketing_data
                  _ mrep eq_refl eq_refl)
        as ((s & Hs & G1) & _ & _ & _ & _ & (x & Hx & G2) & _)
  end.
  compute_lhs Hs. injection Hs as <-.
  compute_lhs Hx. injection Hx as <-.
  split; [exact G1 | exact G2].
Defined.

(** ** C3: the DuPont identity *)

Lemma exact_ratio_or_zero (n d : Q) :
  ratio_or_zero n d = Ok (if Qeq_bool d 0 then 0%Q else (n / d)%Q).
Proof.
  unfold ratio_or_zero. cbn. unfold Exact.bool_of, Exact.truediv.
  destruct (Qeq_bool d 0); reflexivity.
Qed.

(** C3, as stated, fails on its second half: before the first sale
    ([Revenue = 0], a loss of 50000 on an equity of 600000) the reported
    [ROE] is [-0.0833] and [Calculated_ROE] is [0.0]; and in exact
    arithmetic the product of the levers is [0] while
    [Net_Income / shareholders_equity] is [-1/12]. *)
Lemma dupont_differs_from_roe_without_revenue :
  (exists rep,
     financial_metrics pre_revenue_financial_data = Ok rep /\
     reports rep "Profitability" "ROE" (float_lit (-833) (-4)) /\
     reports rep "DuPont_Breakdown" "Calculated_ROE" (Float (S754_zero false))) /\
  (exists r : FinancialRatios Q,
     financial_ratios pre_revenue_financial_data = Ok r /\
     (dupont_roe r == 0)%Q /\ (roe r == -1 # 12)%Q /\ ~ (dupont_roe r == roe r)%Q).
Proof.
  split.
  - eexists. split; [vm_compute; reflexivity | ]. split; reflexivity.
  - eexists. split; [vm_compute; reflexivity | ].
    repeat split; try reflexivity. intros H. discriminate H.
Qed.

(** C3, amended.  For every input, [Calculated_ROE] is
    [round(profit_margin * total_asset_turnover * equity_multiplier, 4)]
    of the unrounded levers.  In exact arithmetic the product of the three
    levers equals [roe], the guarded [Net_Income / shareholders_equity],
    whenever [Revenue] and [Total_Assets] are not zero; when one of them is
    zero its lever is the fallback [0] and the product is [0]. *)
Theorem dupont_identity
  (a : FinancialData num) (r : FinancialRatios num) (rep : pyval)
  (ea : FinancialData Q) (er : FinancialRatios Q) :
  financial_ratios a = Ok r ->
  financial_results r = Ok rep ->
  financial_ratios ea = Ok er ->
  (exists t x,
     py_mul (profit_margin r) (total_asset_turnover r) = Ok t /\
     py_mul t (equity_multiplier r) = Ok (dupont_roe r) /\
     Num.round (dupont_roe r) 4 = Ok x /\
     reports rep "DuPont_Breakdown" "Calculated_ROE" x) /\
  (dupont_roe er ==
     profit_margin er * total_asset_turnover er * equity_multiplier er)%Q /\
  (~ (Revenue ea == 0)%Q -> ~ (Total_Assets er == 0)%Q ->
     (dupont_roe er == roe er)%Q) /\
  (~ (shareholders_equity ea == 0)%Q ->
     (roe er == Net_Income ea / shareholders_equity ea)%Q) /\
  ((Revenue ea == 0)%Q \/ (Total_Assets er == 0)%Q -> (dupont_roe er == 0)%Q).
Proof.
  intros Hr Hrep Her.
  split.
  { pose proof (fr_dupont_roe _ _ (financial_ratios_spec _ _ Hr)) as Hd.
    apply rbind_ok in Hd. destruct Hd as (t & Ht & Hd).
    apply financial_results_inv in Hrep.
    destruct Hrep as
      (Current & Quick & Cash & Interval & Debt_Ratio & Multiplier & LTD & TIE &
       Cash_Coverage & Total_Asset & NWC' & Fixed_Asset & Gross_Margin &
       Profit_Margin & ROA & ROE & Profitability_Lever & Efficiency_Lever &
       Leverage_Lever & Calculated_ROE & PE & Market_Book & Price_Sales & EV &
       EV_EBITDA & Inv_Turnover & DSI & Rec_Turnover & DSO &
       _ & _ & _ & _ & (_ & _ & _ & D4) & _ & _ & ->).
    exists t, Calculated_ROE. repeat split; assumption. }
  pose proof (financial_ratios_spec _ _ Her) as S.
  pose proof (fr_dupont_roe _ _ S) as Hd.
  pose proof (fr_profit_margin _ _ S) as Hpm.
  pose proof (fr_total_asset_turnover _ _ S) as Htat.
  pose proof (fr_equity_multiplier _ _ S) as Hem.
  pose proof (fr_roe _ _ S) as Hroe.
  rewrite exact_ratio_or_zero in Hpm, Htat, Hem, Hroe.
  cbn in Hd.
  injection Hd as Hd. injection Hpm as Hpm. injection Htat as Htat.
  injection Hem as Hem. injection Hroe as Hroe.
  rewrite <- Hd, <- Hroe.
  split; [reflexivity | ].
  rewrite <- Hpm, <- Htat, <- Hem.
  repeat apply conj.
  - intros HRev HTA.
    destruct (Qeq_bool (Revenue ea) 0) eqn:E1;
      [apply Qeq_bool_iff in E1; contradiction | ].
    destruct (Qeq_bool (Total_Assets er) 0) eqn:E2;
      [apply Qeq_bool_iff in E2; contradiction | ].
    destruct (Qeq_bool (shareholders_equity ea) 0) eqn:E3.
    + ring.
    + apply Qeq_bool_neq in E3. field. repeat split; assumption.
  - intros HSE.
    destruct (Qeq_bool (shareholders_equity ea) 0) eqn:E3;
      [apply Qeq_bool_iff in E3; contradiction | reflexivity].
  - intros [HRev | HTA].
    + apply Qeq_bool_iff in HRev. rewrite HRev. ring.
    + apply Qeq_bool_iff in HTA. rewrite HTA. ring.
Qed.

Lemma dupont_identity_witness :
  exists (r : FinancialRatios num) (rep : pyval) (er : FinancialRatios Q),
    financial_ratios sample_financial_data = Ok r /\
    financial_results r = Ok rep /\
    financial_ratios integer_sample_financial_data = Ok er /\
    (dupont_roe er == roe er)%Q /\
    (roe er == 203820 # 600000)%Q.
Proof.
  eexists. eexists. eexists.
  split; [vm_compute; reflexivity | ].
  split; [vm_compute; reflexivity | ].
  split; [vm_compute; reflexivity | ].
  match goal with
  | |- (dupont_roe ?er == _)%Q /\ _ =>
      destruct (dupont_identity sample_financial_data _ _
                  integer_sample_financial_data er
                  ltac:(vm_compute; reflexivity)
                  ltac:(vm_compute; reflexivity)
                  ltac:(vm_compute; reflexivity))
        as (_ & _ & G1 & G2 & _)
  end.
  split.
  - apply G1; intros H; discriminate H.
  - rewrite G2; [reflexivity | intros H; discriminate H].
Defined.

(** ** C2: finiteness

    Magnitudes of the results of the binary64 operations. *)

Section Magnitudes.

Local Open Scope Z_scope.

Lemma digits2_pos_size (p : positive) : digits2_pos p = Pos.size p.
Proof. induction p; cbn; try rewrite IHp; reflexivity. Qed.

Lemma Zdigits2_nonneg (x : Z) : 0 <= Zdigits2 x.
Proof. destruct x; cbn; lia. Qed.

Lemma Zdigits2_log2 (x : Z) : 0 < x -> Zdigits2 x = Z.log2 x + 1.
Proof.
  destruct x as [|p|p]; try lia. intros _. cbn [Zdigits2].
  rewrite digits2_pos_size. destruct p; cbn; lia.
Qed.

(** [x] has at most [k] binary digits exactly when [x < 2^k]. *)
Lemma Zdigits2_le_iff (x k : Z) :
  0 <= x -> 0 <= k -> (Zdigits2 x <= k <-> x < 2 ^ k).
Proof.
  intros Hx Hk.
  destruct (Z.eq_dec x 0) as [-> | Hne].
  - cbn. split; intros _; [apply Z.pow_pos_nonneg; lia | lia].
  - rewrite Zdigits2_log2 by lia.
    rewrite (Z.log2_lt_pow2 x k) by lia. lia.
Qed.

Lemma Zdigits2_ge_iff (x k : Z) :
  0 < x -> 0 < k -> (k <= Zdigits2 x <-> 2 ^ (k - 1) <= x).
Proof.
  intros Hx Hk. rewrite Zdigits2_log2 by lia.
  rewrite (Z.log2_le_pow2 x (k - 1)) by lia. lia.
Qed.

Lemma Zdigits2_pos (x : Z) : 0 < x -> 0 < Zdigits2 x.
Proof. intros Hx. rewrite Zdigits2_log2 by lia. pose proof (Z.log2_nonneg x). lia. Qed.

Lemma Zdigits2_div_pow2 (x n : Z) :
  0 <= x -> 0 <= n -> Zdigits2 (x / 2 ^ n) = Z.max 0 (Zdigits2 x - n).
Proof.
  intros Hx Hn.
  assert (Hp : 0 < 2 ^ n) by (apply Z.pow_pos_nonneg; lia).
  assert (Hq : 0 <= x / 2 ^ n) by (apply Z.div_pos; lia).
  pose proof (Zdigits2_nonneg (x / 2 ^ n)) as Hd.
  assert (Hiff : forall k, 0 <= k -> (Zdigits2 (x / 2 ^ n) <= k <-> Zdigits2 x - n <= k)).
  { intros k Hk. rewrite Zdigits2_le_iff by lia.
    assert (Zdigits2 x - n <= k <-> Zdigits2 x <= k + n) as -> by lia.
    rewrite Zdigits2_le_iff by lia.
    rewrite Z.pow_add_r by lia.
    split; intros H.
    - pose proof (Z.div_mod x (2 ^ n) ltac:(lia)) as E.
      pose proof (Z.mod_pos_bound x (2 ^ n) Hp) as B. nia.
    - apply Z.div_lt_upper_bound; lia. }
  apply Z.le_antisymm.
  - apply Hiff; lia.
  - apply Z.max_lub; [exact Hd | ]. apply Hiff; lia.
Qed.

Lemma Zdigits2_mul_pow2 (x n : Z) :
  0 < x -> 0 <= n -> Zdigits2 (x * 2 ^ n) = Zdigits2 x + n.
Proof.
  intros Hx Hn. assert (Hp : 0 < 2 ^ n) by (apply Z.pow_pos_nonneg; lia).
  rewrite !Zdigits2_log2 by nia.
  rewrite Z.log2_mul_pow2 by lia. lia.
Qed.

Lemma Zdigits2_succ (x : Z) : 0 <= x -> Zdigits2 (x + 1) <= Zdigits2 x + 1.
Proof.
  intros Hx. pose proof (Zdigits2_nonneg x) as Hd.
  apply Zdigits2_le_iff; try lia.
  assert (x < 2 ^ Zdigits2 x) by (apply Zdigits2_le_iff; lia).
  rewrite Z.pow_add_r by lia. 
  assert (0 < 2 ^ Zdigits2 x) by (apply Z.pow_pos_nonneg; lia). lia.
Qed.

Lemma Zdigits2_mono (x y : Z) : 0 <= x -> x <= y -> Zdigits2 x <= Zdigits2 y.
Proof.
  intros Hx Hxy. pose proof (Zdigits2_nonneg y).
  apply Zdigits2_le_iff; try lia.
  assert (y < 2 ^ Zdigits2 y) by (apply Zdigits2_le_iff; lia). lia.
Qed.

Lemma shr_1_m (mrs : shr_record) :
  0 <= shr_m mrs -> shr_m (shr_1 mrs) = shr_m mrs / 2.
Proof.
  destruct mrs as [m r s]. cbn [shr_m]. intros Hm.
  destruct m as [|p|p]; [reflexivity | | lia].
  destruct p as [p|p|]; cbn [shr_1 shr_m].
  - rewrite Pos2Z.inj_xI. apply Z.div_unique with (r := 1); lia.
  - rewrite Pos2Z.inj_xO. apply Z.div_unique with (r := 0); lia.
  - reflexivity.
Qed.

Lemma shr_1_nonneg (mrs : shr_record) : 0 <= shr_m mrs -> 0 <= shr_m (shr_1 mrs).
Proof. intros H. rewrite shr_1_m by exact H. apply Z.div_pos; lia. Qed.

Lemma iter_shr_1_m (p : positive) (mrs : shr_record) :
  0 <= shr_m mrs ->
  shr_m (iter_pos shr_1 p mrs) = shr_m mrs / 2 ^ Zpos p.
Proof.
  revert mrs. induction p as [p IH|p IH|]; intros mrs Hm; cbn [iter_pos].
  - assert (H1 : 0 <= shr_m (shr_1 mrs)) by (apply shr_1_nonneg; exact Hm).
    assert (H2 : 0 <= shr_m (iter_pos shr_1 p (shr_1 mrs))).
    { rewrite IH by exact H1. apply Z.div_pos; [exact H1 | apply Z.pow_pos_nonneg; lia]. }
    rewrite IH by exact H2. rewrite IH by exact H1. rewrite shr_1_m by exact Hm.
    assert (0 < 2 ^ Z.pos p) by (apply Z.pow_pos_nonneg; lia).
    assert (Hpow : 2 ^ Z.pos p~1 = 2 * 2 ^ Z.pos p * 2 ^ Z.pos p).
    { replace (Z.pos p~1) with (1 + Z.pos p + Z.pos p) by lia.
      rewrite !Z.pow_add_r by lia. try reflexivity. }
    rewrite Hpow. rewrite !Z.div_div by lia. f_equal. ring.
  - assert (H2 : 0 <= shr_m (iter_pos shr_1 p mrs)).
    { rewrite IH by exact Hm. apply Z.div_pos; [exact Hm | apply Z.pow_pos_nonneg; lia]. }
    rewrite IH by exact H2. rewrite IH by exact Hm.
    assert (0 < 2 ^ Z.pos p) by (apply Z.pow_pos_nonneg; lia).
    assert (Hpow : 2 ^ Z.pos p~0 = 2 ^ Z.pos p * 2 ^ Z.pos p).
    { replace (Z.pos p~0) with (Z.pos p + Z.pos p) by lia.
      rewrite !Z.pow_add_r by lia. try reflexivity. }
    rewrite Hpow. rewrite !Z.div_div by lia. reflexivity.
  - rewrite shr_1_m by exact Hm. reflexivity.
Qed.

Lemma shr_record_of_loc_m (m : Z) (l : location) : shr_m (shr_record_of_loc m l) = m.
Proof. destruct l as [|[ | | ]]; reflexivity. Qed.

(** The mantissa and exponent after [shr]: a division by [2^n] when
    [n > 0], nothing otherwise. *)
Lemma shr_spec (mrs : shr_record) (e n : Z) :
  0 <= shr_m mrs ->
  (0 < n /\ shr_m (fst (shr mrs e n)) = shr_m mrs / 2 ^ n /\ snd (shr mrs e n) = e + n) \/
  (n <= 0 /\ shr mrs e n = (mrs, e)).
Proof.
  intros Hm. destruct n as [|p|p]; cbn [shr fst snd].
  - right. split; [lia | reflexivity].
  - left. split; [lia | ]. split; [apply iter_shr_1_m; exact Hm | reflexivity].
  - right. split; [lia | reflexivity].
Qed.

Lemma fexp_64 (x : Z) : fexp 53 1024 x = fexp64 x.
Proof. reflexivity. Qed.

(** [shr_fexp]: the result keeps the magnitude [digits + exponent] unless
    everything is shifted out, and its exponent is the larger of the old
    one and [fexp]. *)
Lemma shr_fexp_spec (m e : Z) (l : location) :
  0 <= m ->
  exists mrs' e',
    shr_fexp 53 1024 m e l = (mrs', e') /\
    0 <= shr_m mrs' /\
    e' = Z.max e (fexp64 (Zdigits2 m + e)) /\
    shr_m mrs' = m / 2 ^ (e' - e) /\
    Zdigits2 (shr_m mrs') = Z.max 0 (Zdigits2 m - (e' - e)).
Proof.
  intros Hm. unfold shr_fexp. rewrite fexp_64.
  set (n := fexp64 (Zdigits2 m + e) - e).
  pose proof (shr_spec (shr_record_of_loc m l) e n) as H.
  rewrite shr_record_of_loc_m in H. specialize (H Hm).
  destruct (shr (shr_record_of_loc m l) e n) as [mrs' e'] eqn:E.
  cbn [fst snd] in H.
  exists mrs', e'. split; [reflexivity | ].
  destruct H as [(Hn & Hm' & He') | (Hn & Heq)].
  - assert (Ee : e' = Z.max e (fexp64 (Zdigits2 m + e))) by lia.
    assert (En : e' - e = n) by lia.
    rewrite En. rewrite Hm'.
    split; [apply Z.div_pos; [lia | apply Z.pow_pos_nonneg; lia] | ].
    split; [exact Ee | ]. split; [reflexivity | ].
    apply Zdigits2_div_pow2; lia.
  - injection Heq as -> ->. rewrite shr_record_of_loc_m.
    assert (Ee : e = Z.max e (fexp64 (Zdigits2 m + e))) by lia.
    rewrite <- Ee. rewrite Z.sub_diag. cbn [Z.pow]. rewrite Z.div_1_r.
    pose proof (Zdigits2_nonneg m).
    repeat split; try lia.
Qed.

Lemma round_nearest_even_bounds (m : Z) (l : location) :
  m <= round_nearest_even m l <= m + 1.
Proof.
  unfold round_nearest_even. destruct l as [|[ | | ]]; try lia.
  destruct (Z.even m); lia.
Qed.

Lemma binary_round_aux_at_most (s : bool) (m e : Z) (l : location) (K : Z) :
  0 <= m -> Zdigits2 m + e <= K -> -1000 <= K <= 970 ->
  at_most (K + 1) (binary_round_aux 53 1024 s m e l).
Proof.
  intros Hm HM HK. unfold binary_round_aux.
  destruct (shr_fexp_spec m e l Hm) as (mrs1 & e1 & -> & Hm1 & He1 & _ & Hd1).
  set (m1' := round_nearest_even (shr_m mrs1) (loc_of_shr_record mrs1)).
  pose proof (round_nearest_even_bounds (shr_m mrs1) (loc_of_shr_record mrs1)) as Hr.
  fold m1' in Hr.
  assert (Hm1' : 0 <= m1') by lia.
  destruct (shr_fexp_spec m1' e1 loc_Exact Hm1') as (mrs2 & e2 & -> & Hm2 & He2 & _ & Hd2).
  pose proof (Zdigits2_nonneg m) as Hd.
  pose proof (Zdigits2_mono m1' (shr_m mrs1 + 1) Hm1' ltac:(lia)) as Hmono.
  pose proof (Zdigits2_succ (shr_m mrs1) Hm1) as Hsucc.
  unfold fexp64 in *.
  destruct (shr_m mrs2) as [|m2|m2] eqn:E2.
  - exact I.
  - assert (He2' : e2 <= 1024 - 53) by lia.
    apply Z.leb_le in He2'. rewrite He2'. cbn [at_most].
    change (Z.pos (digits2_pos m2)) with (Zdigits2 (Z.pos m2)). lia.
  - lia.
Qed.

Lemma Zdigits2_pos_inv (x : Z) : 0 <= x -> 0 < Zdigits2 x -> 0 < x.
Proof. intros Hx Hd. destruct x; cbn in *; lia. Qed.

Lemma binary_round_aux_within (s : bool) (m e : Z) (l : location) :
  0 < m -> -1021 <= Zdigits2 m + e <= 970 ->
  exists m' e',
    binary_round_aux 53 1024 s m e l = S754_finite s m' e' /\
    Zdigits2 m + e <= Zpos (digits2_pos m') + e' <= Zdigits2 m + e + 1.
Proof.
  intros Hm HM. unfold binary_round_aux.
  destruct (shr_fexp_spec m e l ltac:(lia)) as (mrs1 & e1 & -> & Hm1 & He1 & _ & Hd1).
  set (m1' := round_nearest_even (shr_m mrs1) (loc_of_shr_record mrs1)).
  pose proof (round_nearest_even_bounds (shr_m mrs1) (loc_of_shr_record mrs1)) as Hr.
  fold m1' in Hr.
  assert (Hm1' : 0 <= m1') by lia.
  destruct (shr_fexp_spec m1' e1 loc_Exact Hm1') as (mrs2 & e2 & -> & Hm2 & He2 & _ & Hd2).
  pose proof (Zdigits2_pos m Hm) as Hd.
  pose proof (Zdigits2_mono m1' (shr_m mrs1 + 1) Hm1' ltac:(lia)) as Hmono.
  pose proof (Zdigits2_mono (shr_m mrs1) m1' Hm1 ltac:(lia)) as Hmono'.
  pose proof (Zdigits2_succ (shr_m mrs1) Hm1) as Hsucc.
  unfold fexp64 in *.
  destruct (shr_m mrs2) as [|m2|m2] eqn:E2.
  - cbn [Zdigits2] in Hd2. lia.
  - assert (He2' : e2 <= 1024 - 53) by lia.
    apply Z.leb_le in He2'. rewrite He2'.
    exists m2, e2. split; [reflexivity | ].
    change (Z.pos (digits2_pos m2)) with (Zdigits2 (Z.pos m2)). lia.
  - lia.
Qed.

Lemma pos_lt_pow2_digits (m : positive) : Zpos m < 2 ^ Zpos (digits2_pos m).
Proof.
  change (Zpos (digits2_pos m)) with (Zdigits2 (Zpos m)).
  apply (proj1 (Zdigits2_le_iff (Zpos m) (Zdigits2 (Zpos m))
                  ltac:(lia) (Zdigits2_nonneg _))).
  apply Z.le_refl.
Qed.

Lemma pos_ge_pow2_digits (m : positive) : 2 ^ (Zpos (digits2_pos m) - 1) <= Zpos m.
Proof.
  change (Zpos (digits2_pos m)) with (Zdigits2 (Zpos m)).
  apply (proj1 (Zdigits2_ge_iff (Zpos m) (Zdigits2 (Zpos m))
                  ltac:(lia) (Zdigits2_pos (Zpos m) ltac:(lia)))).
  apply Z.le_refl.
Qed.

Lemma at_most_mono (K K' : Z) (f : spec_float) : K <= K' -> at_most K f -> at_most K' f.
Proof. destruct f; cbn; intros; try assumption; lia. Qed.

Lemma SFmul_at_most (Kx Ky : Z) (x y : spec_float) :
  at_most Kx x -> at_most Ky y -> -1000 <= Kx + Ky <= 970 ->
  at_most (Kx + Ky + 1) (SFmul 53 1024 x y).
Proof.
  intros Hx Hy HK.
  destruct x as [sx|sx| |sx mx ex], y as [sy|sy| |sy my ey];
    cbn [at_most] in Hx, Hy; try contradiction; try exact I.
  cbn [SFmul].
  apply binary_round_aux_at_most; try lia.
  assert (Hd : Zdigits2 (Z.pos (mx * my)) <= Z.pos (digits2_pos mx) + Z.pos (digits2_pos my)).
  { apply Zdigits2_le_iff; try lia.
    rewrite Z.pow_add_r by lia.
    pose proof (pos_lt_pow2_digits mx). pose proof (pos_lt_pow2_digits my).
    rewrite Pos2Z.inj_mul. nia. }
  lia.
Qed.

(** The quotient that [SFdiv] hands to the rounding. *)
Lemma SFdiv_core_binary_spec (m1 m2 : positive) (e1 e2 : Z) :
  let D := (Zpos (digits2_pos m1) + e1) - (Zpos (digits2_pos m2) + e2) in
  exists q e' l,
    SFdiv_core_binary 53 1024 (Zpos m1) e1 (Zpos m2) e2 = (q, e', l) /\
    0 <= q /\
    (q = 0 -> e' <= fexp64 D) /\
    (0 < q -> Zdigits2 q + e' <= D + 1) /\
    (-1021 <= D -> 0 < q /\ D <= Zdigits2 q + e').
Proof.
  intros D. unfold SFdiv_core_binary. rewrite fexp_64.
  cbn [Zdigits2]. fold D.
  set (e' := Z.min (fexp64 D) (e1 - e2)).
  set (s := e1 - e2 - e').
  assert (Hs : 0 <= s) by (unfold s, e'; lia).
  set (m' := match s with
             | 0 => Z.pos m1
             | Z.pos _ => Z.shiftl (Z.pos m1) s
             | Z.neg _ => 0
             end).
  assert (Em' : m' = Zpos m1 * 2 ^ s).
  { unfold m'. destruct s as [|p|p]; [cbn; lia | | lia].
    apply Z.shiftl_mul_pow2. lia. }
  clearbody m'.
  pose proof (Z_div_mod m' (Zpos m2) ltac:(lia)) as Hdm.
  destruct (Z.div_eucl m' (Z.pos m2)) as [q r] eqn:Edm.
  destruct Hdm as [Hqr Hr].
  exists q, e', (new_location (Z.pos m2) r). split; [reflexivity | ].
  assert (Hps : 0 < 2 ^ s) by (apply Z.pow_pos_nonneg; lia).
  pose proof (pos_lt_pow2_digits m1) as U1. pose proof (pos_ge_pow2_digits m1) as L1.
  pose proof (pos_lt_pow2_digits m2) as U2. pose proof (pos_ge_pow2_digits m2) as L2.
  set (d1 := Zpos (digits2_pos m1)) in *. set (d2 := Zpos (digits2_pos m2)) in *.
  assert (Hd1 : 0 < d1) by (unfold d1; lia).
  assert (Hd2 : 0 < d2) by (unfold d2; lia).
  assert (Hq : 0 <= q) by nia.
  split; [exact Hq | ].
  split; [intros _; unfold e'; lia | ].
  split.
  - intros Hq1.
    (* q * 2^(d2-1) <= q * m2 <= m' < 2^(d1+s) *)
    assert (Hup : m' < 2 ^ (d1 + s)) by (rewrite Z.pow_add_r by lia; nia).
    assert (Hlow : q * 2 ^ (d2 - 1) < 2 ^ (d1 + s)) by nia.
    assert (Hexp : d2 - 1 < d1 + s).
    { apply (Z.pow_lt_mono_r_iff 2); try lia.
      assert (0 < 2 ^ (d2 - 1)) by (apply Z.pow_pos_nonneg; lia). nia. }
    assert (Hqlt : q < 2 ^ (d1 + s - d2 + 1)).
    { assert (E : 2 ^ (d1 + s) = 2 ^ (d1 + s - d2 + 1) * 2 ^ (d2 - 1)).
      { rewrite <- Z.pow_add_r by lia. f_equal. lia. }
      rewrite E in Hlow.
      assert (0 < 2 ^ (d2 - 1)) by (apply Z.pow_pos_nonneg; lia). nia. }
    apply Zdigits2_le_iff in Hqlt; [ | lia | lia].
    unfold s in Hqlt. unfold D. lia.
  - intros HD.
    assert (He' : e' <= D - 53) by (unfold e', fexp64; lia).
    set (j := d1 - 1 + s - d2).
    assert (Hj : 52 <= j) by (unfold j, s, D in *; lia).
    assert (Hm'low : 2 ^ j * Zpos m2 <= m').
    { assert (E : 2 ^ (d1 - 1 + s) = 2 ^ j * 2 ^ d2).
      { rewrite <- Z.pow_add_r by lia. f_equal. unfold j. lia. }
      assert (2 ^ (d1 - 1 + s) <= m') by (rewrite Z.pow_add_r by lia; nia).
      assert (0 < 2 ^ j) by (apply Z.pow_pos_nonneg; lia). nia. }
    assert (Hqlow : 2 ^ j <= q).
    { assert (0 < 2 ^ j) by (apply Z.pow_pos_nonneg; lia).
      destruct (Z_lt_le_dec q (2 ^ j)) as [Hlt | Hge]; [ | exact Hge].
      exfalso. nia. }
    assert (0 < 2 ^ j) by (apply Z.pow_pos_nonneg; lia).
    split; [lia | ].
    assert (Hdq : j + 1 <= Zdigits2 q).
    { apply Zdigits2_ge_iff; try lia. replace (j + 1 - 1) with j by lia. exact Hqlow. }
    unfold j, s, D in *. lia.
Qed.

Lemma SFdiv_at_most (K : Z) (sx sy : bool) (mx my : positive) (ex ey : Z) :
  (Zpos (digits2_pos mx) + ex) - (Zpos (digits2_pos my) + ey) <= K ->
  -1000 <= K <= 968 ->
  at_most (K + 2)
    (SFdiv 53 1024 (S754_finite sx mx ex) (S754_finite sy my ey)).
Proof.
  intros HD HK. cbn [SFdiv].
  destruct (SFdiv_core_binary_spec mx my ex ey) as (q & e' & l & -> & Hq & H0 & H1 & _).
  replace (K + 2) with (K + 1 + 1) by lia.
  apply binary_round_aux_at_most; try lia.
  destruct (Z.eq_dec q 0) as [-> | Hne].
  - specialize (H0 eq_refl). cbn [Zdigits2]. unfold fexp64 in H0. lia.
  - specialize (H1 ltac:(lia)). lia.
Qed.

Lemma SFdiv_within (sx sy : bool) (mx my : positive) (ex ey : Z) :
  let D := (Zpos (digits2_pos mx) + ex) - (Zpos (digits2_pos my) + ey) in
  -1021 <= D <= 968 ->
  exists m' e',
    SFdiv 53 1024 (S754_finite sx mx ex) (S754_finite sy my ey)
    = S754_finite (xorb sx sy) m' e' /\
    D <= Zpos (digits2_pos m') + e' <= D + 2.
Proof.
  intros D HD. cbn [SFdiv].
  destruct (SFdiv_core_binary_spec mx my ex ey) as (q & e' & l & -> & Hq & _ & H1 & H2).
  fold D in H1, H2. specialize (H2 ltac:(lia)). destruct H2 as [Hqpos Hlow].
  specialize (H1 Hqpos).
  destruct (binary_round_aux_within (xorb sx sy) q e' l Hqpos ltac:(lia))
    as (m' & e'' & -> & Hb).
  exists m', e''. split; [reflexivity | lia].
Qed.

Lemma pos_iter_xO (m d : positive) : Zpos (Pos.iter xO m d) = Zpos m * 2 ^ Zpos d.
Proof.
  induction d as [|d IH] using Pos.peano_ind.
  - cbn. lia.
  - rewrite Pos.iter_succ, Pos2Z.inj_xO, IH, Pos2Z.inj_succ, Z.pow_succ_r by lia. ring.
Qed.

Lemma shl_align_spec (mx : positive) (ex ex' : Z) :
  exists mz ez,
    shl_align mx ex ex' = (mz, ez) /\
    ez = Z.min ex ex' /\
    Zpos mz = Zpos mx * 2 ^ (ex - ez) /\
    Zpos (digits2_pos mz) + ez = Zpos (digits2_pos mx) + ex.
Proof.
  unfold shl_align. destruct (ex' - ex) as [|d|d] eqn:E.
  - exists mx, ex. split; [reflexivity | ]. split; [lia | ].
    rewrite Z.sub_diag. cbn [Z.pow]. split; lia.
  - exists mx, ex. split; [reflexivity | ]. split; [lia | ].
    rewrite Z.sub_diag. cbn [Z.pow]. split; lia.
  - exists (Pos.iter xO mx d), ex'. split; [reflexivity | ]. split; [lia | ].
    assert (Ed : ex - ex' = Zpos d) by lia.
    rewrite Ed. split; [apply pos_iter_xO | ].
    change (Zpos (digits2_pos (Pos.iter xO mx d))) with (Zdigits2 (Zpos (Pos.iter xO mx d))).
    rewrite pos_iter_xO. rewrite Zdigits2_mul_pow2 by lia. cbn [Zdigits2]. lia.
Qed.

Lemma binary_round_at_most (s : bool) (m : positive) (e K : Z) :
  Zpos (digits2_pos m) + e <= K -> -1000 <= K <= 970 ->
  at_most (K + 1) (binary_round 53 1024 s m e).
Proof.
  intros HM HK. unfold binary_round.
  destruct (shl_align_spec m e (fexp 53 1024 (Z.pos (digits2_pos m) + e)))
    as (mz & ez & -> & _ & _ & Hd).
  apply binary_round_aux_at_most; try lia. cbn [Zdigits2]. lia.
Qed.

Lemma binary_round_within (s : bool) (m : positive) (e : Z) :
  -1021 <= Zpos (digits2_pos m) + e <= 970 ->
  exists m' e',
    binary_round 53 1024 s m e = S754_finite s m' e' /\
    Zpos (digits2_pos m) + e <= Zpos (digits2_pos m') + e'
      <= Zpos (digits2_pos m) + e + 1.
Proof.
  intros HM. unfold binary_round.
  destruct (shl_align_spec m e (fexp 53 1024 (Z.pos (digits2_pos m) + e)))
    as (mz & ez & -> & _ & _ & Hd).
  destruct (binary_round_aux_within s (Zpos mz) ez loc_Exact ltac:(lia))
    as (m' & e' & -> & Hb).
  - cbn [Zdigits2]. lia.
  - exists m', e'. split; [reflexivity | ]. cbn [Zdigits2] in Hb. lia.
Qed.

Lemma binary_normalize_at_most (m e K : Z) (szero : bool) :
  Zdigits2 m + e <= K -> -1000 <= K <= 970 ->
  at_most (K + 1) (binary_normalize 53 1024 m e szero).
Proof.
  intros HM HK. destruct m as [|p|p]; cbn [binary_normalize].
  - exact I.
  - apply binary_round_at_most; assumption.
  - apply binary_round_at_most; assumption.
Qed.

Lemma Zdigits2_abs (z : Z) : Zdigits2 (Z.abs z) = Zdigits2 z.
Proof. destruct z; reflexivity. Qed.

Lemma Zdigits2_abs_lt (z K : Z) : 0 <= K -> Z.abs z < 2 ^ K -> Zdigits2 z <= K.
Proof.
  intros HK Hz. rewrite <- Zdigits2_abs. apply Zdigits2_le_iff; lia.
Qed.

(** The aligned sum or difference that [SFadd] and [SFsub] round. *)
Lemma aligned_sum_digits (sx sy : bool) (mx my : positive) (ex ey : Z) (Kx Ky : Z) :
  Zpos (digits2_pos mx) + ex <= Kx ->
  Zpos (digits2_pos my) + ey <= Ky ->
  let ez := Z.min ex ey in
  let a := cond_Zopp sx (Zpos (fst (shl_align mx ex ez))) in
  let b := cond_Zopp sy (Zpos (fst (shl_align my ey ez))) in
  Zdigits2 (a + b) + ez <= Z.max Kx Ky + 1 /\
  Zdigits2 (a - b) + ez <= Z.max Kx Ky + 1.
Proof.
  intros Hx Hy ez a b.
  destruct (shl_align_spec mx ex ez) as (mx' & ex' & Ex & Eex & Emx & Edx).
  destruct (shl_align_spec my ey ez) as (my' & ey' & Ey & Eey & Emy & Edy).
  assert (Hex : ex' = ez) by (unfold ez in *; lia).
  assert (Hey : ey' = ez) by (unfold ez in *; lia).
  subst ex' ey'.
  unfold a, b. rewrite Ex, Ey. cbn [fst].
  pose proof (pos_lt_pow2_digits mx') as Ux. pose proof (pos_lt_pow2_digits my') as Uy.
  set (dx := Zpos (digits2_pos mx')) in *. set (dy := Zpos (digits2_pos my')) in *.
  assert (Hdx : 0 < dx) by (unfold dx; lia).
  assert (Hdy : 0 < dy) by (unfold dy; lia).
  set (d := Z.max dx dy).
  assert (Hpx : 2 ^ dx <= 2 ^ d) by (apply Z.pow_le_mono_r; unfold d; lia).
  assert (Hpy : 2 ^ dy <= 2 ^ d) by (apply Z.pow_le_mono_r; unfold d; lia).
  assert (Hsum : forall u v : Z, Z.abs u < 2 ^ dx -> Z.abs v < 2 ^ dy ->
                 Zdigits2 (u + v) + ez <= Z.max Kx Ky + 1).
  { intros u v Hu Hv.
    assert (Z.abs (u + v) < 2 ^ (d + 1)) by (rewrite Z.pow_add_r by (unfold d; lia); lia).
    assert (Zdigits2 (u + v) <= d + 1) by (apply Zdigits2_abs_lt; [unfold d | ]; lia).
    unfold d in *. lia. }
  split.
  - apply Hsum; unfold cond_Zopp; [destruct sx | destruct sy]; lia.
  - replace (cond_Zopp sx (Z.pos mx') - cond_Zopp sy (Z.pos my'))
      with (cond_Zopp sx (Z.pos mx') + - cond_Zopp sy (Z.pos my')) by lia.
    apply Hsum; unfold cond_Zopp; [destruct sx | destruct sy]; lia.
Qed.

Lemma SFadd_at_most (Kx Ky : Z) (x y : spec_float) :
  at_most Kx x -> at_most Ky y -> -1000 <= Kx -> -1000 <= Ky ->
  Z.max Kx Ky <= 969 ->
  at_most (Z.max Kx Ky + 2) (SFadd 53 1024 x y).
Proof.
  intros Hx Hy HKx HKy HK.
  destruct x as [sx|sx| |sx mx ex], y as [sy|sy| |sy my ey];
    cbn [at_most] in Hx, Hy; try contradiction; cbn [SFadd].
  - destruct sx, sy; exact I.
  - cbn [at_most]. lia.
  - cbn [at_most]. lia.
  - destruct (aligned_sum_digits sx sy mx my ex ey Kx Ky Hx Hy) as [Hs _].
    replace (Z.max Kx Ky + 2) with (Z.max Kx Ky + 1 + 1) by lia.
    apply binary_normalize_at_most; [exact Hs | lia].
Qed.

Lemma SFsub_at_most (Kx Ky : Z) (x y : spec_float) :
  at_most Kx x -> at_most Ky y -> -1000 <= Kx -> -1000 <= Ky ->
  Z.max Kx Ky <= 969 ->
  at_most (Z.max Kx Ky + 2) (SFsub 53 1024 x y).
Proof.
  intros Hx Hy HKx HKy HK.
  destruct x as [sx|sx| |sx mx ex], y as [sy|sy| |sy my ey];
    cbn [at_most] in Hx, Hy; try contradiction; cbn [SFsub].
  - destruct sx, sy; exact I.
  - cbn [at_most]. lia.
  - cbn [at_most]. lia.
  - destruct (aligned_sum_digits sx sy mx my ex ey Kx Ky Hx Hy) as [_ Hs].
    replace (Z.max Kx Ky + 2) with (Z.max Kx Ky + 1 + 1) by lia.
    apply binary_normalize_at_most; [exact Hs | lia].
Qed.

(** *** Magnitudes of Python numbers *)

Lemma at_most_finite (K : Z) (f : spec_float) : at_most K f -> B64.is_finite f = true.
Proof. destruct f; cbn; intros H; try contradiction; reflexivity. Qed.

Lemma within_at_most (K : Z) (f : spec_float) : within K f -> at_most K f.
Proof. destruct f; cbn; intros H; try contradiction; lia. Qed.

Lemma tame_mono (K K' : Z) (x : num) : K <= K' -> tame K x -> tame K' x.
Proof.
  intros HK. destruct x as [z|f]; cbn [tame].
  - intros H. assert (2 ^ K <= 2 ^ K') by (apply Z.pow_le_mono_r; lia). lia.
  - apply at_most_mono. exact HK.
Qed.

Lemma tame_zero (K : Z) : 0 <= K -> tame K (Int 0).
Proof. intros HK. cbn. apply Z.pow_pos_nonneg; lia. Qed.

Lemma tame_finite (K : Z) (x : num) : tame K x -> Num.is_finite x = true.
Proof. destruct x; cbn; [reflexivity | apply at_most_finite]. Qed.

Lemma solid_tame (K : Z) (x : num) : solid K x -> tame K x.
Proof. destruct x; cbn; [lia | apply within_at_most]. Qed.

Lemma neat_tame (K : Z) (x : num) : neat K x -> tame K x.
Proof.
  destruct x as [z|f]; cbn; [lia | ].
  intros [Hz | Hw]; [destruct f; try discriminate; exact I | apply within_at_most, Hw].
Qed.

Lemma neat_truthy (K : Z) (x : num) : neat K x -> truthy x = true -> solid K x.
Proof.
  destruct x as [z|f]; cbn.
  - intros Hz Ht. apply negb_true_iff, Z.eqb_neq in Ht. lia.
  - intros [Hz | Hw] Ht; [rewrite Hz in Ht; discriminate | exact Hw].
Qed.

Lemma form_int_neat (x : num) : form_int x -> neat 53 x.
Proof. intros (z & -> & Hz). exact Hz. Qed.

(** Conversion of an operand to float. *)
Lemma to_float_tame (K : Z) (x : num) :
  tame K x -> 0 <= K <= 969 ->
  exists f, Num.to_float x = Ok f /\ at_most (K + 1) f.
Proof.
  intros Hx HK. destruct x as [z|f]; cbn [tame Num.to_float] in *.
  - assert (Ha : at_most (K + 1) (B64.of_Z z)).
    { apply binary_normalize_at_most; [ | lia].
      rewrite Z.add_0_r. apply Zdigits2_abs_lt; lia. }
    rewrite (at_most_finite _ _ Ha). exists (B64.of_Z z). split; [reflexivity | exact Ha].
  - exists f. split; [reflexivity | ]. apply at_most_mono with (K := K); [lia | exact Hx].
Qed.

Lemma to_float_solid (K : Z) (x : num) :
  solid K x -> 0 <= K <= 969 ->
  exists s m e, Num.to_float x = Ok (S754_finite s m e) /\
                - K <= Zpos (digits2_pos m) + e <= K + 1.
Proof.
  intros Hx HK. destruct x as [z|f]; cbn [solid Num.to_float] in *.
  - assert (Hd : 1 <= Zdigits2 z <= K).
    { split; [ | apply Zdigits2_abs_lt; lia].
      rewrite <- Zdigits2_abs. pose proof (Zdigits2_pos (Z.abs z)). lia. }
    destruct z as [|p|p]; [lia | | ]; cbn [Zdigits2] in Hd.
    + change (B64.of_Z (Z.pos p)) with (binary_round 53 1024 false p 0).
      destruct (binary_round_within false p 0 ltac:(lia)) as (m' & e' & E & Hb).
      rewrite E. cbn [B64.is_finite]. exists false, m', e'. split; [reflexivity | lia].
    + change (B64.of_Z (Z.neg p)) with (binary_round 53 1024 true p 0).
      destruct (binary_round_within true p 0 ltac:(lia)) as (m' & e' & E & Hb).
      rewrite E. cbn [B64.is_finite]. exists true, m', e'. split; [reflexivity | lia].
  - destruct f as [s|s| |s m e]; cbn [within] in Hx; try contradiction.
    exists s, m, e. split; [reflexivity | lia].
Qed.

Lemma abs_lt_pow2_max (a Ka Kb : Z) :
  Z.abs a < 2 ^ Ka -> 0 <= Ka -> 0 <= Kb -> Z.abs a < 2 ^ Z.max Ka Kb.
Proof.
  intros Ha H1 H2.
  assert (2 ^ Ka <= 2 ^ Z.max Ka Kb) by (apply Z.pow_le_mono_r; lia). lia.
Qed.

(** The float branch of [+], [-] and [*]. *)
Lemma float_branch_tame
  (fop : spec_float -> spec_float -> spec_float) (Kx Ky K : Z) (x y : num) :
  (forall a b, at_most (Kx + 1) a -> at_most (Ky + 1) b -> at_most K (fop a b)) ->
  tame Kx x -> tame Ky y -> 0 <= Kx <= 969 -> 0 <= Ky <= 969 ->
  exists c,
    rbind (Num.to_float x)
      (fun a => rbind (Num.to_float y) (fun b => Ok (Float (fop a b)))) = Ok c /\
    tame K c.
Proof.
  intros Hop Hx Hy HKx HKy.
  destruct (to_float_tame Kx x Hx HKx) as (a & -> & Ha).
  destruct (to_float_tame Ky y Hy HKy) as (b & -> & Hb).
  cbn [rbind]. eexists. split; [reflexivity | ]. cbn [tame]. apply Hop; assumption.
Qed.

Lemma num_add_tame (Kx Ky : Z) (x y : num) :
  tame Kx x -> tame Ky y -> 0 <= Kx -> 0 <= Ky -> Z.max Kx Ky <= 960 ->
  exists c, Num.add x y = Ok c /\ tame (Z.max Kx Ky + 3) c.
Proof.
  intros Hx Hy HKx HKy HK.
  assert (Hf : exists c,
             rbind (Num.to_float x)
               (fun a => rbind (Num.to_float y) (fun b => Ok (Float (B64.add a b)))) = Ok c /\
             tame (Z.max Kx Ky + 3) c).
  { apply float_branch_tame with (Kx := Kx) (Ky := Ky); try assumption; try lia.
    intros a b Ha Hb.
    replace (Z.max Kx Ky + 3) with (Z.max (Kx + 1) (Ky + 1) + 2) by lia.
    apply SFadd_at_most; try assumption; lia. }
  destruct x as [a|a], y as [b|b]; try exact Hf.
  cbn [tame] in Hx, Hy.
  exists (Int (a + b)). split; [reflexivity | ]. cbn [tame].
  pose proof (abs_lt_pow2_max a Kx Ky Hx HKx HKy).
  pose proof (abs_lt_pow2_max b Ky Kx Hy HKy HKx) as Hb'. rewrite Z.max_comm in Hb'.
  rewrite Z.pow_add_r by lia. change (2 ^ 3) with 8. lia.
Qed.

Lemma num_sub_tame (Kx Ky : Z) (x y : num) :
  tame Kx x -> tame Ky y -> 0 <= Kx -> 0 <= Ky -> Z.max Kx Ky <= 960 ->
  exists c, Num.sub x y = Ok c /\ tame (Z.max Kx Ky + 3) c.
Proof.
  intros Hx Hy HKx HKy HK.
  assert (Hf : exists c,
             rbind (Num.to_float x)
               (fun a => rbind (Num.to_float y) (fun b => Ok (Float (B64.sub a b)))) = Ok c /\
             tame (Z.max Kx Ky + 3) c).
  { apply float_branch_tame with (Kx := Kx) (Ky := Ky); try assumption; try lia.
    intros a b Ha Hb.
    replace (Z.max Kx Ky + 3) with (Z.max (Kx + 1) (Ky + 1) + 2) by lia.
    apply SFsub_at_most; try assumption; lia. }
  destruct x as [a|a], y as [b|b]; try exact Hf.
  cbn [tame] in Hx, Hy.
  exists (Int (a - b)). split; [reflexivity | ]. cbn [tame].
  pose proof (abs_lt_pow2_max a Kx Ky Hx HKx HKy).
  pose proof (abs_lt_pow2_max b Ky Kx Hy HKy HKx) as Hb'. rewrite Z.max_comm in Hb'.
  rewrite Z.pow_add_r by lia. change (2 ^ 3) with 8. lia.
Qed.

Lemma num_mul_tame (Kx Ky : Z) (x y : num) :
  tame Kx x -> tame Ky y -> 0 <= Kx -> 0 <= Ky -> Kx + Ky <= 960 ->
  exists c, Num.mul x y = Ok c /\ tame (Kx + Ky + 3) c.
Proof.
  intros Hx Hy HKx HKy HK.
  assert (Hf : exists c,
             rbind (Num.to_float x)
               (fun a => rbind (Num.to_float y) (fun b => Ok (Float (B64.mul a b)))) = Ok c /\
             tame (Kx + Ky + 3) c).
  { apply float_branch_tame with (Kx := Kx) (Ky := Ky); try assumption; try lia.
    intros a b Ha Hb.
    replace (Kx + Ky + 3) with ((Kx + 1) + (Ky + 1) + 1) by lia.
    apply SFmul_at_most; try assumption; lia. }
  destruct x as [a|a], y as [b|b]; try exact Hf.
  cbn [tame] in Hx, Hy.
  exists (Int (a * b)). split; [reflexivity | ]. cbn [tame].
  rewrite Z.abs_mul.
  assert (0 < 2 ^ Kx) by (apply Z.pow_pos_nonneg; lia).
  assert (0 < 2 ^ Ky) by (apply Z.pow_pos_nonneg; lia).
  rewrite !Z.pow_add_r by lia. change (2 ^ 3) with 8. nia.
Qed.

Lemma neat_cases (K : Z) (x : num) : neat K x -> truthy x = false \/ solid K x.
Proof.
  destruct x as [z|f]; cbn.
  - intros Hz. destruct (Z.eqb_spec z 0) as [-> | Hne]; [left; reflexivity | right; lia].
  - intros [Hz | Hw]; [left; rewrite Hz; reflexivity | right; exact Hw].
Qed.

Lemma pos_digits_le (p : positive) (K : Z) :
  0 <= K -> Zpos p < 2 ^ K -> 1 <= Zpos (digits2_pos p) <= K.
Proof.
  intros HK Hp. split; [lia | ].
  change (Zpos (digits2_pos p)) with (Zdigits2 (Zpos p)).
  apply Zdigits2_le_iff; lia.
Qed.

(** The quotient of two non-zero ints. *)
Lemma int_ratio_within (Kx Ky : Z) (a b : Z) :
  0 < Z.abs a < 2 ^ Kx -> 0 < Z.abs b < 2 ^ Ky ->
  0 <= Kx -> 0 <= Ky -> Kx + Ky <= 960 ->
  within (Kx + Ky + 4) (B64.of_ratio a b).
Proof.
  intros Ha Hb HKx HKy HK.
  assert (H : forall sa sb pa pb,
             Zpos pa < 2 ^ Kx -> Zpos pb < 2 ^ Ky ->
             within (Kx + Ky + 4)
               (B64.div (S754_finite sa pa 0) (S754_finite sb pb 0))).
  { intros sa sb pa pb Hpa Hpb.
    pose proof (pos_digits_le pa Kx HKx Hpa) as Da.
    pose proof (pos_digits_le pb Ky HKy Hpb) as Db.
    destruct (SFdiv_within sa sb pa pb 0 0 ltac:(lia)) as (m' & e' & E & Hm).
    unfold B64.div, B64.prec, B64.emax. rewrite E. cbn [within]. lia. }
  unfold B64.of_ratio.
  destruct a as [|pa|pa], b as [|pb|pb]; try lia; cbn [B64.of_Z_exact]; apply H; lia.
Qed.

Lemma num_truediv_tame (Kx Ky : Z) (x y : num) :
  tame Kx x -> solid Ky y -> 0 <= Kx -> 0 <= Ky -> Kx + Ky <= 960 ->
  exists f,
    Num.truediv x y = Ok (Float f) /\
    at_most (Kx + Ky + 4) f /\
    (solid Kx x -> within (Kx + Ky + 4) f) /\
    (truthy x = false -> B64.is_zero f = true).
Proof.
  intros Hx Hy HKx HKy HK.
  assert (Hf : exists f,
             rbind (Num.to_float x)
               (fun a => rbind (Num.to_float y)
                  (fun b => if B64.is_zero b then Raise ZeroDivisionError
                            else Ok (Float (B64.div a b)))) = Ok (Float f) /\
             at_most (Kx + Ky + 4) f /\
             (solid Kx x -> within (Kx + Ky + 4) f) /\
             (truthy x = false -> B64.is_zero f = true)).
  { destruct (to_float_tame Kx x Hx ltac:(lia)) as (a & Ea & Ha).
    destruct (to_float_solid Ky y Hy ltac:(lia)) as (sb & mb & eb & Eb & Hb).
    rewrite Ea, Eb. cbn [rbind B64.is_zero].
    eexists. split; [reflexivity | ].
    destruct a as [sa|sa| |sa ma ea]; cbn [at_most] in Ha; try contradiction.
    - (* zero dividend *)
      cbn. split; [exact I | ]. split; [ | reflexivity].
      intros Hs. destruct (to_float_solid Kx x Hs ltac:(lia)) as (s' & m' & e' & E' & _).
      rewrite E' in Ea. discriminate Ea.
    - split.
      + apply at_most_mono with (K := (Kx + Ky + 1) + 2); [lia | ].
        apply SFdiv_at_most; lia.
      + split.
        * intros Hs.
          destruct (to_float_solid Kx x Hs ltac:(lia)) as (s' & m' & e' & E' & Hm').
          rewrite E' in Ea. injection Ea as -> -> ->.
          destruct (SFdiv_within sa sb ma mb ea eb ltac:(lia)) as (m'' & e'' & E & Hm).
          unfold B64.div, B64.prec, B64.emax. rewrite E. cbn [within]. lia.
        * intros Ht. exfalso.
          destruct x as [z|f]; cbn in Ht, Ea.
          -- apply negb_false_iff, Z.eqb_eq in Ht. subst z. discriminate Ea.
          -- injection Ea as ->. discriminate Ht. }
  destruct x as [a|a], y as [b|b]; try exact Hf.
  cbn [tame solid] in Hx, Hy. cbn [Num.truediv].
  destruct (Z.eqb_spec b 0) as [-> | Hb]; [cbn in Hy; lia | ].
  destruct (Z.eq_dec a 0) as [-> | Ha].
  - cbn. eexists. split; [reflexivity | ].
    split; [exact I | ]. split; [cbn; lia | reflexivity].
  - pose proof (int_ratio_within Kx Ky a b ltac:(lia) Hy HKx HKy HK) as Hw.
    rewrite (at_most_finite _ _ (within_at_most _ _ Hw)).
    eexists. split; [reflexivity | ].
    split; [apply within_at_most, Hw | ].
    split; [intros _; exact Hw | ].
    intros Ht. cbn in Ht. apply negb_false_iff, Z.eqb_eq in Ht. contradiction.
Qed.

(** [n / d if d else 0] on tame operands. *)
Lemma ratio_or_zero_tame (Kn Kd : Z) (n d : num) :
  tame Kn n -> neat Kd d -> 0 <= Kn -> 0 <= Kd -> Kn + Kd <= 960 ->
  exists c,
    ratio_or_zero n d = Ok c /\
    tame (Kn + Kd + 4) c /\
    (neat Kn n -> neat (Kn + Kd + 4) c).
Proof.
  intros Hn Hd HKn HKd HK. unfold ratio_or_zero.
  destruct (truthy d) eqn:Ht.
  - pose proof (neat_truthy Kd d Hd Ht) as Hs.
    destruct (num_truediv_tame Kn Kd n d Hn Hs HKn HKd HK) as (f & E & Ha & Hw & Hz).
    exists (Float f). split; [exact E | ]. split; [exact Ha | ].
    intros Hneat. destruct (neat_cases Kn n Hneat) as [Hz' | Hs'].
    + left. apply Hz, Hz'.
    + right. apply Hw, Hs'.
  - exists (Int 0). split; [reflexivity | ].
    split; [apply tame_zero; lia | ]. intros _. cbn. apply Z.pow_pos_nonneg; lia.
Qed.

(** *** Rounding to a number of places *)

Lemma div_half_even_le (n d : Z) :
  0 <= n -> 0 < d -> 0 <= B64.div_half_even n d <= n / d + 1.
Proof.
  intros Hn Hd. unfold B64.div_half_even.
  assert (0 <= n / d) by (apply Z.div_pos; lia).
  destruct (Z.compare (2 * (n mod d)) d); [destruct (Z.even (n / d)) | | ]; lia.
Qed.

(** The digits of a rounded decimal: at most 15 bits above the float. *)
Lemma scaled_digits_bound (m : positive) (e k K : Z) :
  Zpos (digits2_pos m) + e <= K -> 0 <= K -> 0 <= k <= 4 ->
  0 <= B64.scaled_digits m e k /\ Zdigits2 (B64.scaled_digits m e k) <= K + 15.
Proof.
  intros HM HK Hk. unfold B64.scaled_digits.
  assert (H10 : 0 < 10 ^ k < 2 ^ 14).
  { split; [apply Z.pow_pos_nonneg; lia | ].
    assert (10 ^ k <= 10 ^ 4) by (apply Z.pow_le_mono_r; lia).
    change (10 ^ 4) with 10000 in *. change (2 ^ 14) with 16384. lia. }
  pose proof (pos_lt_pow2_digits m) as Um.
  set (dm := Zpos (digits2_pos m)) in *.
  assert (Hdm : 0 < dm) by (unfold dm; lia).
  set (n := Zpos m * 10 ^ k).
  assert (Hn : 0 < n < 2 ^ (dm + 14)).
  { unfold n. rewrite Z.pow_add_r by lia. split; nia. }
  assert (Hdn : Zdigits2 n <= dm + 14) by (apply Zdigits2_le_iff; lia).
  destruct e as [|p|p].
  - rewrite Z.pow_0_r, Z.mul_1_r. split; lia.
  - assert (0 < 2 ^ Z.pos p) by (apply Z.pow_pos_nonneg; lia).
    split; [nia | ]. rewrite Zdigits2_mul_pow2 by lia. lia.
  - assert (Hp : 0 < 2 ^ Z.pos p) by (apply Z.pow_pos_nonneg; lia).
    pose proof (div_half_even_le n (2 ^ Z.pos p) ltac:(lia) Hp) as [Hlo Hhi].
    split; [exact Hlo | ].
    pose proof (Zdigits2_div_pow2 n (Z.pos p) ltac:(lia) ltac:(lia)) as Hq.
    assert (Hq0 : 0 <= n / 2 ^ Z.pos p) by (apply Z.div_pos; lia).
    pose proof (Zdigits2_succ (n / 2 ^ Z.pos p) Hq0) as Hs.
    pose proof (Zdigits2_mono _ _ Hlo Hhi) as Hmono.
    lia.
Qed.

(** [round(x, ndigits)] of a tame number, for at most four places, comes
    back and is finite. *)
Lemma num_round_finite (K : Z) (x : num) (ndigits : N) :
  tame K x -> 0 <= K <= 900 -> (ndigits <= 4)%N ->
  exists y, Num.round x ndigits = Ok y /\ Num.is_finite y = true.
Proof.
  intros Hx HK Hn. destruct x as [z|f]; cbn [Num.round].
  - exists (Int z). split; reflexivity.
  - cbn [tame] in Hx.
    destruct f as [s|s| |s m e]; cbn [at_most] in Hx; try contradiction.
    + exists (Float (S754_zero s)). split; reflexivity.
    + cbn [Num.round_float].
      destruct (scaled_digits_bound m e (Z.of_N ndigits) K Hx ltac:(lia) ltac:(lia))
        as [Hd0 Hd].
      destruct (B64.scaled_digits m e (Z.of_N ndigits)) as [|d|d] eqn:Ed.
      * exists (Float (S754_zero s)). split; reflexivity.
      * assert (H10 : 0 < 10 ^ Z.of_N ndigits) by (apply Z.pow_pos_nonneg; lia).
        destruct (10 ^ Z.of_N ndigits) as [|p|p] eqn:E10; try lia.
        cbn [B64.of_Z_exact].
        assert (Ha : at_most (K + 15 + 2)
                       (B64.div (S754_finite s d 0) (S754_finite false p 0))).
        { apply SFdiv_at_most; [ | lia]. cbn [Zdigits2] in Hd. lia. }
        rewrite (at_most_finite _ _ Ha). cbn [rbind].
        eexists. split; [reflexivity | ]. cbn. apply (at_most_finite _ _ Ha).
      * lia.
Qed.

(** *** The ratios of [financial_analysis] on inputs of the form *)

(** One step of a sequenced computation: when the head comes back with [v],
    the whole sequence behaves as its continuation at [v]. *)
Lemma rbind_step {A B : Type} (c : result A) (k : A -> result B)
  (P : B -> Prop) (v : A) :
  c = Ok v -> (exists r, k v = Ok r /\ P r) -> exists r, rbind c k = Ok r /\ P r.
Proof.
  intros E (r & Hr & HP). exists r. split; [ | exact HP].
  rewrite E. exact Hr.
Qed.

Ltac advance v E :=
  match goal with
  | |- exists r, rbind ?c ?k = Ok r /\ @?P r =>
      refine (rbind_step c k P v E _); cbn beta
  end.

Ltac step v E Hv P tac :=
  match goal with
  | |- exists r, rbind ?c _ = Ok r /\ _ =>
      assert (exists v, c = Ok v /\ P v) as (v & E & Hv) by tac;
      advance v E
  end.

(** A sum or difference of two ints is an int, with no failure. *)
Ltac int_step z :=
  advance (Int z) (eq_refl (Ok (Int z))).

Ltac pow_side := try lia; try (apply Z.pow_pos_nonneg; lia).


Ltac fin_truediv Kx Ky Hx Hy :=
  let f := fresh "f" in
  let E := fresh "E" in
  let Ha := fresh "Ha" in
  destruct (num_truediv_tame Kx Ky _ _ Hx Hy ltac:(lia) ltac:(lia) ltac:(lia))
    as (f & E & Ha & _);
  exists (Float f); split; [exact E | exact Ha].

Ltac fin_roz Kn Kd Hn Hd :=
  let c := fresh "c" in
  let E := fresh "E" in
  let Hc := fresh "Hc" in
  destruct (ratio_or_zero_tame Kn Kd _ _ Hn Hd ltac:(lia) ltac:(lia) ltac:(lia))
    as (c & E & Hc & _);
  exists c; split; [exact E | exact Hc].

Ltac fin_roz_neat Kn Kd Hn Hd Hnn :=
  let c := fresh "c" in
  let E := fresh "E" in
  let Hc := fresh "Hc" in
  let Hneat := fresh "Hneat" in
  destruct (ratio_or_zero_tame Kn Kd _ _ Hn Hd ltac:(lia) ltac:(lia) ltac:(lia))
    as (c & E & Hc & Hneat);
  exists c; split; [exact E | split; [exact Hc | exact (Hneat Hnn)]].

Ltac fin_add Kx Ky Hx Hy :=
  let c := fresh "c" in
  let E := fresh "E" in
  let Hc := fresh "Hc" in
  destruct (num_add_tame Kx Ky _ _ Hx Hy ltac:(lia) ltac:(lia) ltac:(lia))
    as (c & E & Hc);
  exists c; split; [exact E | exact Hc].

Ltac fin_sub Kx Ky Hx Hy :=
  let c := fresh "c" in
  let E := fresh "E" in
  let Hc := fresh "Hc" in
  destruct (num_sub_tame Kx Ky _ _ Hx Hy ltac:(lia) ltac:(lia) ltac:(lia))
    as (c & E & Hc);
  exists c; split; [exact E | exact Hc].

Ltac fin_mul Kx Ky Hx Hy :=
  let c := fresh "c" in
  let E := fresh "E" in
  let Hc := fresh "Hc" in
  destruct (num_mul_tame Kx Ky _ _ Hx Hy ltac:(lia) ltac:(lia) ltac:(lia))
    as (c & E & Hc);
  exists c; split; [exact E | exact Hc].

Ltac fin_zero := exists (Int 0); split; [reflexivity | apply tame_zero; lia].

(** [(n1 / n2) ... / d] under a guard: first quotient solid, then divide. *)
Ltac fin_div_by_quotient K Hn Hd1 Hd2 Hs1 :=
  let f := fresh "f" in
  let E := fresh "E" in
  let Hw := fresh "Hw" in
  destruct (num_truediv_tame 56 56 _ _ Hd1 Hd2 ltac:(lia) ltac:(lia) ltac:(lia))
    as (f & E & _ & Hw & _);
  advance (Float f) E;
  specialize (Hw Hs1);
  fin_truediv K 116 Hn (Hw : solid 116 (Float f)).

Lemma int_tame_56 (z : Z) : Z.abs z < 2 ^ 53 -> tame 56 (Int z).
Proof.
  intros H. cbn [tame]. change (2 ^ 53) with 9007199254740992 in H.
  change (2 ^ 56) with 72057594037927936. lia.
Qed.

Lemma sum2_tame_56 (a b : Z) :
  Z.abs a < 2 ^ 53 -> Z.abs b < 2 ^ 53 -> tame 56 (Int (a + b)).
Proof.
  intros Ha Hb. cbn [tame]. change (2 ^ 53) with 9007199254740992 in *.
  change (2 ^ 56) with 72057594037927936. lia.
Qed.

Lemma sum3_tame_56 (a b c : Z) :
  Z.abs a < 2 ^ 53 -> Z.abs b < 2 ^ 53 -> Z.abs c < 2 ^ 53 ->
  tame 56 (Int (a + b + c)).
Proof.
  intros Ha Hb Hc. cbn [tame]. change (2 ^ 53) with 9007199254740992 in *.
  change (2 ^ 56) with 72057594037927936. lia.
Qed.

Lemma sum5_tame_56 (a b c d e : Z) :
  Z.abs a < 2 ^ 53 -> Z.abs b < 2 ^ 53 -> Z.abs c < 2 ^ 53 ->
  Z.abs d < 2 ^ 53 -> Z.abs e < 2 ^ 53 ->
  tame 56 (Int (a + b + c + d + e)).
Proof.
  intros Ha Hb Hc Hd He. cbn [tame]. change (2 ^ 53) with 9007199254740992 in *.
  change (2 ^ 56) with 72057594037927936. lia.
Qed.

Lemma nwc_tame_56 (a b c d e : Z) :
  Z.abs a < 2 ^ 53 -> Z.abs b < 2 ^ 53 -> Z.abs c < 2 ^ 53 ->
  Z.abs d < 2 ^ 53 -> Z.abs e < 2 ^ 53 ->
  tame 56 (Int (a + b + c - (d + e))).
Proof.
  intros Ha Hb Hc Hd He. cbn [tame]. change (2 ^ 53) with 9007199254740992 in *.
  change (2 ^ 56) with 72057594037927936. lia.
Qed.

Lemma financial_ratios_tame_ints
  (zRev zcogs zgp zsm zrd zga zebitda zda zebit zie zni zcash zar zinv zppe zintang
   zap zaccr zltd zse zshares : Z) (sp : num) :
  tame 56 (Int (zcash + zar + zinv)) ->
  tame 56 (Int (zcash + zar + zinv + zppe + zintang)) ->
  tame 56 (Int (zap + zaccr)) ->
  tame 56 (Int (zcash + zar + zinv - (zap + zaccr))) ->
  tame 56 (Int zRev) ->
  tame 56 (Int zcogs) ->
  tame 56 (Int zgp) ->
  tame 56 (Int zebitda) ->
  tame 56 (Int zebit) ->
  tame 56 (Int zie) ->
  tame 56 (Int zni) ->
  tame 56 (Int zcash) ->
  tame 56 (Int zar) ->
  tame 56 (Int zinv) ->
  tame 56 (Int zppe) ->
  tame 56 (Int zltd) ->
  tame 56 (Int zse) ->
  tame 56 (Int zshares) ->
  tame 56 (Int (zltd + zse)) ->
  tame 56 sp ->
  exists r,
    financial_ratios
      {| Revenue := Int zRev; COGS := Int zcogs; Gross_Profit := Int zgp;
         Sales_and_Marketing := Int zsm; Research_and_Development := Int zrd;
         General_and_Administrative := Int zga; EBITDA := Int zebitda;
         Depreciation_and_Amortization := Int zda; EBIT := Int zebit;
         Interest_Expense := Int zie; Net_Income := Int zni;
         cash_equivalents := Int zcash; accounts_receivable := Int zar;
         inventory := Int zinv; fixed_assets_ppe := Int zppe;
         intangible_assets := Int zintang; accounts_payable := Int zap;
         accrued_expenses := Int zaccr; long_term_debt := Int zltd;
         shareholders_equity := Int zse; stock_price := sp;
         shares_outstanding := Int zshares |} = Ok r /\
    Forall (tame 400) (reported_locals r).
Proof.
  intros TCA TTA TCL TNWC TRev Tcogs Tgp Tebitda Tebit Tie Tni Tcash Tar Tinv Tppe
         Tltd Tse Tshares Tltdse Tsp.
  assert (T365 : solid 56 (Int 365)) by (cbn; lia).
  unfold financial_ratios.
  cbn [Revenue COGS Gross_Profit Sales_and_Marketing Research_and_Development
       General_and_Administrative EBITDA Depreciation_and_Amortization EBIT
       Interest_Expense Net_Income cash_equivalents accounts_receivable inventory
       fixed_assets_ppe intangible_assets accounts_payable accrued_expenses
       long_term_debt shareholders_equity stock_price shares_outstanding].
  change (@py_add num PyNumber_num) with Num.add.
  change (@py_sub num PyNumber_num) with Num.sub.
  change (@py_mul num PyNumber_num) with Num.mul.
  change (@py_truediv num PyNumber_num) with Num.truediv.
  change (@of_int num PyNumber_num) with Int.
  (* the aggregates are ints *)
  int_step (zcash + zar).
  int_step (zcash + zar + zinv).
  int_step (zcash + zar + zinv + zppe).
  int_step (zcash + zar + zinv + zppe + zintang).
  int_step (zap + zaccr).
  int_step (zcash + zar + zinv - (zap + zaccr)).
  remember (zcash + zar + zinv) as CA eqn:ECA.
  remember (CA + zppe + zintang) as TA eqn:ETA.
  remember (zap + zaccr) as CL eqn:ECL.
  remember (CA - CL) as NWC eqn:ENWC.
  clear ECA ETA ECL ENWC.
  pose proof (TCL : neat 56 (Int CL)) as NCL.
  pose proof (TTA : neat 56 (Int TA)) as NTA.
  pose proof (TNWC : neat 56 (Int NWC)) as NNWC.
  pose proof (TRev : neat 56 (Int zRev)) as NRev.
  pose proof (Tcogs : neat 56 (Int zcogs)) as Ncogs.
  pose proof (Tebitda : neat 56 (Int zebitda)) as Nebitda.
  pose proof (Tie : neat 56 (Int zie)) as Nie.
  pose proof (Tni : neat 56 (Int zni)) as Nni.
  pose proof (Tar : neat 56 (Int zar)) as Nar.
  pose proof (Tinv : neat 56 (Int zinv)) as Ninv.
  pose proof (Tppe : neat 56 (Int zppe)) as Nppe.
  pose proof (Tse : neat 56 (Int zse)) as Nse.
  pose proof (Tshares : neat 56 (Int zshares)) as Nshares.
  pose proof (Tltdse : neat 56 (Int (zltd + zse))) as Nltdse.
  (* liquidity *)
  step cr Ecr Tcr (tame 116) ltac:(fin_roz 56 56 TCA NCL).
  step qr Eqr Tqr (tame 119) ltac:(
    destruct (truthy (Int CL)) eqn:Ht; [ | fin_zero];
    step t Et Tt (tame 59) ltac:(fin_sub 56 56 TCA Tinv);
    fin_truediv 59 56 Tt (neat_truthy 56 _ NCL Ht)).
  step car Ecar Tcar (tame 116) ltac:(fin_roz 56 56 Tcash NCL).
  step im Eim Tim (tame 176) ltac:(
    destruct (truthy (Int zcogs)) eqn:Ht; [ | fin_zero];
    fin_div_by_quotient 56 TCA Tcogs T365 (neat_truthy 56 _ Ncogs Ht)).
  (* solvency *)
  step tdr Etdr Ttdr (tame 119) ltac:(
    destruct (truthy (Int TA)) eqn:Ht; [ | fin_zero];
    step t Et Tt (tame 59) ltac:(fin_sub 56 56 TTA Tse);
    fin_truediv 59 56 Tt (neat_truthy 56 _ NTA Ht)).
  step em Eem Tem (tame 116) ltac:(fin_roz 56 56 TTA Nse).
  step lr Elr Tlr (tame 116) ltac:(
    int_step (zltd + zse);
    destruct (truthy (Int (zltd + zse))) eqn:Ht; [ | fin_zero];
    int_step (zltd + zse);
    fin_truediv 56 56 Tltd (neat_truthy 56 _ Nltdse Ht)).
  step ti Eti Tti (tame 116) ltac:(fin_roz 56 56 Tebit Nie).
  step cc Ecc Tcc (tame 116) ltac:(fin_roz 56 56 Tebitda Nie).
  (* turnover *)
  step tat Etat Ttat (tame 116) ltac:(fin_roz 56 56 TRev NTA).
  step nt Ent Tnt (tame 116) ltac:(fin_roz 56 56 TRev NNWC).
  step fat Efat Tfat (tame 116) ltac:(fin_roz 56 56 TRev Nppe).
  (* profitability *)
  step gm Egm Tgm (tame 116) ltac:(fin_roz 56 56 Tgp NRev).
  step pm Epm Tpm (tame 116) ltac:(fin_roz 56 56 Tni NRev).
  step ra Era Tra (tame 116) ltac:(fin_roz 56 56 Tni NTA).
  step re Ere Tre (tame 116) ltac:(fin_roz 56 56 Tni Nse).
  (* DuPont *)
  step dt Edt Tdt (tame 235) ltac:(fin_mul 116 116 Tpm Ttat).
  step dr Edr Tdr (tame 354) ltac:(fin_mul 235 116 Tdt Tem).
  (* market *)
  step mc Emc Tmc (tame 115) ltac:(fin_mul 56 56 Tsp Tshares).
  step pe Epe Tpe (tame 176) ltac:(
    destruct (truthy (Int zni)) eqn:Ht1; [ | fin_zero];
    destruct (truthy (Int zshares)) eqn:Ht2; [ | fin_zero];
    cbn [andb];
    fin_div_by_quotient 56 Tsp Tni (neat_truthy 56 _ Nshares Ht2)
      (neat_truthy 56 _ Nni Ht1)).
  step mb Emb Tmb (tame 175) ltac:(fin_roz 115 56 Tmc Nse).
  step ps Eps Tps (tame 175) ltac:(fin_roz 115 56 Tmc NRev).
  step et Eet Tet (tame 118) ltac:(fin_add 115 56 Tmc Tltd).
  step ev Eev Tev (tame 121) ltac:(fin_sub 118 56 Tet Tcash).
  step ee Eee Tee (tame 181) ltac:(fin_roz 121 56 Tev Nebitda).
  (* operational *)
  step it Eit Tit (fun v => tame 116 v /\ neat 116 v)
    ltac:(fin_roz_neat 56 56 Tcogs Ninv Ncogs).
  destruct Tit as [Tit Nit].
  step dsi Edsi Tdsi (tame 176) ltac:(fin_roz 56 116 (solid_tame 56 _ T365) Nit).
  step rt Ert Trt (fun v => tame 116 v /\ neat 116 v)
    ltac:(fin_roz_neat 56 56 TRev Nar NRev).
  destruct Trt as [Trt Nrt].
  step dso Edso Tdso (tame 176) ltac:(fin_roz 56 116 (solid_tame 56 _ T365) Nrt).
  eexists. split; [reflexivity | ].
  unfold reported_locals.
  cbn [current_ratio quick_ratio cash_ratio interval_measure total_debt_ratio
       equity_multiplier ltd_ratio tie cash_coverage total_asset_turnover
       nwc_turnover fixed_asset_turnover gross_margin profit_margin roa roe
       dupont_roe pe_ratio market_to_book price_sales enterprise_value ev_ebitda
       inv_turnover days_sales_inv rec_turnover days_sales_rec].
  repeat (apply Forall_cons; [eapply tame_mono; [ | eassumption]; lia | ]).
  apply Forall_nil.
Qed.

Lemma financial_ratios_in_range (a : FinancialData num) :
  in_form_range a ->
  exists r, financial_ratios a = Ok r /\ Forall (tame 400) (reported_locals r).
Proof.
  destruct a as [Rev cogs gp sm rd ga ebitda da ebit ie ni cash ar inv ppe intang
                 ap accr ltd se sp shares].
  unfold in_form_range.
  cbn [Revenue COGS Gross_Profit Sales_and_Marketing Research_and_Development
       General_and_Administrative EBITDA Depreciation_and_Amortization EBIT
       Interest_Expense Net_Income cash_equivalents accounts_receivable inventory
       fixed_assets_ppe intangible_assets accounts_payable accrued_expenses
       long_term_debt shareholders_equity stock_price shares_outstanding].
  intros ((zRev & -> & HRev) & (zcogs & -> & Hcogs) & (zgp & -> & Hgp) &
          (zsm & -> & Hsm) & (zrd & -> & Hrd) & (zga & -> & Hga) &
          (zebitda & -> & Hebitda) & (zda & -> & Hda) & (zebit & -> & Hebit) &
          (zie & -> & Hie) & (zni & -> & Hni) & (zcash & -> & Hcash) &
          (zar & -> & Har) & (zinv & -> & Hinv) & (zppe & -> & Hppe) &
          (zintang & -> & Hintang) & (zap & -> & Hap) & (zaccr & -> & Haccr) &
          (zltd & -> & Hltd) & (zse & -> & Hse) & (zshares & -> & Hshares) & Hsp).
  apply financial_ratios_tame_ints.
  - apply sum3_tame_56; assumption.
  - apply sum5_tame_56; assumption.
  - apply sum2_tame_56; assumption.
  - apply nwc_tame_56; assumption.
  - apply int_tame_56; assumption.
  - apply int_tame_56; assumption.
  - apply int_tame_56; assumption.
  - apply int_tame_56; assumption.
  - apply int_tame_56; assumption.
  - apply int_tame_56; assumption.
  - apply int_tame_56; assumption.
  - apply int_tame_56; assumption.
  - apply int_tame_56; assumption.
  - apply int_tame_56; assumption.
  - apply int_tame_56; assumption.
  - apply int_tame_56; assumption.
  - apply int_tame_56; assumption.
  - apply int_tame_56; assumption.
  - apply sum2_tame_56; assumption.
  - apply tame_mono with (K := 53); [lia | exact Hsp].
Qed.

(** *** The report *)

Ltac round_step y E F :=
  match goal with
  | H : tame 400 ?x |- exists r, rbind (Num.round ?x ?n) _ = Ok r /\ _ =>
      destruct (num_round_finite 400 x n H ltac:(lia) ltac:(lia)) as (y & E & F);
      advance y E
  end.

Lemma financial_results_finite (r : FinancialRatios num) :
  Forall (tame 400) (reported_locals r) ->
  exists rep, financial_results r = Ok rep /\ every_leaf_finite rep = true.
Proof.
  unfold reported_locals. intros H.
  repeat match type of H with
         | Forall _ (_ :: _) =>
             let T := fresh "T" in
             apply Forall_cons_iff in H; destruct H as [T H]
         end.
  clear H. unfold financial_results.
  do 29 (let y := fresh "y" in let E := fresh "E" in let F := fresh "F" in
         round_step y E F).
  eexists. split; [reflexivity | ].
  unfold every_leaf_finite. cbn [leaves app forallb].
  repeat match goal with
         | F : Num.is_finite ?y = true |- context [Num.is_finite ?y] =>
             rewrite F; clear F
         end.
  reflexivity.
Qed.

Section Collaborator.

Variable float_repr : spec_float -> string.
Variable Backend : Type.
Variable call_llm : string -> Backend -> result string * Backend.

Lemma financial_analysis_follows_the_call (a : FinancialData num) (rep : pyval)
  (w : world Backend) :
  financial_metrics a = Ok rep ->
  fst (financial_analysis float_repr Backend call_llm a w) =
  match fst (call_llm (financial_prompt float_repr rep) (backend w)) with
  | Ok s => Ok (rep, s)
  | Raise e => Raise e
  end.
Proof.
  intros E. unfold financial_analysis, bind, lift, construct_prompt_financial, call, ret.
  rewrite E.
  destruct (call_llm (financial_prompt float_repr rep) (backend w)) as [[s|e] b];
    reflexivity.
Qed.

End Collaborator.

End Magnitudes.

(** ** C2: what holds, and where *)




(** * Further properties

    Properties of the code beyond the claims: the order of the calls in
    [analyze_business], what the guards of the marketing ratios imply for
    the report, the range on which the marketing report is finite, the
    client of [llm_client.py] and the forms and the run of [app.py]. *)

(** ** The three entry points and their calls *)

Section EntryPoints.

Variable float_repr : spec_float -> string.
Variable Backend : Type.
Variable call_llm : string -> Backend -> result string * Backend.

(** When both reports compute and the three calls answer,
    [analyze_business] returns its five keys in the order of the dict
    literal; the collaborator has been handed, in this order, the financial
    prompt, the marketing prompt and the CEO prompt; and the CEO prompt is
    assembled from the two narratives the first two calls returned, not from
    the metrics. *)
Theorem analyze_business_returns_five_keys
  (f : FinancialData num) (m : MarketingData num) (w : world Backend)
  (fm mm : pyval) (cfo_text cmo_text ceo_text : string) (b1 b2 b3 : Backend) :
  financial_metrics f = Ok fm ->
  call_llm (financial_prompt float_repr fm) (backend w) = (Ok cfo_text, b1) ->
  marketing_metrics (Revenue f) m = Ok mm ->
  call_llm (marketing_prompt float_repr mm) b1 = (Ok cmo_text, b2) ->
  call_llm (ceo_prompt cfo_text cmo_text) b2 = (Ok ceo_text, b3) ->
  analyze_business float_repr Backend call_llm f m w =
    (Ok (PDict [("financial_metrics", fm);
                ("financial_report", PStr cfo_text);
                ("marketing_metrics", mm);
                ("marketing_report", PStr cmo_text);
                ("ceo_report", PStr ceo_text)]),
     {| backend := b3;
        sent := sent w ++ [financial_prompt float_repr fm;
                           marketing_prompt float_repr mm;
                           ceo_prompt cfo_text cmo_text] |}).
Proof.
  intros Hfm Hc1 Hmm Hc2 Hc3.
  unfold analyze_business, financial_analysis, analyze_marketing_performance,
    construct_prompt_financial, construct_prompt_marketing, construct_prompt_ceo,
    bind, lift, call, ret.
  rewrite Hfm. rewrite Hc1. cbn [backend sent fst snd].
  rewrite Hmm. cbn [backend sent fst snd]. rewrite Hc2. cbn [backend sent fst snd].
  rewrite Hc3. cbn [backend sent fst snd].
  repeat rewrite <- app_assoc. reflexivity.
Qed.

(** An arithmetic failure of the financial half is raised before any call:
    the collaborator is left as it was and nothing has been sent. *)
Theorem financial_failure_precedes_every_call
  (f : FinancialData num) (m : MarketingData num) (w : world Backend) (e : exn) :
  financial_metrics f = Raise e ->
  analyze_business float_repr Backend call_llm f m w = (Raise e, w).
Proof.
  intros Hfm.
  unfold analyze_business, financial_analysis, bind, lift.
  rewrite Hfm. reflexivity.
Qed.

(** An arithmetic failure of the marketing half is raised after the
    financial call has been made and answered: one prompt sent, its
    narrative and the financial metrics lost, no further call. *)
Theorem marketing_failure_follows_one_call
  (f : FinancialData num) (m : MarketingData num) (w : world Backend) (e : exn)
  (fm : pyval) (cfo_text : string) (b1 : Backend) :
  financial_metrics f = Ok fm ->
  call_llm (financial_prompt float_repr fm) (backend w) = (Ok cfo_text, b1) ->
  marketing_metrics (Revenue f) m = Raise e ->
  analyze_business float_repr Backend call_llm f m w =
    (Raise e,
     {| backend := b1; sent := sent w ++ [financial_prompt float_repr fm] |}).
Proof.
  intros Hfm Hc1 Hmm.
  unfold analyze_business, financial_analysis, analyze_marketing_performance,
    construct_prompt_financial, bind, lift, call, ret.
  rewrite Hfm. rewrite Hc1. cbn [backend sent fst snd].
  rewrite Hmm. reflexivity.
Qed.

(** A failure of the first call is raised at once, whatever the marketing
    data are: they are not looked at, and no second prompt is sent. *)
Theorem first_call_failure_aborts
  (f : FinancialData num) (m : MarketingData num) (w : world Backend)
  (fm : pyval) (e : exn) (b1 : Backend) :
  financial_metrics f = Ok fm ->
  call_llm (financial_prompt float_repr fm) (backend w) = (Raise e, b1) ->
  analyze_business float_repr Backend call_llm f m w =
    (Raise e,
     {| backend := b1; sent := sent w ++ [financial_prompt float_repr fm] |}).
Proof.
  intros Hfm Hc1.
  unfold analyze_business, financial_analysis, construct_prompt_financial,
    bind, lift, call, ret.
  rewrite Hfm. rewrite Hc1. reflexivity.
Qed.

(** A failure of the third call is raised after all three prompts have
    been sent: neither set of metrics and neither narrative is returned. *)
Theorem last_call_failure_aborts
  (f : FinancialData num) (m : MarketingData num) (w : world Backend)
  (fm mm : pyval) (cfo_text cmo_text : string) (e : exn) (b1 b2 b3 : Backend) :
  financial_metrics f = Ok fm ->
  call_llm (financial_prompt float_repr fm) (backend w) = (Ok cfo_text, b1) ->
  marketing_metrics (Revenue f) m = Ok mm ->
  call_llm (marketing_prompt float_repr mm) b1 = (Ok cmo_text, b2) ->
  call_llm (ceo_prompt cfo_text cmo_text) b2 = (Raise e, b3) ->
  analyze_business float_repr Backend call_llm f m w =
    (Raise e,
     {| backend := b3;
        sent := sent w ++ [financial_prompt float_repr fm;
                           marketing_prompt float_repr mm;
                           ceo_prompt cfo_text cmo_text] |}).
Proof.
  intros Hfm Hc1 Hmm Hc2 Hc3.
  unfold analyze_business, financial_analysis, analyze_marketing_performance,
    construct_prompt_financial, construct_prompt_marketing, construct_prompt_ceo,
    bind, lift, call, ret.
  rewrite Hfm. rewrite Hc1. cbn [backend sent fst snd].
  rewrite Hmm. cbn [backend sent fst snd]. rewrite Hc2. cbn [backend sent fst snd].
  rewrite Hc3. cbn [backend sent fst snd].
  repeat rewrite <- app_assoc. reflexivity.
Qed.

(** Whatever the collaborator does, a run only adds prompts to those
    already sent: [analyze_business] at most three, and exactly three when
    it returns; [financial_analysis] and [analyze_marketing_performance] at
    most one, and exactly one when they return. *)
Theorem entry_points_call_budget
  (f : FinancialData num) (m : MarketingData num) (Rev : num) (w : world Backend) :
  (exists l,
     sent (snd (analyze_business float_repr Backend call_llm f m w))
       = (sent w ++ l)%list /\
     (List.length l <= 3)%nat /\
     (is_ok (fst (analyze_business float_repr Backend call_llm f m w)) = true ->
      List.length l = 3%nat)) /\
  (exists l,
     sent (snd (financial_analysis float_repr Backend call_llm f w))
       = (sent w ++ l)%list /\
     (List.length l <= 1)%nat /\
     (is_ok (fst (financial_analysis float_repr Backend call_llm f w)) = true ->
      List.length l = 1%nat)) /\
  (exists l,
     sent (snd (analyze_marketing_performance float_repr Backend call_llm Rev m w))
       = (sent w ++ l)%list /\
     (List.length l <= 1)%nat /\
     (is_ok (fst (analyze_marketing_performance float_repr Backend call_llm Rev m w))
        = true ->
      List.length l = 1%nat)).
Proof.
  split; [ | split].
  - unfold analyze_business, financial_analysis, analyze_marketing_performance,
      construct_prompt_financial, construct_prompt_marketing, construct_prompt_ceo,
      bind, lift, call, ret.
    destruct (financial_metrics f) as [fm|e].
    2:{ exists []. cbn. rewrite app_nil_r. repeat split; [lia | discriminate]. }
    destruct (call_llm (financial_prompt float_repr fm) (backend w)) as [[t1|e] b1];
      cbn [backend sent fst snd].
    2:{ exists [financial_prompt float_repr fm]. cbn.
        repeat split; [lia | discriminate]. }
    destruct (marketing_metrics (Revenue f) m) as [mm|e]; cbn [backend sent fst snd].
    2:{ exists [financial_prompt float_repr fm]. cbn.
        repeat split; [lia | discriminate]. }
    destruct (call_llm (marketing_prompt float_repr mm) b1) as [[t2|e] b2];
      cbn [backend sent fst snd].
    2:{ exists [financial_prompt float_repr fm; marketing_prompt float_repr mm].
        cbn. rewrite <- app_assoc. repeat split; [lia | discriminate]. }
    destruct (call_llm (ceo_prompt t1 t2) b2) as [[t3|e] b3];
      cbn [backend sent fst snd];
      exists [financial_prompt float_repr fm; marketing_prompt float_repr mm;
              ceo_prompt t1 t2];
      cbn; repeat rewrite <- app_assoc; repeat split; lia.
  - unfold financial_analysis, construct_prompt_financial, bind, lift, call, ret.
    destruct (financial_metrics f) as [fm|e].
    2:{ exists []. cbn. rewrite app_nil_r. repeat split; [lia | discriminate]. }
    destruct (call_llm (financial_prompt float_repr fm) (backend w)) as [[t1|e] b1];
      cbn [backend sent fst snd];
      exists [financial_prompt float_repr fm]; cbn; repeat split; lia.
  - unfold analyze_marketing_performance, construct_prompt_marketing,
      bind, lift, call, ret.
    destruct (marketing_metrics Rev m) as [mm|e].
    2:{ exists []. cbn. rewrite app_nil_r. repeat split; [lia | discriminate]. }
    destruct (call_llm (marketing_prompt float_repr mm) (backend w)) as [[t1|e] b1];
      cbn [backend sent fst snd];
      exists [marketing_prompt float_repr mm]; cbn; repeat split; lia.
Qed.

End EntryPoints.

Lemma analyze_business_returns_five_keys_witness :
  exists (d : pyval) (w' : world nat),
    analyze_business placeholder_repr nat answering_collaborator
      sample_financial_data sample_marketing_data fresh_world = (Ok d, w') /\
    keys d = ["financial_metrics"; "financial_report"; "marketing_metrics";
              "marketing_report"; "ceo_report"] /\
    List.length (sent w') = 3%nat.
Proof.
  eexists. eexists. split.
  - eapply analyze_business_returns_five_keys
      with (cfo_text := "narrative") (cmo_text := "narrative")
           (ceo_text := "narrative") (b1 := 1%nat) (b2 := 2%nat) (b3 := 3%nat).
    + vm_compute. reflexivity.
    + reflexivity.
    + vm_compute. reflexivity.
    + reflexivity.
    + reflexivity.
  - split; reflexivity.
Defined.

Lemma financial_failure_precedes_every_call_witness :
  analyze_business placeholder_repr nat answering_collaborator
    underflow_financial_data sample_marketing_data fresh_world
  = (Raise ZeroDivisionError, fresh_world).
Proof.
  apply financial_failure_precedes_every_call.
  vm_compute. reflexivity.
Defined.

Lemma marketing_failure_follows_one_call_witness :
  exists w' : world nat,
    analyze_business placeholder_repr nat answering_collaborator
      sample_financial_data underflow_marketing_data fresh_world
    = (Raise ZeroDivisionError, w') /\
    backend w' = 1%nat /\
    List.length (sent w') = 1%nat.
Proof.
  eexists. split.
  - eapply marketing_failure_follows_one_call
      with (cfo_text := "narrative") (b1 := 1%nat).
    + vm_compute. reflexivity.
    + reflexivity.
    + vm_compute. reflexivity.
  - split; reflexivity.
Defined.

Lemma first_call_failure_aborts_witness :
  exists w' : world nat,
    analyze_business placeholder_repr nat (failing_on_call 0)
      sample_financial_data sample_marketing_data fresh_world
    = (Raise (GenerationError "quota exceeded"), w') /\
    backend w' = 1%nat /\
    List.length (sent w') = 1%nat.
Proof.
  eexists. split.
  - eapply first_call_failure_aborts with (b1 := 1%nat).
    + vm_compute. reflexivity.
    + reflexivity.
  - split; reflexivity.
Defined.

Lemma last_call_failure_aborts_witness :
  exists w' : world nat,
    analyze_business placeholder_repr nat (failing_on_call 2)
      sample_financial_data sample_marketing_data fresh_world
    = (Raise (GenerationError "quota exceeded"), w') /\
    backend w' = 3%nat /\
    List.length (sent w') = 3%nat.
Proof.
  eexists. split.
  - eapply last_call_failure_aborts
      with (cfo_text := "narrative") (cmo_text := "narrative")
           (b1 := 1%nat) (b2 := 2%nat) (b3 := 3%nat).
    + vm_compute. reflexivity.
    + reflexivity.
    + vm_compute. reflexivity.
    + reflexivity.
    + reflexivity.
  - split; reflexivity.
Defined.

Lemma entry_points_call_budget_witness :
  exists l,
    sent (snd (analyze_business placeholder_repr nat answering_collaborator
                 sample_financial_data sample_marketing_data fresh_world))
      = (sent fresh_world ++ l)%list /\
    List.length l = 3%nat.
Proof.
  destruct (entry_points_call_budget placeholder_repr nat answering_collaborator
              sample_financial_data sample_marketing_data (Int 0) fresh_world)
    as ((l & E & _ & H) & _).
  exists l. split; [exact E | ].
  apply H. vm_compute. reflexivity.
Defined.

(** ** The marketing and the CEO prompt *)

Lemma cmo_prompt_opening (s : string) :
  String.prefix "You are a data-driven Chief Marketing Officer (CMO)"
    (Template.cmo ++ s) = true.
Proof.
  replace Template.cmo with
    ("You are a data-driven Chief Marketing Officer (CMO)"
     ++ substring 51 (String.length Template.cmo) Template.cmo)
    by (vm_compute; reflexivity).
  rewrite append_assoc. apply starts_with_append.
Qed.

Lemma ceo_prompt_opening (s : string) :
  String.prefix "You are the CEO of a high-growth company."
    (Template.ceo_head ++ s) = true.
Proof.
  replace Template.ceo_head with
    ("You are the CEO of a high-growth company."
     ++ substring 41 (String.length Template.ceo_head) Template.ceo_head)
    by (vm_compute; reflexivity).
  rewrite append_assoc. apply starts_with_append.
Qed.

(** [construct_prompt_marketing] and [construct_prompt_ceo] hand one prompt
    each to [call_llm] and return what it returns.  The marketing prompt is
    the CMO template followed by the report as [json.dumps] writes it.  The
    CEO prompt is its template with the two narratives pasted in as they
    are: nothing marks where the CFO narrative ends, so a narrative that
    itself contains the separator gives the same prompt as a different pair
    of narratives. *)
Theorem marketing_and_ceo_prompts
  (float_repr : spec_float -> string) (Backend : Type)
  (call_llm : string -> Backend -> result string * Backend) :
  (forall (results : pyval) (w : world Backend),
     let prompt := Template.cmo ++ Json.dumps float_repr results in
     let out := construct_prompt_marketing float_repr Backend call_llm results w in
     fst out = fst (call_llm prompt (backend w)) /\
     backend (snd out) = snd (call_llm prompt (backend w)) /\
     sent (snd out) = (sent w ++ [prompt])%list /\
     String.prefix "You are a data-driven Chief Marketing Officer (CMO)" prompt
       = true) /\
  (forall (financial_report marketing_report : string) (w : world Backend),
     let prompt :=
       Template.ceo_head ++ financial_report ++ Template.ceo_middle
       ++ marketing_report in
     let out :=
       construct_prompt_ceo Backend call_llm
         financial_report marketing_report w in
     fst out = fst (call_llm prompt (backend w)) /\
     backend (snd out) = snd (call_llm prompt (backend w)) /\
     sent (snd out) = (sent w ++ [prompt])%list /\
     String.prefix "You are the CEO of a high-growth company." prompt = true) /\
  (forall a b c : string,
     ceo_prompt (a ++ Template.ceo_middle ++ b) c
     = ceo_prompt a (b ++ Template.ceo_middle ++ c)).
Proof.
  repeat apply conj.
  - intros results w prompt out.
    unfold out, construct_prompt_marketing, call, marketing_prompt.
    fold prompt.
    destruct (call_llm prompt (backend w)) as [r b] eqn:Hc.
    cbn [fst snd backend sent].
    repeat (split; [reflexivity | ]).
    apply cmo_prompt_opening.
  - intros financial_report marketing_report w prompt out.
    unfold out, construct_prompt_ceo, call, ceo_prompt.
    fold prompt.
    destruct (call_llm prompt (backend w)) as [r b] eqn:Hc.
    cbn [fst snd backend sent].
    repeat (split; [reflexivity | ]).
    apply ceo_prompt_opening.
  - intros a b c. unfold ceo_prompt.
    repeat rewrite append_assoc. reflexivity.
Qed.

(** ** Signs and zeros of quotients *)

(** A rounded value carries the sign it was given. *)
Lemma binary_round_aux_sign (sx : bool) (mx ex : Z) (lx : location) :
  match binary_round_aux 53 1024 sx mx ex lx with
  | S754_zero s | S754_infinity s | S754_finite s _ _ => s = sx
  | S754_nan => True
  end.
Proof.
  unfold binary_round_aux.
  destruct (shr_fexp 53 1024 mx ex lx) as [mrs' e'].
  destruct (shr_fexp 53 1024 _ e' loc_Exact) as [mrs'' e''].
  destruct (shr_m mrs'') as [|p|p]; [reflexivity | | exact I].
  destruct (e'' <=? 1024 - 53)%Z; reflexivity.
Qed.

Lemma negative_float_not_gt_zero (f : spec_float) :
  match f with
  | S754_zero s | S754_infinity s | S754_finite s _ _ => s = true
  | S754_nan => True
  end ->
  Num.gt (Float f) (Int 0) = false.
Proof.
  destruct f as [s|s| |s m e]; intros Hs; try subst s; try reflexivity.
  unfold Num.gt, Num.compare, Num.cmp_float_Z.
  destruct e as [|p|p].
  - reflexivity.
  - assert (0 < 2 ^ Z.pos p) by (apply Z.pow_pos_nonneg; lia).
    replace (Z.neg m * 2 ^ Z.pos p ?= 0)%Z with Lt; [reflexivity | ].
    symmetry. apply Z.compare_lt_iff. nia.
  - reflexivity.
Qed.

(** The quotient of an int that is not positive by a positive int is not
    positive. *)
Lemma int_quotient_not_positive (a b : Z) (x : num) :
  a <= 0 -> 0 < b -> Num.truediv (Int a) (Int b) = Ok x ->
  Num.gt x (Int 0) = false.
Proof.
  intros Ha Hb. cbn [Num.truediv].
  destruct (b =? 0)%Z eqn:Eb; [discriminate | ].
  destruct (B64.is_finite (B64.of_ratio a b)) eqn:Ef; [ | discriminate].
  intros [= <-].
  destruct a as [|p|p]; [reflexivity | lia | ].
  destruct b as [|q|q]; try lia.
  apply negative_float_not_gt_zero.
  unfold B64.of_ratio, B64.div, B64.of_Z_exact, SFdiv.
  change B64.prec with 53. change B64.emax with 1024.
  destruct (SFdiv_core_binary 53 1024 (Z.pos p) 0 (Z.pos q) 0) as [[mz ez] lz].
  exact (binary_round_aux_sign (xorb true false) mz ez lz).
Qed.

(** Zero divided by anything is not [>= 3]. *)
Lemma zero_quotient_below_three (c x : num) :
  Num.truediv (Int 0) c = Ok x -> Num.ge x (Int 3) = false.
Proof.
  destruct c as [b|f]; cbn [Num.truediv].
  - destruct (b =? 0)%Z; [discriminate | ].
    cbn [B64.of_ratio]. cbn [B64.is_finite]. intros [= <-]. reflexivity.
  - cbn [Num.to_float rbind].
    change (B64.of_Z 0) with (S754_zero false). cbn [B64.is_finite rbind].
    destruct (B64.is_zero f); [discriminate | ].
    intros [= <-].
    destruct f as [s|s| |s m e]; reflexivity.
Qed.

(** No quotient has a divisor that is zero. *)
Lemma truediv_falsy_divisor (n d x : num) :
  truthy d = false -> Num.truediv n d = Ok x -> False.
Proof.
  intros Hd. destruct d as [b|g]; cbn in Hd.
  - apply negb_false_iff in Hd. apply Z.eqb_eq in Hd. subst b.
    destruct n as [a|f]; cbn [Num.truediv].
    + cbn. discriminate.
    + cbn [Num.to_float rbind].
      change (B64.of_Z 0) with (S754_zero false). cbn. discriminate.
  - apply negb_false_iff in Hd.
    destruct n as [a|f]; cbn [Num.truediv Num.to_float rbind].
    + destruct (B64.is_finite (B64.of_Z a)); cbn [rbind]; [ | discriminate].
      rewrite Hd. discriminate.
    + rewrite Hd. discriminate.
Qed.

Lemma ratio_if_positive_off (n d x : num) :
  py_gt d (Int 0) = false -> ratio_if_positive n d = Ok x -> x = Int 0.
Proof.
  unfold ratio_if_positive. cbn [of_int PyNumber_num].
  intros ->. intros [= <-]. reflexivity.
Qed.

(** ** What [Healthy] presupposes *)

(** [Status] is [Healthy] only if customers were acquired, there were
    customers at the start, and the churn rate is positive: a period with no
    net loss of customers (a churn rate of zero or below) makes the LTV, and
    with it the LTV:CAC, collapse to zero, which is reported as
    [Needs Optimization].  For int counts, [Healthy] needs
    [end < start + new]. *)
Theorem healthy_needs_lost_customers
  (Rev : num) (m : MarketingData num) (mr : MarketingRatios num) (mrep : pyval) :
  marketing_ratios Rev m = Ok mr ->
  marketing_results mr = Ok mrep ->
  reports_text mrep "Unit_Economics" "Status" "Healthy" ->
  py_gt (new_customers_acquired m) (Int 0) = true /\
  py_gt (total_customers_start_period m) (Int 0) = true /\
  py_gt (churn_rate mr) (Int 0) = true /\
  (forall s n e : Z,
     total_customers_start_period m = Int s ->
     new_customers_acquired m = Int n ->
     total_customers_end_period m = Int e ->
     e < s + n).
Proof.
  intros Hmr Hmrep Hst.
  pose proof (marketing_ratios_spec _ _ _ Hmr) as S.
  apply marketing_results_inv in Hmrep.
  destruct Hmrep as (CAC & MSP & MER & RR & CR & NRR & LTV & LCR & PP &
                     (R1 & R2 & R3) & (R4 & R5 & R6 & R7) & (R8 & R9) & ->).
  unfold reports_text in Hst. cbn in Hst.
  injection Hst as Hst.
  unfold status_of in Hst.
  destruct (py_ge (ltv_cac_ratio mr) (Int 3)) eqn:Hge; [clear Hst | discriminate Hst].
  (* the CAC is positive *)
  assert (Hcac : py_gt (cac mr) (Int 0) = true).
  { destruct (py_gt (cac mr) (Int 0)) eqn:G; [reflexivity | ].
    pose proof (ratio_if_positive_off _ _ _ G (mr_ltv_cac_ratio _ _ _ S)) as E.
    rewrite E in Hge. discriminate Hge. }
  assert (Hnew : py_gt (new_customers_acquired m) (Int 0) = true).
  { destruct (py_gt (new_customers_acquired m) (Int 0)) eqn:G; [reflexivity | ].
    pose proof (ratio_if_positive_off _ _ _ G (mr_cac _ _ _ S)) as E.
    rewrite E in Hcac. discriminate Hcac. }
  (* the churn rate is positive *)
  assert (Hchurn : py_gt (churn_rate mr) (Int 0) = true).
  { destruct (py_gt (churn_rate mr) (Int 0)) eqn:G; [reflexivity | ].
    pose proof (mr_ltv _ _ _ S) as E. cbn [of_int PyNumber_num] in E.
    rewrite G in E. injection E as E.
    pose proof (mr_ltv_cac_ratio _ _ _ S) as E2.
    unfold ratio_if_positive in E2. cbn [of_int PyNumber_num] in E2.
    rewrite Hcac in E2. rewrite <- E in E2.
    apply zero_quotient_below_three in E2.
    change (py_ge (ltv_cac_ratio mr) (Int 3)) with (Num.ge (ltv_cac_ratio mr) (Int 3)) in Hge.
    rewrite E2 in Hge. discriminate Hge. }
  assert (Hstart : py_gt (total_customers_start_period m) (Int 0) = true).
  { destruct (py_gt (total_customers_start_period m) (Int 0)) eqn:G; [reflexivity | ].
    pose proof (ratio_if_positive_off _ _ _ G (mr_churn_rate _ _ _ S)) as E.
    rewrite E in Hchurn. discriminate Hchurn. }
  repeat apply conj; try assumption.
  intros s n e Es En Ee.
  pose proof (mr_lost_customers _ _ _ S) as El.
  pose proof (mr_churn_rate _ _ _ S) as Ec.
  rewrite Es, En, Ee in El. cbn in El. injection El as El.
  unfold ratio_if_positive in Ec. cbn [of_int PyNumber_num] in Ec.
  rewrite Hstart in Ec. rewrite Es in Ec, Hstart. rewrite <- El in Ec.
  destruct (Z_lt_le_dec e (s + n)) as [Hlt | Hle]; [exact Hlt | exfalso].
  assert (Hs : 0 < s).
  { cbn in Hstart. unfold Num.gt, Num.compare in Hstart.
    destruct (s ?= 0)%Z eqn:C; try discriminate Hstart.
    apply Z.compare_gt_iff in C. exact C. }
  change (py_truediv (Int (s + n - e)) (Int s)) with (Num.truediv (Int (s + n - e)) (Int s)) in Ec.
  apply int_quotient_not_positive in Ec; [ | lia | exact Hs].
  change (py_gt (churn_rate mr) (Int 0)) with (Num.gt (churn_rate mr) (Int 0)) in Hchurn.
  rewrite Ec in Hchurn. discriminate Hchurn.
Qed.

(** ** The payback guard tests the factors, not the product *)


Lemma healthy_needs_lost_customers_witness :
  exists mr mrep,
    marketing_ratios (Int 1200000) sample_marketing_data = Ok mr /\
    marketing_results mr = Ok mrep /\
    reports_text mrep "Unit_Economics" "Status" "Healthy" /\
    py_gt (churn_rate mr) (Int 0) = true /\
    2200 < 2000 + 300.
Proof.
  eexists. eexists.
  split; [vm_compute; reflexivity | ].
  split; [vm_compute; reflexivity | ].
  split; [reflexivity | ].
  match goal with
  | |- py_gt (churn_rate ?mr) _ = true /\ _ =>
      match goal with
      | |- context [2200] => idtac
      end;
      destruct (healthy_needs_lost_customers (Int 1200000) sample_marketing_data
                  mr _ ltac:(vm_compute; reflexivity) ltac:(vm_compute; reflexivity)
                  eq_refl)
        as (_ & _ & G & L)
  end.
  split; [exact G | exact (L 2000 300 2200 eq_refl eq_refl eq_refl)].
Defined.


(** ** The DuPont levers in the report *)

(** The three levers of [DuPont_Breakdown] are the numbers reported as
    [Profit Margin], [Total Asset] and [Multiplier]: each is rounded from the
    same local to the same number of places as the ratio it repeats. *)
Theorem dupont_levers_repeat_reported_ratios
  (a : FinancialData num) (rep : pyval) :
  financial_metrics a = Ok rep ->
  exists p t m : num,
    reports rep "Profitability" "Profit Margin" p /\
    reports rep "DuPont_Breakdown" "Profitability_Lever" p /\
    reports rep "Turnover" "Total Asset" t /\
    reports rep "DuPont_Breakdown" "Efficiency_Lever" t /\
    reports rep "Solvency" "Multiplier" m /\
    reports rep "DuPont_Breakdown" "Leverage_Lever" m.
Proof.
  unfold financial_metrics. intros H.
  apply rbind_ok in H. destruct H as (r & _ & H).
  apply financial_results_inv in H.
  destruct H as (Current & Quick & Cash & Interval & Debt_Ratio & Multiplier & LTD &
                 TIE & Cash_Coverage & Total_Asset & NWC' & Fixed_Asset &
                 Gross_Margin & Profit_Margin & ROA & ROE & Profitability_Lever &
                 Efficiency_Lever & Leverage_Lever & Calculated_ROE & PE &
                 Market_Book & Price_Sales & EV & EV_EBITDA & Inv_Turnover & DSI &
                 Rec_Turnover & DSO &
                 _ & (_ & S2 & _) & (T1 & _) & (_ & P2 & _) & (D1 & D2 & D3 & _) &
                 _ & _ & ->).
  rewrite P2 in D1. injection D1 as <-.
  rewrite T1 in D2. injection D2 as <-.
  rewrite S2 in D3. injection D3 as <-.
  exists Profit_Margin, Total_Asset, Multiplier.
  repeat apply conj; reflexivity.
Qed.

(** ** Guards that test a factor of the divisor *)

(** Two ratios of [financial_analysis] divide by a quotient and guard on
    its operands: the interval measure divides by [COGS / 365] under
    [if COGS], the P/E by [Net_Income / shares_outstanding] under
    [if Net_Income and shares_outstanding].  When the guard passes and the
    quotient is zero all the same (it underflows), no report is computed:
    the call raises, before the collaborator is called. *)
Theorem guarded_quotient_underflow_raises
  (a : FinancialData num) (t : num) :
  (truthy (COGS a) = true /\ py_truediv (COGS a) (Int 365) = Ok t \/
   truthy (Net_Income a) && truthy (shares_outstanding a) = true /\
   py_truediv (Net_Income a) (shares_outstanding a) = Ok t) ->
  truthy t = false ->
  (exists e, financial_metrics a = Raise e) /\
  forall (float_repr : spec_float -> string) (Backend : Type)
         (call_llm : string -> Backend -> result string * Backend)
         (w : world Backend),
    exists e, financial_analysis float_repr Backend call_llm a w = (Raise e, w).
Proof.
  intros Hq Hz.
  assert (H : exists e, financial_metrics a = Raise e).
  { unfold financial_metrics.
    destruct (financial_ratios a) as [r|e] eqn:Hr; [ | exists e; reflexivity].
    exfalso.
    pose proof (financial_ratios_spec _ _ Hr) as S.
    destruct Hq as [[Hg Ht] | [Hg Ht]].
    - pose proof (fr_interval_measure _ _ S) as E.
      cbn [of_int PyNumber_num] in E. rewrite Hg, Ht in E. cbn [rbind] in E.
      exact (truediv_falsy_divisor _ _ _ Hz E).
    - pose proof (fr_pe_ratio _ _ S) as E.
      cbn [of_int PyNumber_num] in E. rewrite Hg, Ht in E. cbn [rbind] in E.
      exact (truediv_falsy_divisor _ _ _ Hz E). }
  split; [exact H | ].
  intros float_repr Backend call_llm w.
  destruct H as (e & He). exists e.
  unfold financial_analysis, bind, lift. rewrite He. reflexivity.
Qed.

Lemma dupont_levers_repeat_reported_ratios_witness :
  exists rep p t m,
    financial_metrics sample_financial_data = Ok rep /\
    reports rep "Profitability" "Profit Margin" p /\
    reports rep "DuPont_Breakdown" "Profitability_Lever" p /\
    reports rep "Turnover" "Total Asset" t /\
    reports rep "DuPont_Breakdown" "Efficiency_Lever" t /\
    reports rep "Solvency" "Multiplier" m /\
    reports rep "DuPont_Breakdown" "Leverage_Lever" m.
Proof.
  eexists.
  match goal with
  | |- exists p t m, financial_metrics ?a = Ok ?rep /\ _ =>
      destruct (dupont_levers_repeat_reported_ratios a
                  ltac:(let x := eval vm_compute in (financial_metrics a) in
                        match x with Ok ?r => exact r end)
                  ltac:(vm_compute; reflexivity))
        as (p & t & m & H)
  end.
  exists p, t, m. split; [vm_compute; reflexivity | exact H].
Defined.

Lemma guarded_quotient_underflow_raises_witness :
  financial_metrics underflow_financial_data = Raise ZeroDivisionError /\
  exists e,
    financial_analysis placeholder_repr nat answering_collaborator
      underflow_financial_data fresh_world = (Raise e, fresh_world).
Proof.
  split; [vm_compute; reflexivity | ].
  apply (guarded_quotient_underflow_raises underflow_financial_data
           (Float (S754_zero false))).
  - left. split; vm_compute; reflexivity.
  - reflexivity.
Defined.

(** ** The formulas in exact arithmetic *)

Lemma exact_ratio_if_positive (n d : Q) :
  ratio_if_positive n d = Ok (if Qle_bool d 0 then 0%Q else (n / d)%Q).
Proof.
  unfold ratio_if_positive. cbn. unfold Exact.gt, Exact.truediv.
  change (inject_Z 0) with 0%Q.
  destruct (Qle_bool d 0) eqn:E; cbn [negb]; [reflexivity | ].
  destruct (Qeq_bool d 0) eqn:E0; [ | reflexivity].
  apply Qeq_bool_iff in E0. rewrite E0 in E. discriminate E.
Qed.

Lemma Qle_bool_false_pos (x : Q) : (0 < x)%Q -> Qle_bool x 0 = false.
Proof.
  intros H. destruct (Qle_bool x 0) eqn:E; [ | reflexivity].
  apply Qle_bool_iff in E. exfalso. apply (Qlt_not_le _ _ H E).
Qed.

Lemma Qeq_bool_false_neq (x : Q) : ~ (x == 0)%Q -> Qeq_bool x 0 = false.
Proof.
  intros H. destruct (Qeq_bool x 0) eqn:E; [ | reflexivity].
  apply Qeq_bool_iff in E. contradiction.
Qed.

(** In exact arithmetic the market multiples of [financial_analysis] are
    three readings of one market capitalisation: the P/E times the net
    income, the market-to-book times the equity and the price-to-sales
    times the revenue all equal [stock_price * shares_outstanding], each
    when its denominator is not zero; the enterprise value is that
    capitalisation plus debt less cash; days-sales times the turnover is
    365; and the debt ratio and the reciprocal of the equity multiplier
    add up to 1. *)
Theorem financial_ratios_agree_exactly
  (a : FinancialData Q) (r : FinancialRatios Q) :
  financial_ratios a = Ok r ->
  (market_cap r == stock_price a * shares_outstanding a)%Q /\
  (enterprise_value r == market_cap r + long_term_debt a - cash_equivalents a)%Q /\
  (~ (Net_Income a == 0)%Q -> ~ (shares_outstanding a == 0)%Q ->
   (pe_ratio r * Net_Income a == market_cap r)%Q) /\
  (~ (shareholders_equity a == 0)%Q ->
   (market_to_book r * shareholders_equity a == market_cap r)%Q) /\
  (~ (Revenue a == 0)%Q -> (price_sales r * Revenue a == market_cap r)%Q) /\
  (~ (COGS a == 0)%Q -> ~ (inventory a == 0)%Q ->
   (days_sales_inv r * inv_turnover r == 365)%Q) /\
  (~ (Revenue a == 0)%Q -> ~ (accounts_receivable a == 0)%Q ->
   (days_sales_rec r * rec_turnover r == 365)%Q) /\
  (~ (Total_Assets r == 0)%Q -> ~ (shareholders_equity a == 0)%Q ->
   (total_debt_ratio r + 1 / equity_multiplier r == 1)%Q).
Proof.
  intros Hr.
  pose proof (financial_ratios_spec _ _ Hr) as S.
  pose proof (fr_market_cap _ _ S) as Hmc.
  pose proof (fr_enterprise_value _ _ S) as Hev.
  pose proof (fr_pe_ratio _ _ S) as Hpe.
  pose proof (fr_market_to_book _ _ S) as Hmb.
  pose proof (fr_price_sales _ _ S) as Hps.
  pose proof (fr_inv_turnover _ _ S) as Hit.
  pose proof (fr_days_sales_inv _ _ S) as Hdsi.
  pose proof (fr_rec_turnover _ _ S) as Hrt.
  pose proof (fr_days_sales_rec _ _ S) as Hdso.
  pose proof (fr_total_debt_ratio _ _ S) as Htdr.
  pose proof (fr_equity_multiplier _ _ S) as Hem.
  rewrite exact_ratio_or_zero in Hmb, Hps, Hit, Hdsi, Hrt, Hdso, Hem.
  cbn in Hmc, Hev. injection Hmc as Hmc. injection Hev as Hev.
  injection Hmb as Hmb. injection Hps as Hps. injection Hit as Hit.
  injection Hdsi as Hdsi. injection Hrt as Hrt. injection Hdso as Hdso.
  injection Hem as Hem.
  repeat apply conj.
  - rewrite <- Hmc. reflexivity.
  - rewrite <- Hev. reflexivity.
  - intros HNI Hsh. cbn in Hpe. unfold Exact.bool_of, Exact.truediv in Hpe.
    rewrite (Qeq_bool_false_neq _ HNI), (Qeq_bool_false_neq _ Hsh) in Hpe.
    cbn [negb andb rbind] in Hpe.
    assert (Hq : ~ (Net_Income a / shares_outstanding a == 0)%Q).
    { intros C. apply HNI.
      setoid_replace (Net_Income a)
        with (Net_Income a / shares_outstanding a * shares_outstanding a)%Q
        by (field; exact Hsh).
      rewrite C. ring. }
    rewrite (Qeq_bool_false_neq _ Hq) in Hpe.
    injection Hpe as Hpe. rewrite <- Hpe, <- Hmc. field. split; assumption.
  - intros Hse. rewrite <- Hmb. rewrite (Qeq_bool_false_neq _ Hse).
    field. exact Hse.
  - intros HRev. rewrite <- Hps. rewrite (Qeq_bool_false_neq _ HRev).
    field. exact HRev.
  - intros Hc Hi. rewrite <- Hdsi, <- Hit. rewrite (Qeq_bool_false_neq _ Hi).
    assert (Hq : ~ (COGS a / inventory a == 0)%Q).
    { intros C. apply Hc.
      setoid_replace (COGS a) with (COGS a / inventory a * inventory a)%Q
        by (field; exact Hi).
      rewrite C. ring. }
    rewrite (Qeq_bool_false_neq _ Hq). cbn [of_int PyNumber_Q].
    field. split; assumption.
  - intros Hc Hi. rewrite <- Hdso, <- Hrt. rewrite (Qeq_bool_false_neq _ Hi).
    assert (Hq : ~ (Revenue a / accounts_receivable a == 0)%Q).
    { intros C. apply Hc.
      setoid_replace (Revenue a)
        with (Revenue a / accounts_receivable a * accounts_receivable a)%Q
        by (field; exact Hi).
      rewrite C. ring. }
    rewrite (Qeq_bool_false_neq _ Hq). cbn [of_int PyNumber_Q].
    field. split; assumption.
  - intros HTA Hse. rewrite <- Hem. rewrite (Qeq_bool_false_neq _ Hse).
    cbn in Htdr. unfold Exact.bool_of, Exact.truediv in Htdr.
    rewrite (Qeq_bool_false_neq _ HTA) in Htdr. cbn [negb] in Htdr.
    injection Htdr as Htdr. rewrite <- Htdr.
    field. split; assumption.
Qed.

(** In exact arithmetic the marketing ratios are tied to each other:
    retention and churn add up to 1; the marketing efficiency ratio and the
    marketing spend share are reciprocals; the LTV:CAC ratio times the
    payback period is the customer lifetime [1 / churn_rate]; and the churn
    rate is the net loss of customers over the customers at the start. *)
Theorem marketing_ratios_agree_exactly
  (Rev : Q) (m : MarketingData Q) (r : MarketingRatios Q) :
  marketing_ratios Rev m = Ok r ->
  (retention_rate r + churn_rate r == 1)%Q /\
  ((0 < Rev)%Q -> (0 < marketing_spend m)%Q ->
   (marketing_efficiency_ratio r * marketing_spend_pct r == 1)%Q) /\
  ((0 < churn_rate r)%Q -> (0 < cac r)%Q ->
   (0 < avg_revenue_per_user_monthly m)%Q -> (0 < gross_margin_pct m)%Q ->
   (ltv_cac_ratio r * payback_period r * churn_rate r == 1)%Q) /\
  ((0 < total_customers_start_period m)%Q ->
   (churn_rate r ==
    (total_customers_start_period m + new_customers_acquired m
     - total_customers_end_period m) / total_customers_start_period m)%Q).
Proof.
  intros Hr.
  pose proof (marketing_ratios_spec _ _ _ Hr) as S.
  pose proof (mr_lost_customers _ _ _ S) as Hlost.
  pose proof (mr_churn_rate _ _ _ S) as Hchurn.
  pose proof (mr_retention_rate _ _ _ S) as Hret.
  pose proof (mr_ltv _ _ _ S) as Hltv.
  pose proof (mr_ltv_cac_ratio _ _ _ S) as Hlc.
  pose proof (mr_payback_period _ _ _ S) as Hpb.
  pose proof (mr_marketing_efficiency_ratio _ _ _ S) as Hmer.
  pose proof (mr_marketing_spend_pct _ _ _ S) as Hmsp.
  rewrite exact_ratio_if_positive in Hchurn, Hlc, Hmer, Hmsp.
  cbn in Hlost, Hret. injection Hlost as Hlost. injection Hret as Hret.
  injection Hchurn as Hchurn. injection Hlc as Hlc.
  injection Hmer as Hmer. injection Hmsp as Hmsp.
  repeat apply conj.
  - rewrite <- Hret. ring.
  - intros HRev Hsp. rewrite <- Hmer, <- Hmsp.
    rewrite (Qle_bool_false_pos _ HRev), (Qle_bool_false_pos _ Hsp).
    field. split; intros C; [rewrite C in HRev | rewrite C in Hsp];
      apply (Qlt_irrefl 0); assumption.
  - intros Hc Hcac Ha Hg.
    cbn [py_gt py_mul py_truediv of_int PyNumber_Q rbind] in Hltv, Hpb.
    unfold Exact.gt, Exact.truediv in Hltv, Hpb.
    change (inject_Z 0) with 0%Q in Hltv, Hpb.
    rewrite (Qle_bool_false_pos _ Hc) in Hltv.
    rewrite (Qle_bool_false_pos _ Ha), (Qle_bool_false_pos _ Hg) in Hpb.
    cbn [negb andb rbind] in Hltv, Hpb.
    assert (Hc0 : ~ (churn_rate r == 0)%Q).
    { intros C. rewrite C in Hc. apply (Qlt_irrefl 0). exact Hc. }
    assert (Hcac0 : ~ (cac r == 0)%Q).
    { intros C. rewrite C in Hcac. apply (Qlt_irrefl 0). exact Hcac. }
    assert (Hag : ~ (avg_revenue_per_user_monthly m * gross_margin_pct m == 0)%Q).
    { intros C.
      assert (P : (0 < avg_revenue_per_user_monthly m * gross_margin_pct m)%Q).
      { apply Qmult_lt_0_compat; assumption. }
      rewrite C in P. apply (Qlt_irrefl 0). exact P. }
    rewrite (Qeq_bool_false_neq _ Hc0) in Hltv.
    rewrite (Qeq_bool_false_neq _ Hag) in Hpb.
    injection Hltv as Hltv. injection Hpb as Hpb.
    rewrite <- Hlc, <- Hpb. rewrite (Qle_bool_false_pos _ Hcac). rewrite <- Hltv.
    field.
    assert (Hg0 : ~ (gross_margin_pct m == 0)%Q).
    { intros C. rewrite C in Hg. apply (Qlt_irrefl 0). exact Hg. }
    assert (Ha0 : ~ (avg_revenue_per_user_monthly m == 0)%Q).
    { intros C. rewrite C in Ha. apply (Qlt_irrefl 0). exact Ha. }
    repeat split; assumption.
  - intros Hs. rewrite <- Hchurn. rewrite (Qle_bool_false_pos _ Hs).
    rewrite <- Hlost. reflexivity.
Qed.

Lemma financial_ratios_agree_exactly_witness :
  exists r : FinancialRatios Q,
    financial_ratios integer_sample_financial_data = Ok r /\
    (pe_ratio r * 203820 == market_cap r)%Q /\
    (days_sales_inv r * inv_turnover r == 365)%Q.
Proof.
  eexists. split; [vm_compute; reflexivity | ].
  match goal with
  | |- (pe_ratio ?r * _ == _)%Q /\ _ =>
      destruct (financial_ratios_agree_exactly
                  (@integer_sample_financial_data Q PyNumber_Q) r
                  ltac:(vm_compute; reflexivity))
        as (_ & _ & G1 & _ & _ & G2 & _)
  end.
  split.
  - apply G1; intros H; discriminate H.
  - apply G2; intros H; discriminate H.
Defined.

Lemma marketing_ratios_agree_exactly_witness :
  exists r : MarketingRatios Q,
    marketing_ratios exact_sample_revenue exact_sample_marketing_data = Ok r /\
    (retention_rate r + churn_rate r == 1)%Q /\
    (ltv_cac_ratio r * payback_period r * churn_rate r == 1)%Q.
Proof.
  eexists. split; [vm_compute; reflexivity | ].
  match goal with
  | |- (retention_rate ?r + _ == _)%Q /\ _ =>
      destruct (marketing_ratios_agree_exactly exact_sample_revenue
                  exact_sample_marketing_data r ltac:(vm_compute; reflexivity))
        as (G1 & _ & G2 & _)
  end.
  split; [exact G1 | ].
  apply G2; reflexivity.
Defined.

Section MarketingMagnitudes.

Local Open Scope Z_scope.

(** ** Magnitudes in [analyze_marketing_performance] *)

(** The product of two floats away from zero is away from zero. *)
Lemma SFmul_within (Kx Ky : Z) (x y : spec_float) :
  within Kx x -> within Ky y -> 0 <= Kx -> 0 <= Ky -> Kx + Ky <= 969 ->
  within (Kx + Ky + 1) (SFmul 53 1024 x y).
Proof.
  intros Hx Hy HKx HKy HK.
  destruct x as [sx|sx| |sx mx ex], y as [sy|sy| |sy my ey];
    cbn [within] in Hx, Hy; try contradiction.
  cbn [SFmul].
  assert (Hd : Z.pos (digits2_pos mx) + Z.pos (digits2_pos my) - 1
               <= Zdigits2 (Z.pos (mx * my))
               <= Z.pos (digits2_pos mx) + Z.pos (digits2_pos my)).
  { split.
    - apply Zdigits2_ge_iff; try lia.
      pose proof (pos_ge_pow2_digits mx) as Hmx.
      pose proof (pos_ge_pow2_digits my) as Hmy.
      replace (Z.pos (digits2_pos mx) + Z.pos (digits2_pos my) - 1 - 1)
        with ((Z.pos (digits2_pos mx) - 1) + (Z.pos (digits2_pos my) - 1)) by lia.
      rewrite Z.pow_add_r by lia.
      rewrite Pos2Z.inj_mul.
      assert (0 < 2 ^ (Z.pos (digits2_pos mx) - 1)) by (apply Z.pow_pos_nonneg; lia).
      assert (0 < 2 ^ (Z.pos (digits2_pos my) - 1)) by (apply Z.pow_pos_nonneg; lia).
      nia.
    - apply Zdigits2_le_iff; try lia.
      rewrite Z.pow_add_r by lia.
      pose proof (pos_lt_pow2_digits mx). pose proof (pos_lt_pow2_digits my).
      rewrite Pos2Z.inj_mul. nia. }
  destruct (binary_round_aux_within (xorb sx sy) (Z.pos (mx * my)) (ex + ey) loc_Exact)
    as (m' & e' & E & Hm); [lia | lia | ].
  rewrite E. cbn [within]. lia.
Qed.

(** An operand that is zero or away from zero, as a float. *)
Lemma to_float_neat (K : Z) (x : num) :
  neat K x -> 0 <= K <= 969 ->
  exists f, Num.to_float x = Ok f /\
            (B64.is_zero f = true \/ within (K + 1) f) /\
            (truthy x = true -> within (K + 1) f).
Proof.
  intros Hx HK.
  destruct (neat_cases K x Hx) as [Hz | Hs].
  - destruct x as [z|f]; cbn in Hz.
    + apply negb_false_iff in Hz. apply Z.eqb_eq in Hz. subst z.
      exists (S754_zero false). split; [reflexivity | ].
      split; [left; reflexivity | discriminate].
    + apply negb_false_iff in Hz. exists f. split; [reflexivity | ].
      split; [left; exact Hz | ].
      cbn. rewrite Hz. discriminate.
  - destruct (to_float_solid K x Hs HK) as (s & m & e & E & Hm).
    exists (S754_finite s m e). split; [exact E | ].
    assert (W : within (K + 1) (S754_finite s m e)) by (cbn [within]; lia).
    split; [right; exact W | intros _; exact W].
Qed.

Lemma SFmul_zero_left (s : bool) (y : spec_float) :
  B64.is_finite y = true -> B64.is_zero (SFmul 53 1024 (S754_zero s) y) = true.
Proof. destruct y; cbn; try discriminate; reflexivity. Qed.

Lemma SFmul_zero_right (x : spec_float) (s : bool) :
  B64.is_finite x = true -> B64.is_zero (SFmul 53 1024 x (S754_zero s)) = true.
Proof. destruct x; cbn; try discriminate; reflexivity. Qed.

Lemma within_finite (K : Z) (f : spec_float) : within K f -> B64.is_finite f = true.
Proof. intros H. apply at_most_finite with (K := K). apply within_at_most. exact H. Qed.

Lemma is_zero_finite (f : spec_float) : B64.is_zero f = true -> B64.is_finite f = true.
Proof. destruct f; cbn; try discriminate; reflexivity. Qed.

(** [x * y] on operands that are zero or away from zero. *)
Lemma num_mul_neat (Kx Ky : Z) (x y : num) :
  neat Kx x -> neat Ky y -> 0 <= Kx -> 0 <= Ky -> Kx + Ky <= 960 ->
  exists c,
    Num.mul x y = Ok c /\
    neat (Kx + Ky + 3) c /\
    (truthy x = true -> truthy y = true -> solid (Kx + Ky + 3) c).
Proof.
  intros Hx Hy HKx HKy HK.
  destruct x as [a|fx], y as [b|fy].
  - exists (Int (a * b)). split; [reflexivity | ].
    cbn [neat solid tame] in *.
    assert (Hab : Z.abs (a * b) < 2 ^ (Kx + Ky + 3)).
    { rewrite Z.abs_mul.
      replace (Kx + Ky + 3) with (Kx + (Ky + 3)) by lia.
      rewrite Z.pow_add_r by lia.
      assert (2 ^ Ky <= 2 ^ (Ky + 3)) by (apply Z.pow_le_mono_r; lia).
      assert (0 < 2 ^ Kx) by (apply Z.pow_pos_nonneg; lia).
      nia. }
    split; [exact Hab | ].
    cbn. intros Ha Hb.
    apply negb_true_iff in Ha, Hb. apply Z.eqb_neq in Ha, Hb.
    split; [ | exact Hab]. nia.
  - destruct (to_float_neat Kx (Int a) Hx ltac:(lia)) as (f & Ef & Hf & Hft).
    unfold Num.mul, Num.lift2. rewrite Ef. cbn [rbind Num.to_float].
    eexists. split; [reflexivity | ].
    cbn [neat] in Hy.
    assert (Hy' : B64.is_zero fy = true \/ within (Ky + 1) fy).
    { destruct Hy as [Hz | Hw]; [left; exact Hz | right].
      destruct fy; cbn [within] in *; try contradiction; lia. }
    clear Hy.
    assert (G : forall u v, within (Kx + 1) u -> within (Ky + 1) v ->
                            within (Kx + Ky + 3) (B64.mul u v)).
    { intros u v Hu Hv.
      replace (Kx + Ky + 3) with ((Kx + 1) + (Ky + 1) + 1) by lia.
      apply SFmul_within; try assumption; lia. }
    split.
    + cbn [neat].
      destruct Hf as [Hz | Hw].
      * left. destruct f; cbn in Hz; try discriminate.
        apply SFmul_zero_left.
        destruct Hy' as [H | H]; [apply is_zero_finite | apply within_finite with (K := Ky + 1)];
          exact H.
      * destruct Hy' as [Hz | Hw'].
        -- left. destruct fy; cbn in Hz; try discriminate.
           apply SFmul_zero_right. apply within_finite with (K := Kx + 1). exact Hw.
        -- right. apply G; assumption.
    + intros Ha Hb. cbn [solid].
      apply G; [apply Hft; exact Ha | ].
      destruct Hy' as [Hz | Hw']; [ | exact Hw'].
      cbn in Hb. rewrite Hz in Hb. discriminate Hb.
  - destruct (to_float_neat Ky (Int b) Hy ltac:(lia)) as (f & Ef & Hf & Hft).
    unfold Num.mul, Num.lift2. rewrite Ef. cbn [rbind Num.to_float].
    eexists. split; [reflexivity | ].
    cbn [neat] in Hx.
    assert (Hx' : B64.is_zero fx = true \/ within (Kx + 1) fx).
    { destruct Hx as [Hz | Hw]; [left; exact Hz | right].
      destruct fx; cbn [within] in *; try contradiction; lia. }
    clear Hx.
    assert (G : forall u v, within (Kx + 1) u -> within (Ky + 1) v ->
                            within (Kx + Ky + 3) (B64.mul u v)).
    { intros u v Hu Hv.
      replace (Kx + Ky + 3) with ((Kx + 1) + (Ky + 1) + 1) by lia.
      apply SFmul_within; try assumption; lia. }
    split.
    + cbn [neat].
      destruct Hf as [Hz | Hw].
      * left. destruct f; cbn in Hz; try discriminate.
        apply SFmul_zero_right.
        destruct Hx' as [H | H]; [apply is_zero_finite | apply within_finite with (K := Kx + 1)];
          exact H.
      * destruct Hx' as [Hz | Hw'].
        -- left. destruct fx; cbn in Hz; try discriminate.
           apply SFmul_zero_left. apply within_finite with (K := Ky + 1). exact Hw.
        -- right. apply G; assumption.
    + intros Ha Hb. cbn [solid].
      apply G; [ | apply Hft; exact Hb].
      destruct Hx' as [Hz | Hw']; [ | exact Hw'].
      cbn in Ha. rewrite Hz in Ha. discriminate Ha.
  - unfold Num.mul, Num.lift2. cbn [rbind Num.to_float].
    eexists. split; [reflexivity | ].
    cbn [neat] in Hx, Hy.
    assert (Hx' : B64.is_zero fx = true \/ within (Kx + 1) fx).
    { destruct Hx as [Hz | Hw]; [left; exact Hz | right].
      destruct fx; cbn [within] in *; try contradiction; lia. }
    assert (Hy' : B64.is_zero fy = true \/ within (Ky + 1) fy).
    { destruct Hy as [Hz | Hw]; [left; exact Hz | right].
      destruct fy; cbn [within] in *; try contradiction; lia. }
    clear Hx Hy.
    assert (G : forall u v, within (Kx + 1) u -> within (Ky + 1) v ->
                            within (Kx + Ky + 3) (B64.mul u v)).
    { intros u v Hu Hv.
      replace (Kx + Ky + 3) with ((Kx + 1) + (Ky + 1) + 1) by lia.
      apply SFmul_within; try assumption; lia. }
    split.
    + cbn [neat].
      destruct Hx' as [Hz | Hw].
      * left. destruct fx; cbn in Hz; try discriminate.
        apply SFmul_zero_left.
        destruct Hy' as [H | H]; [apply is_zero_finite | apply within_finite with (K := Ky + 1)];
          exact H.
      * destruct Hy' as [Hz | Hw'].
        -- left. destruct fy; cbn in Hz; try discriminate.
           apply SFmul_zero_right. apply within_finite with (K := Kx + 1). exact Hw.
        -- right. apply G; assumption.
    + intros Ha Hb. cbn [solid]. cbn in Ha, Hb.
      apply G.
      * destruct Hx' as [Hz | Hw']; [ | exact Hw']. rewrite Hz in Ha. discriminate Ha.
      * destruct Hy' as [Hz | Hw']; [ | exact Hw']. rewrite Hz in Hb. discriminate Hb.
Qed.

(** A number above zero is not zero. *)
Lemma gt_zero_truthy (d : num) : Num.gt d (Int 0) = true -> truthy d = true.
Proof.
  destruct d as [z|f]; cbn.
  - unfold Num.gt, Num.compare. destruct (Z.compare_spec z 0); try discriminate.
    intros _. apply negb_true_iff. apply Z.eqb_neq. lia.
  - destruct f; cbn; try discriminate; reflexivity.
Qed.

(** [n / d if d > 0 else 0] on tame operands. *)
Lemma ratio_if_positive_tame (Kn Kd : Z) (n d : num) :
  tame Kn n -> neat Kd d -> 0 <= Kn -> 0 <= Kd -> Kn + Kd <= 960 ->
  exists c,
    ratio_if_positive n d = Ok c /\
    tame (Kn + Kd + 4) c /\
    (neat Kn n -> neat (Kn + Kd + 4) c).
Proof.
  intros Hn Hd HKn HKd HK.
  unfold ratio_if_positive. cbn [of_int py_gt py_truediv PyNumber_num].
  destruct (Num.gt d (Int 0)) eqn:G.
  - pose proof (neat_truthy Kd d Hd (gt_zero_truthy d G)) as Hs.
    destruct (num_truediv_tame Kn Kd n d Hn Hs HKn HKd HK) as (f & E & Ha & Hw & Hz).
    exists (Float f). split; [exact E | ].
    split; [exact Ha | ].
    intros Hnn. cbn [neat].
    destruct (neat_cases Kn n Hnn) as [Hf | Hsol].
    + left. apply Hz. exact Hf.
    + right. apply Hw. exact Hsol.
  - exists (Int 0). split; [reflexivity | ].
    assert (T : tame (Kn + Kd + 4) (Int 0)) by (apply tame_zero; lia).
    split; [exact T | intros _; exact T].
Qed.

(** [f"{x:.1%}"] of a tame number is a percentage with one place. *)
Lemma percent1_tame (K : Z) (x : num) :
  tame K x -> 0 <= K <= 900 ->
  exists s, Fmt.percent1 x = Ok s /\ one_decimal_percent s = true.
Proof.
  intros Hx HK.
  destruct (to_float_tame K x Hx ltac:(lia)) as (f & Ef & Hf).
  unfold Fmt.percent1. rewrite Ef. cbn [rbind].
  eexists. split; [reflexivity | ].
  apply fixed1_shape.
  apply at_most_finite with (K := K + 1 + 7 + 1).
  apply SFmul_at_most; [exact Hf | | lia].
  vm_compute. discriminate.
Qed.

Ltac forward v E :=
  match goal with
  | |- exists r, rbind ?c ?k = Ok r /\ @?P r =>
      refine (rbind_step c k P v E _); cbn beta
  end.

Ltac stage v E Hv P tac :=
  match goal with
  | |- exists r, rbind ?c _ = Ok r /\ _ =>
      assert (exists v, c = Ok v /\ P v) as (v & E & Hv) by tac;
      forward v E
  end.

Ltac int_stage z := forward (Int z) (eq_refl (Ok (Int z))).

Ltac by_lemma L :=
  let c := fresh "c" in
  let E := fresh "E" in
  let Hc := fresh "Hc" in
  destruct L as (c & E & Hc); exists c; split; [exact E | exact Hc].

Lemma marketing_ratios_tame_ints
  (zRev zspend znew zstart zend zexp : Z) (arpu margin : num) :
  tame 56 (Int zRev) -> tame 56 (Int zspend) -> tame 56 (Int znew) ->
  tame 56 (Int zstart) -> tame 56 (Int zexp) ->
  tame 56 (Int (zstart + znew - zend)) ->
  neat 200 arpu -> neat 200 margin ->
  exists r,
    marketing_ratios (Int zRev)
      {| marketing_spend := Int zspend;
         new_customers_acquired := Int znew;
         total_customers_start_period := Int zstart;
         total_customers_end_period := Int zend;
         avg_revenue_per_user_monthly := arpu;
         gross_margin_pct := margin;
         expansion_revenue := Int zexp |} = Ok r /\
    Forall (tame 700) (reported_marketing_locals r).
Proof.
  intros TRev Tspend Tnew Tstart Texp Tlost Narpu Nmargin.
  pose proof (neat_tame _ _ Narpu) as Tarpu.
  pose proof (neat_tame _ _ Nmargin) as Tmargin.
  assert (T1 : tame 56 (Int 1)) by (cbn; lia).
  unfold marketing_ratios.
  cbn [marketing_spend new_customers_acquired total_customers_start_period
       total_customers_end_period avg_revenue_per_user_monthly gross_margin_pct
       expansion_revenue].
  change (@py_add num PyNumber_num) with Num.add.
  change (@py_sub num PyNumber_num) with Num.sub.
  change (@py_mul num PyNumber_num) with Num.mul.
  change (@py_truediv num PyNumber_num) with Num.truediv.
  change (@py_gt num PyNumber_num) with Num.gt.
  change (@of_int num PyNumber_num) with Int.
  pose proof (Tnew : neat 56 (Int znew)) as Nnew.
  pose proof (Tstart : neat 56 (Int zstart)) as Nstart.
  pose proof (Tspend : neat 56 (Int zspend)) as Nspend.
  pose proof (TRev : neat 56 (Int zRev)) as NRev.
  pose proof (Tlost : neat 56 (Int (zstart + znew - zend))) as Nlost.
  (* acquisition *)
  stage vcac Ecac Hcac (fun v => tame 116 v /\ neat 116 v) ltac:(
    destruct (ratio_if_positive_tame 56 56 _ _ Tspend Nnew
                ltac:(lia) ltac:(lia) ltac:(lia)) as (c & E & Hc & Hn);
    exists c; split; [exact E | split; [exact Hc | exact (Hn Nspend)]]).
  destruct Hcac as [Tcac Ncac].
  (* churn and retention *)
  int_stage (zstart + znew).
  int_stage (zstart + znew - zend).
  stage vchurn Echurn Hchurn (fun v => tame 116 v /\ neat 116 v) ltac:(
    destruct (ratio_if_positive_tame 56 56 _ _ Tlost Nstart
                ltac:(lia) ltac:(lia) ltac:(lia)) as (c & E & Hc & Hn);
    exists c; split; [exact E | split; [exact Hc | exact (Hn Nlost)]]).
  destruct Hchurn as [Tchurn Nchurn].
  stage vret Eret Tret (tame 119) ltac:(
    by_lemma (num_sub_tame 56 116 _ _ T1 Tchurn ltac:(lia) ltac:(lia) ltac:(lia))).
  (* net revenue retention *)
  stage vsr Esr Hsr (neat 259) ltac:(
    destruct (num_mul_neat 56 200 _ _ Nstart Narpu ltac:(lia) ltac:(lia) ltac:(lia))
      as (c & E & Hc & _);
    exists c; split; [exact E | exact Hc]).
  pose proof (neat_tame _ _ Hsr) as Tsr.
  stage vnrr Enrr Tnrr (tame 528) ltac:(
    destruct (Num.gt vsr (Int 0)) eqn:G;
    [ | exists (Int 0); split; [reflexivity | apply tame_zero; lia]];
    stage t Et Tt (tame 262) ltac:(
      by_lemma (num_add_tame 259 56 _ _ Tsr Texp ltac:(lia) ltac:(lia) ltac:(lia)));
    stage u Eu Tu (tame 259) ltac:(
      by_lemma (num_mul_tame 56 200 _ _ Tlost Tarpu ltac:(lia) ltac:(lia) ltac:(lia)));
    stage t' Et' Tt' (tame 265) ltac:(
      by_lemma (num_sub_tame 262 259 _ _ Tt Tu ltac:(lia) ltac:(lia) ltac:(lia)));
    destruct (num_truediv_tame 265 259 _ _ Tt'
                (neat_truthy 259 _ Hsr (gt_zero_truthy _ G))
                ltac:(lia) ltac:(lia) ltac:(lia)) as (f & E & Ha & _);
    exists (Float f); split; [exact E | exact Ha]).
  (* lifetime value *)
  stage vltv Eltv Tltv (tame 523) ltac:(
    destruct (Num.gt vchurn (Int 0)) eqn:G;
    [ | exists (Int 0); split; [reflexivity | apply tame_zero; lia]];
    stage t Et Tt (tame 403) ltac:(
      by_lemma (num_mul_tame 200 200 _ _ Tarpu Tmargin ltac:(lia) ltac:(lia) ltac:(lia)));
    destruct (num_truediv_tame 403 116 _ _ Tt
                (neat_truthy 116 _ Nchurn (gt_zero_truthy _ G))
                ltac:(lia) ltac:(lia) ltac:(lia)) as (f & E & Ha & _);
    exists (Float f); split; [exact E | exact Ha]).
  stage vlc Elc Tlc (tame 643) ltac:(
    destruct (ratio_if_positive_tame 523 116 _ _ Tltv Ncac
                ltac:(lia) ltac:(lia) ltac:(lia)) as (c & E & Hc & _);
    exists c; split; [exact E | exact Hc]).
  (* payback *)
  stage vpb Epb Tpb (tame 523) ltac:(
    destruct (Num.gt arpu (Int 0)) eqn:G1;
    [ | exists (Int 0); split; [reflexivity | apply tame_zero; lia]];
    destruct (Num.gt margin (Int 0)) eqn:G2;
    [ | exists (Int 0); split; [reflexivity | apply tame_zero; lia]];
    cbn [andb];
    destruct (num_mul_neat 200 200 _ _ Narpu Nmargin ltac:(lia) ltac:(lia) ltac:(lia))
      as (t & Et & _ & Hsol);
    forward t Et;
    destruct (num_truediv_tame 116 403 _ _ Tcac
                (Hsol (gt_zero_truthy _ G1) (gt_zero_truthy _ G2))
                ltac:(lia) ltac:(lia) ltac:(lia)) as (f & E & Ha & _);
    exists (Float f); split; [exact E | exact Ha]).
  (* spend *)
  stage vmer Emer Tmer (tame 116) ltac:(
    destruct (ratio_if_positive_tame 56 56 _ _ TRev Nspend
                ltac:(lia) ltac:(lia) ltac:(lia)) as (c & E & Hc & _);
    exists c; split; [exact E | exact Hc]).
  stage vmsp Emsp Tmsp (tame 116) ltac:(
    destruct (ratio_if_positive_tame 56 56 _ _ Tspend NRev
                ltac:(lia) ltac:(lia) ltac:(lia)) as (c & E & Hc & _);
    exists c; split; [exact E | exact Hc]).
  eexists. split; [reflexivity | ].
  unfold reported_marketing_locals.
  cbn [cac marketing_spend_pct marketing_efficiency_ratio retention_rate churn_rate
       nrr ltv ltv_cac_ratio payback_period].
  repeat (apply Forall_cons; [eapply tame_mono; [ | eassumption]; lia | ]).
  apply Forall_nil.
Qed.

Lemma lost_tame_56 (s n e : Z) :
  Z.abs s < 2 ^ 53 -> Z.abs n < 2 ^ 53 -> Z.abs e < 2 ^ 53 ->
  tame 56 (Int (s + n - e)).
Proof.
  intros Hs Hn He. cbn [tame]. change (2 ^ 53) with 9007199254740992 in *.
  change (2 ^ 56) with 72057594037927936. lia.
Qed.

Lemma marketing_ratios_in_range (Rev : num) (m : MarketingData num) :
  in_marketing_form_range Rev m ->
  exists r, marketing_ratios Rev m = Ok r /\
            Forall (tame 700) (reported_marketing_locals r).
Proof.
  destruct m as [spend new start end_ arpu margin expansion].
  unfold in_marketing_form_range.
  cbn [marketing_spend new_customers_acquired total_customers_start_period
       total_customers_end_period avg_revenue_per_user_monthly gross_margin_pct
       expansion_revenue].
  intros ((zRev & -> & HRev) & (zspend & -> & Hspend) & (znew & -> & Hnew) &
          (zstart & -> & Hstart) & (zend & -> & Hend) & (zexp & -> & Hexp) &
          Narpu & Nmargin).
  apply marketing_ratios_tame_ints; try assumption;
    try (apply int_tame_56; assumption).
  apply lost_tame_56; assumption.
Qed.

Lemma marketing_results_finite (r : MarketingRatios num) :
  Forall (tame 700) (reported_marketing_locals r) ->
  exists rep,
    marketing_results r = Ok rep /\
    every_leaf_finite rep = true /\
    exists spend_pct retention churn nrr_text : string,
      reports_text rep "Acquisition" "Marketing_Spend_Pct" spend_pct /\
      reports_text rep "Retention_and_Value" "Retention_Rate" retention /\
      reports_text rep "Retention_and_Value" "Churn_Rate" churn /\
      reports_text rep "Retention_and_Value" "Net_Revenue_Retention" nrr_text /\
      forallb one_decimal_percent [spend_pct; retention; churn; nrr_text] = true.
Proof.
  unfold reported_marketing_locals. intros H.
  repeat match type of H with
         | Forall _ (_ :: _) =>
             let T := fresh "T" in
             apply Forall_cons_iff in H; destruct H as [T H]
         end.
  clear H. unfold marketing_results.
  destruct (num_round_finite 700 _ 2 T ltac:(lia) ltac:(lia)) as (CAC & E1 & F1).
  forward CAC E1.
  destruct (percent1_tame 700 _ T0 ltac:(lia)) as (MSP & E2 & F2).
  forward MSP E2.
  destruct (num_round_finite 700 _ 2 T1 ltac:(lia) ltac:(lia)) as (MER & E3 & F3).
  forward MER E3.
  destruct (percent1_tame 700 _ T2 ltac:(lia)) as (RR & E4 & F4).
  forward RR E4.
  destruct (percent1_tame 700 _ T3 ltac:(lia)) as (CR & E5 & F5).
  forward CR E5.
  destruct (percent1_tame 700 _ T4 ltac:(lia)) as (NRR & E6 & F6).
  forward NRR E6.
  destruct (num_round_finite 700 _ 2 T5 ltac:(lia) ltac:(lia)) as (LTV & E7 & F7).
  forward LTV E7.
  destruct (num_round_finite 700 _ 2 T6 ltac:(lia) ltac:(lia)) as (LCR & E8 & F8).
  forward LCR E8.
  destruct (num_round_finite 700 _ 1 T7 ltac:(lia) ltac:(lia)) as (PP & E9 & F9).
  forward PP E9.
  eexists. split; [reflexivity | ].
  split.
  - unfold every_leaf_finite. cbn [leaves app forallb].
    rewrite F1, F3, F7, F8, F9. reflexivity.
  - exists MSP, RR, CR, NRR.
    repeat (split; [reflexivity | ]).
    cbn [forallb]. rewrite F2, F4, F5, F6. reflexivity.
Qed.

(** On marketing inputs in the range of the form (amounts and counts ints
    below [2^53] in absolute value; ARPU and gross margin zero, or between
    [2^(-201)] and [2^200] in absolute value) the computation of
    [analyze_marketing_performance] does not raise, every number of the
    report is finite and each of the four percentage fields is a percentage
    with one decimal place; the call returns that report with the
    collaborator's text, and raises exactly when, and what, the collaborator
    raises on the prompt built from it. *)
Theorem marketing_report_finite_in_form_range (Rev : num) (m : MarketingData num) :
  in_marketing_form_range Rev m ->
  exists rep,
    marketing_metrics Rev m = Ok rep /\
    every_leaf_finite rep = true /\
    (exists spend_pct retention churn nrr_text : string,
       reports_text rep "Acquisition" "Marketing_Spend_Pct" spend_pct /\
       reports_text rep "Retention_and_Value" "Retention_Rate" retention /\
       reports_text rep "Retention_and_Value" "Churn_Rate" churn /\
       reports_text rep "Retention_and_Value" "Net_Revenue_Retention" nrr_text /\
       forallb one_decimal_percent [spend_pct; retention; churn; nrr_text] = true) /\
    forall (float_repr : spec_float -> string) (Backend : Type)
           (call_llm : string -> Backend -> result string * Backend)
           (w : world Backend),
      fst (analyze_marketing_performance float_repr Backend call_llm Rev m w) =
      match fst (call_llm (marketing_prompt float_repr rep) (backend w)) with
      | Ok s => Ok (rep, s)
      | Raise e => Raise e
      end.
Proof.
  intros Hm.
  destruct (marketing_ratios_in_range Rev m Hm) as (r & Er & Tr).
  destruct (marketing_results_finite r Tr) as (rep & Erep & Frep & Hpct).
  assert (E : marketing_metrics Rev m = Ok rep).
  { unfold marketing_metrics. rewrite Er. exact Erep. }
  exists rep. split; [exact E | ]. split; [exact Frep | ]. split; [exact Hpct | ].
  intros float_repr Backend call_llm w.
  unfold analyze_marketing_performance, bind, lift, construct_prompt_marketing, call, ret.
  rewrite E.
  destruct (call_llm (marketing_prompt float_repr rep) (backend w)) as [[s|e] b];
    reflexivity.
Qed.

Lemma marketing_report_finite_in_form_range_witness :
  in_marketing_form_range (Int 1200000) sample_marketing_data /\
  exists rep,
    marketing_metrics (Int 1200000) sample_marketing_data = Ok rep /\
    every_leaf_finite rep = true.
Proof.
  assert (H : in_marketing_form_range (Int 1200000) sample_marketing_data).
  { unfold in_marketing_form_range, form_int.
    repeat match goal with
           | |- _ /\ _ => split
           | |- exists z, _ = Int z /\ _ =>
               eexists; split; [reflexivity | vm_compute; reflexivity]
           end.
    - right. vm_compute. split; intros C; discriminate C.
    - right. vm_compute. split; intros C; discriminate C. }
  split; [exact H | ].
  destruct (marketing_report_finite_in_form_range (Int 1200000)
              sample_marketing_data H) as (rep & E & F & _).
  exists rep. split; [exact E | exact F].
Defined.

End MarketingMagnitudes.

(** * The guards, line by line and over a whole run *)

Lemma financial_report_exists (a : FinancialData num) :
  in_form_range a ->
  exists r rep, financial_ratios a = Ok r /\ financial_results r = Ok rep.
Proof.
  intros Ha.
  destruct (financial_ratios_in_range a Ha) as (r & Er & Tr).
  destruct (financial_results_finite r Tr) as (rep & Erep & _).
  exists r, rep. split; assumption.
Qed.

Lemma marketing_report_exists (Rev : num) (m : MarketingData num) :
  in_marketing_form_range Rev m ->
  exists mr mrep, marketing_ratios Rev m = Ok mr /\ marketing_results mr = Ok mrep.
Proof.
  intros Hm.
  destruct (marketing_ratios_in_range Rev m Hm) as (r & Er & Tr).
  destruct (marketing_results_finite r Tr) as (rep & Erep & _).
  exists r, rep. split; assumption.
Qed.

(** ** C1: zero denominators *)




(** ** C10: the strict guards of the marketing ratios *)




(** * Properties of the client and of the sidebar *)

Section Client.

Import LlmClient.

Variable library_error : Type.
Variable lower : string -> string.
Variable import_module : string -> option library_error.
Variable is_import_error : library_error -> bool.
Variable Remote : Type.
Variable send :
  option string -> client -> request -> Remote -> (library_error + string) * Remote.

Local Abbreviation call_llm :=
  (call_llm library_error lower import_module is_import_error Remote send).
Local Abbreviation _init_llm :=
  (_init_llm library_error lower import_module is_import_error Remote).
Local Abbreviation provider := (provider lower Remote).
Local Abbreviation delivered := (delivered library_error Remote send).

(** *** [_init_llm], provider by provider *)

Lemma init_gemini (p : process Remote) (c : ascii) (k : string) :
  provider p = "gemini" ->
  import_module "google.generativeai" = None ->
  or_else (environ p "GOOGLE_API_KEY") (environ p "GEMINI_API_KEY")
    = Some (String c k) ->
  _init_llm p =
    (Returns tt,
     set_client (GenerativeModel "gemini-2.5-flash") (configure (String c k) p)).
Proof.
  intros Hp Hi Hk. unfold LlmClient._init_llm, getenv.
  rewrite Hp, Hi. cbn [String.eqb Ascii.eqb Bool.eqb].
  replace (or_else _ _) with (Some (String c k)).
  - reflexivity.
  - rewrite <- Hk.
    destruct (environ p "GOOGLE_API_KEY"), (environ p "GEMINI_API_KEY"); reflexivity.
Qed.

Lemma init_openai (p : process Remote) (c : ascii) (k : string) :
  provider p = "openai" ->
  import_module "openai" = None ->
  environ p "OPENAI_API_KEY" = Some (String c k) ->
  _init_llm p = (Returns tt, set_client (OpenAI (String c k) None) p).
Proof.
  intros Hp Hi Hk. unfold LlmClient._init_llm, getenv.
  rewrite Hp, Hi, Hk. reflexivity.
Qed.

Lemma init_ollama (p : process Remote) :
  provider p = "ollama" ->
  import_module "ollama" = None ->
  _init_llm p = (Returns tt, set_client ollama p).
Proof.
  intros Hp Hi. unfold LlmClient._init_llm.
  rewrite Hp, Hi. reflexivity.
Qed.

Lemma init_deepseek (p : process Remote) (c : ascii) (k : string) :
  provider p = "deepseek" ->
  import_module "openai" = None ->
  environ p "DEEPSEEK_API_KEY" = Some (String c k) ->
  _init_llm p =
    (Returns tt,
     set_client (OpenAI (String c k) (Some "https://api.deepseek.com")) p).
Proof.
  intros Hp Hi Hk. unfold LlmClient._init_llm, getenv.
  rewrite Hp, Hi, Hk. reflexivity.
Qed.

Lemma unknown_provider_eqb (name : string) :
  known_provider name = false ->
  String.eqb name "gemini" = false /\ String.eqb name "openai" = false /\
  String.eqb name "ollama" = false /\ String.eqb name "deepseek" = false.
Proof.
  unfold known_provider. cbn [existsb].
  intros H.
  repeat (apply orb_false_elim in H; destruct H as [?H H]).
  repeat split; assumption.
Qed.

Lemma on_client_delivered (p : process Remote) (c : client) (r : request)
  (mk : unit -> outcome library_error request) (attribute : string) :
  _llm_client p = Some c ->
  mk tt = Returns r ->
  on_client library_error Remote send mk attribute p = delivered c r p.
Proof.
  intros Hc Hmk. unfold on_client, LlmClient.delivered.
  rewrite Hc, Hmk.
  destruct (send (genai_api_key p) c r (remote p)) as [a rem]. reflexivity.
Qed.

(** *** Keys *)

(** With no client yet, a provider whose key is unset or empty makes
    [call_llm] raise the [ValueError] that names the variable: no request is
    made and [_llm_client] stays unset, so the next call starts over.
    Gemini accepts either of two variables. *)
Theorem missing_key_raises_value_error (prompt : string) (p : process Remote) :
  _llm_client p = None ->
  (provider p = "gemini" ->
   import_module "google.generativeai" = None ->
   nonempty (environ p "GOOGLE_API_KEY") = false ->
   nonempty (environ p "GEMINI_API_KEY") = false ->
   call_llm prompt p =
     (Raises (ValueError
        "GOOGLE_API_KEY or GEMINI_API_KEY must be set in environment. Create a .env file with your API key."),
      p)) /\
  (provider p = "openai" ->
   import_module "openai" = None ->
   nonempty (environ p "OPENAI_API_KEY") = false ->
   call_llm prompt p =
     (Raises (ValueError "OPENAI_API_KEY must be set in environment."), p)) /\
  (provider p = "deepseek" ->
   import_module "openai" = None ->
   nonempty (environ p "DEEPSEEK_API_KEY") = false ->
   call_llm prompt p =
     (Raises (ValueError "DEEPSEEK_API_KEY must be set in environment."), p)).
Proof.
  intros Hc. unfold LlmClient.call_llm. rewrite Hc.
  unfold LlmClient._init_llm, getenv, or_else.
  repeat apply conj.
  - intros Hp Hi H1 H2. rewrite Hp, Hi. cbn [String.eqb Ascii.eqb Bool.eqb].
    destruct (environ p "GOOGLE_API_KEY") as [[|c k]|];
      destruct (environ p "GEMINI_API_KEY") as [[|c' k']|];
      cbn in H1, H2 |- *; try discriminate; reflexivity.
  - intros Hp Hi H1. rewrite Hp, Hi. cbn [String.eqb Ascii.eqb Bool.eqb].
    destruct (environ p "OPENAI_API_KEY") as [[|c k]|];
      cbn in H1 |- *; try discriminate; reflexivity.
  - intros Hp Hi H1. rewrite Hp, Hi. cbn [String.eqb Ascii.eqb Bool.eqb].
    destruct (environ p "DEEPSEEK_API_KEY") as [[|c k]|];
      cbn in H1 |- *; try discriminate; reflexivity.
Qed.

(** A provider name that is none of the four makes [call_llm] raise
    [ValueError] with the lower-cased name, whether or not a client exists:
    no request is made and the process is left as it was. *)
Theorem unknown_provider_raises_value_error (prompt : string) (p : process Remote) :
  known_provider (provider p) = false ->
  call_llm prompt p =
    (Raises (ValueError ("Unknown LLM provider: " ++ provider p)), p).
Proof.
  intros H. apply unknown_provider_eqb in H. destruct H as (H1 & H2 & H3 & H4).
  unfold LlmClient.call_llm, LlmClient._init_llm.
  rewrite H1, H2, H3, H4.
  destruct (_llm_client p); reflexivity.
Qed.

(** A module that does not import leaves no client and sends nothing.  For
    Gemini, OpenAI and DeepSeek what the import raised is passed on as it
    is; for Ollama an [ImportError] is replaced by one that says how to
    install the package, and anything else is passed on.  The keys are not
    looked at. *)
Theorem import_failure_leaves_no_client
  (prompt : string) (p : process Remote) (e : library_error) :
  _llm_client p = None ->
  (provider p = "gemini" ->
   import_module "google.generativeai" = Some e ->
   call_llm prompt p = (Raises (Library e), p)) /\
  (provider p = "openai" \/ provider p = "deepseek" ->
   import_module "openai" = Some e ->
   call_llm prompt p = (Raises (Library e), p)) /\
  (provider p = "ollama" ->
   import_module "ollama" = Some e ->
   call_llm prompt p =
     (Raises (if is_import_error e
              then ImportError "Install ollama: pip install ollama"
              else Library e), p)).
Proof.
  intros Hc. unfold LlmClient.call_llm. rewrite Hc.
  unfold LlmClient._init_llm.
  repeat apply conj.
  - intros Hp Hi. rewrite Hp, Hi. reflexivity.
  - intros [Hp | Hp] Hi; rewrite Hp, Hi; reflexivity.
  - intros Hp Hi. rewrite Hp, Hi. cbn [String.eqb Ascii.eqb Bool.eqb].
    destruct (is_import_error e); reflexivity.
Qed.

(** *** The client object *)

(** The first call under a provider whose module imports and whose key is
    set creates that provider's client and sends it the provider's request:
    Gemini is configured with [GOOGLE_API_KEY] when that is non-empty and
    with [GEMINI_API_KEY] otherwise, and gets [generate_content]; OpenAI and
    DeepSeek get a chat completion for [gpt-4o] and [deepseek-chat] at
    temperature 0.7, DeepSeek through the OpenAI client with the DeepSeek
    base URL; Ollama gets [generate] for [mistral] without streaming and
    needs no key. *)
Theorem first_call_creates_the_client (prompt : string) (p : process Remote) :
  _llm_client p = None ->
  (forall (c : ascii) (k : string),
     provider p = "gemini" ->
     import_module "google.generativeai" = None ->
     (environ p "GOOGLE_API_KEY" = Some (String c k) \/
      nonempty (environ p "GOOGLE_API_KEY") = false /\
      environ p "GEMINI_API_KEY" = Some (String c k)) ->
     call_llm prompt p =
       delivered (GenerativeModel "gemini-2.5-flash") (generate_content prompt)
         (configure (String c k) p)) /\
  (forall (c : ascii) (k : string),
     provider p = "openai" ->
     import_module "openai" = None ->
     environ p "OPENAI_API_KEY" = Some (String c k) ->
     call_llm prompt p =
       delivered (OpenAI (String c k) None)
         (chat_completions_create "gpt-4o" [("user", prompt)] (float_lit 7 (-1))) p) /\
  (provider p = "ollama" ->
   import_module "ollama" = None ->
   call_llm prompt p = delivered ollama (generate "mistral" prompt false) p) /\
  (forall (c : ascii) (k : string),
     provider p = "deepseek" ->
     import_module "openai" = None ->
     environ p "DEEPSEEK_API_KEY" = Some (String c k) ->
     call_llm prompt p =
       delivered (OpenAI (String c k) (Some "https://api.deepseek.com"))
         (chat_completions_create "deepseek-chat" [("user", prompt)]
            (float_lit 7 (-1))) p).
Proof.
  intros Hc. repeat apply conj.
  - intros c k Hp Hi Hk.
    assert (E : or_else (environ p "GOOGLE_API_KEY") (environ p "GEMINI_API_KEY")
                = Some (String c k)).
    { unfold or_else. destruct Hk as [-> | [Hn ->]]; [reflexivity | ].
      rewrite Hn. reflexivity. }
    unfold LlmClient.call_llm. rewrite Hc.
    rewrite (init_gemini p c k Hp Hi E). rewrite Hp.
    cbn [String.eqb Ascii.eqb Bool.eqb].
    rewrite on_client_delivered
      with (c := GenerativeModel "gemini-2.5-flash") (r := generate_content prompt);
      reflexivity.
  - intros c k Hp Hi Hk.
    unfold LlmClient.call_llm. rewrite Hc.
    rewrite (init_openai p c k Hp Hi Hk). rewrite Hp.
    cbn [String.eqb Ascii.eqb Bool.eqb].
    rewrite on_client_delivered
      with (c := OpenAI (String c k) None)
           (r := chat_completions_create "gpt-4o" [("user", prompt)] (float_lit 7 (-1)));
      reflexivity.
  - intros Hp Hi.
    unfold LlmClient.call_llm. rewrite Hc.
    rewrite (init_ollama p Hp Hi). rewrite Hp.
    cbn [String.eqb Ascii.eqb Bool.eqb].
    rewrite on_client_delivered
      with (c := ollama) (r := generate "mistral" prompt false);
      reflexivity.
  - intros c k Hp Hi Hk.
    unfold LlmClient.call_llm. rewrite Hc.
    rewrite (init_deepseek p c k Hp Hi Hk). rewrite Hp.
    cbn [String.eqb Ascii.eqb Bool.eqb].
    rewrite on_client_delivered
      with (c := OpenAI (String c k) (Some "https://api.deepseek.com"))
           (r := chat_completions_create "deepseek-chat" [("user", prompt)]
                   (float_lit 7 (-1)));
      reflexivity.
Qed.

(** Once [_llm_client] is set, [call_llm] never replaces it.  The provider
    read at the call chooses the request, and the request goes to the
    client that is there, whichever provider created it: a later change of
    [LLM_PROVIDER] or of a key creates no new client. *)
Theorem client_is_created_once (prompt : string) (p : process Remote) (c : client) :
  _llm_client p = Some c ->
  _llm_client (snd (call_llm prompt p)) = Some c /\
  environ (snd (call_llm prompt p)) = environ p /\
  genai_api_key (snd (call_llm prompt p)) = genai_api_key p /\
  (provider p = "gemini" ->
   call_llm prompt p = delivered c (generate_content prompt) p) /\
  (provider p = "openai" ->
   call_llm prompt p =
     delivered c
       (chat_completions_create "gpt-4o" [("user", prompt)] (float_lit 7 (-1))) p) /\
  (provider p = "ollama" ->
   call_llm prompt p = delivered c (generate "mistral" prompt false) p) /\
  (provider p = "deepseek" ->
   call_llm prompt p =
     delivered c
       (chat_completions_create "deepseek-chat" [("user", prompt)]
          (float_lit 7 (-1))) p).
Proof.
  intros Hc.
  assert (K : forall (r : request) (attribute : string)
                     (mk : unit -> outcome library_error request),
             mk tt = Returns r ->
             on_client library_error Remote send mk attribute p = delivered c r p).
  { intros r attribute mk Hmk. apply on_client_delivered; assumption. }
  assert (D : forall r : request,
             _llm_client (snd (delivered c r p)) = Some c /\
             environ (snd (delivered c r p)) = environ p /\
             genai_api_key (snd (delivered c r p)) = genai_api_key p).
  { intros r. repeat split. }
  unfold LlmClient.call_llm. rewrite Hc.
  destruct (String.eqb (provider p) "gemini") eqn:E1.
  { rewrite (K (generate_content prompt)) by reflexivity.
    destruct (D (generate_content prompt)) as (D1 & D2 & D3).
    repeat apply conj; try assumption; try reflexivity;
      intros Hp; rewrite Hp in E1; discriminate E1. }
  destruct (String.eqb (provider p) "openai") eqn:E2.
  { rewrite (K (chat_completions_create "gpt-4o" [("user", prompt)] (float_lit 7 (-1))))
      by reflexivity.
    destruct (D (chat_completions_create "gpt-4o" [("user", prompt)] (float_lit 7 (-1))))
      as (D1 & D2 & D3).
    repeat apply conj; try assumption; try reflexivity;
      intros Hp; (rewrite Hp in E1; discriminate E1) || (rewrite Hp in E2; discriminate E2). }
  destruct (String.eqb (provider p) "ollama") eqn:E3.
  { rewrite (K (generate "mistral" prompt false)) by reflexivity.
    destruct (D (generate "mistral" prompt false)) as (D1 & D2 & D3).
    repeat apply conj; try assumption; try reflexivity;
      intros Hp; (rewrite Hp in E1; discriminate E1) || (rewrite Hp in E2; discriminate E2)
                 || (rewrite Hp in E3; discriminate E3). }
  destruct (String.eqb (provider p) "deepseek") eqn:E4.
  { rewrite (K (chat_completions_create "deepseek-chat" [("user", prompt)]
                  (float_lit 7 (-1)))) by reflexivity.
    destruct (D (chat_completions_create "deepseek-chat" [("user", prompt)]
                   (float_lit 7 (-1)))) as (D1 & D2 & D3).
    repeat apply conj; try assumption; try reflexivity;
      intros Hp; (rewrite Hp in E1; discriminate E1) || (rewrite Hp in E2; discriminate E2)
                 || (rewrite Hp in E3; discriminate E3)
                 || (rewrite Hp in E4; discriminate E4). }
  cbn [snd].
  repeat apply conj; try assumption; try reflexivity;
    intros Hp; (rewrite Hp in E1; discriminate E1) || (rewrite Hp in E2; discriminate E2)
               || (rewrite Hp in E3; discriminate E3)
               || (rewrite Hp in E4; discriminate E4).
Qed.

(** *** The sidebar and the first call *)

Lemma known_provider_cases (name : string) :
  known_provider name = true ->
  name = "gemini" \/ name = "openai" \/ name = "ollama" \/ name = "deepseek".
Proof.
  unfold known_provider. cbn [existsb]. intros H.
  repeat (apply orb_true_elim in H; destruct H as [H | H];
          [apply String.eqb_eq in H; tauto | ]).
  discriminate H.
Qed.

(** For a choice of the select box, [configure_llm] answers false only when
    a key is needed and the box is empty, and then it has stored nothing.
    When it answers true, the environment it leaves passes the key check of
    [_init_llm]: with the modules installed, the first call creates the
    client of the chosen provider with the key that was typed, whatever keys
    the environment held before. *)
Theorem configured_sidebar_passes_key_check
  (choice typed : string) (p : process Remote) :
  known_provider choice = true ->
  lower choice = choice ->
  (forall name, import_module name = None) ->
  (fst (App.configure_llm choice typed (environ p)) = false ->
   snd (App.configure_llm choice typed (environ p)) = environ p /\
   choice <> "ollama" /\
   typed = EmptyString) /\
  (fst (App.configure_llm choice typed (environ p)) = true ->
   exists p',
     _init_llm (with_environ (snd (App.configure_llm choice typed (environ p))) p)
       = (Returns tt, p') /\
     (choice = "gemini" ->
      _llm_client p' = Some (GenerativeModel "gemini-2.5-flash") /\
      genai_api_key p' = Some typed) /\
     (choice = "openai" -> _llm_client p' = Some (OpenAI typed None)) /\
     (choice = "ollama" -> _llm_client p' = Some ollama) /\
     (choice = "deepseek" ->
      _llm_client p' = Some (OpenAI typed (Some "https://api.deepseek.com")))).
Proof.
  intros Hk Hl Hi.
  destruct (known_provider_cases choice Hk) as [-> | [-> | [-> | ->]]].
  - (* gemini *)
    split.
    + destruct typed as [|c k]; cbn; [ | discriminate].
      intros _. repeat split. discriminate.
    + destruct typed as [|c k]; cbn [App.configure_llm String.eqb Ascii.eqb Bool.eqb
                                       nonempty fst snd orb]; [discriminate | ].
      intros _. eexists. split.
      * apply init_gemini with (c := c) (k := k).
        -- unfold LlmClient.provider. cbn. exact Hl.
        -- apply Hi.
        -- reflexivity.
      * repeat split; try discriminate.
  - (* openai *)
    split.
    + destruct typed as [|c k]; cbn; [ | discriminate].
      intros _. repeat split. discriminate.
    + destruct typed as [|c k]; cbn [App.configure_llm String.eqb Ascii.eqb Bool.eqb
                                       nonempty fst snd orb]; [discriminate | ].
      intros _. eexists. split.
      * apply init_openai with (c := c) (k := k).
        -- unfold LlmClient.provider. cbn. exact Hl.
        -- apply Hi.
        -- reflexivity.
      * repeat split; try discriminate.
  - (* ollama *)
    split; [cbn; discriminate | ].
    intros _. eexists. split.
    + apply init_ollama.
      * unfold LlmClient.provider. cbn. exact Hl.
      * apply Hi.
    + repeat split; try discriminate.
  - (* deepseek *)
    split.
    + destruct typed as [|c k]; cbn; [ | discriminate].
      intros _. repeat split. discriminate.
    + destruct typed as [|c k]; cbn [App.configure_llm String.eqb Ascii.eqb Bool.eqb
                                       nonempty fst snd orb]; [discriminate | ].
      intros _. eexists. split.
      * apply init_deepseek with (c := c) (k := k).
        -- unfold LlmClient.provider. cbn. exact Hl.
        -- apply Hi.
        -- reflexivity.
      * repeat split; try discriminate.
Qed.

End Client.

Lemma missing_key_raises_value_error_witness :
  LlmClient.call_llm string LlmClient.already_lower LlmClient.installed
    (fun _ => true) nat LlmClient.counting_service "prompt"
    (LlmClient.fresh_process [("LLM_PROVIDER", "openai")])
  = (LlmClient.Raises
       (LlmClient.ValueError "OPENAI_API_KEY must be set in environment."),
     LlmClient.fresh_process [("LLM_PROVIDER", "openai")]).
Proof.
  apply (missing_key_raises_value_error string LlmClient.already_lower
           LlmClient.installed (fun _ => true) nat LlmClient.counting_service
           "prompt" (LlmClient.fresh_process [("LLM_PROVIDER", "openai")]) eq_refl);
    reflexivity.
Defined.

Lemma unknown_provider_raises_value_error_witness :
  LlmClient.call_llm string LlmClient.already_lower LlmClient.installed
    (fun _ => true) nat LlmClient.counting_service "prompt"
    (LlmClient.fresh_process [("LLM_PROVIDER", "claude")])
  = (LlmClient.Raises (LlmClient.ValueError "Unknown LLM provider: claude"),
     LlmClient.fresh_process [("LLM_PROVIDER", "claude")]).
Proof.
  apply (unknown_provider_raises_value_error string LlmClient.already_lower
           LlmClient.installed (fun _ => true) nat LlmClient.counting_service
           "prompt" (LlmClient.fresh_process [("LLM_PROVIDER", "claude")])).
  reflexivity.
Defined.

Lemma first_call_creates_the_client_witness :
  exists p',
    LlmClient.call_llm string LlmClient.already_lower LlmClient.installed
      (fun _ => true) nat LlmClient.counting_service "prompt"
      (LlmClient.fresh_process
         [("LLM_PROVIDER", "deepseek"); ("DEEPSEEK_API_KEY", "sk-1")])
    = (LlmClient.Returns "narrative", p') /\
    LlmClient._llm_client p'
    = Some (LlmClient.OpenAI "sk-1" (Some "https://api.deepseek.com")) /\
    LlmClient.remote p' = 1%nat.
Proof.
  eexists. split.
  - apply (first_call_creates_the_client string LlmClient.already_lower
             LlmClient.installed (fun _ => true) nat LlmClient.counting_service
             "prompt"
             (LlmClient.fresh_process
                [("LLM_PROVIDER", "deepseek"); ("DEEPSEEK_API_KEY", "sk-1")])
             eq_refl);
      reflexivity.
  - split; reflexivity.
Defined.

Lemma client_is_created_once_witness :
  LlmClient._llm_client
    (snd (LlmClient.call_llm string LlmClient.already_lower LlmClient.installed
            (fun _ => true) nat LlmClient.counting_service "prompt"
            switched_process))
  = Some (LlmClient.GenerativeModel "gemini-2.5-flash") /\
  LlmClient.call_llm string LlmClient.already_lower LlmClient.installed
    (fun _ => true) nat LlmClient.counting_service "prompt" switched_process
  = LlmClient.delivered string nat LlmClient.counting_service
      (LlmClient.GenerativeModel "gemini-2.5-flash")
      (LlmClient.chat_completions_create "gpt-4o" [("user", "prompt")]
         (float_lit 7 (-1)))
      switched_process.
Proof.
  destruct (client_is_created_once string LlmClient.already_lower
              LlmClient.installed (fun _ => true) nat LlmClient.counting_service
              "prompt" switched_process
              (LlmClient.GenerativeModel "gemini-2.5-flash") eq_refl)
    as (H1 & _ & _ & _ & H2 & _).
  split; [exact H1 | exact (H2 eq_refl)].
Defined.

Lemma configured_sidebar_passes_key_check_witness :
  fst (App.configure_llm "gemini" "AIza"
         (LlmClient.environment_of [("GEMINI_API_KEY", "old")])) = true /\
  exists p',
    LlmClient._init_llm string LlmClient.already_lower LlmClient.installed
      (fun _ => true) nat
      (LlmClient.with_environ
         (snd (App.configure_llm "gemini" "AIza"
                 (LlmClient.environment_of [("GEMINI_API_KEY", "old")])))
         (LlmClient.fresh_process [("GEMINI_API_KEY", "old")]))
    = (LlmClient.Returns tt, p') /\
    LlmClient.genai_api_key p' = Some "AIza".
Proof.
  split; [reflexivity | ].
  destruct (configured_sidebar_passes_key_check string LlmClient.already_lower
              LlmClient.installed (fun _ => true) nat "gemini" "AIza"
              (LlmClient.fresh_process [("GEMINI_API_KEY", "old")])
              eq_refl eq_refl (fun _ => eq_refl))
    as (_ & H).
  destruct (H eq_refl) as (p' & E & G & _).
  exists p'. split; [exact E | exact (proj2 (G eq_refl))].
Defined.

Lemma import_failure_leaves_no_client_witness :
  LlmClient.call_llm string LlmClient.already_lower LlmClient.uninstalled
    (fun _ => true) nat LlmClient.counting_service "prompt"
    (LlmClient.fresh_process [("LLM_PROVIDER", "ollama")])
  = (LlmClient.Raises (LlmClient.ImportError "Install ollama: pip install ollama"),
     LlmClient.fresh_process [("LLM_PROVIDER", "ollama")]).
Proof.
  apply (import_failure_leaves_no_client string LlmClient.already_lower
           LlmClient.uninstalled (fun _ => true) nat LlmClient.counting_service
           "prompt" (LlmClient.fresh_process [("LLM_PROVIDER", "ollama")])
           "ollama" eq_refl);
    reflexivity.
Defined.

(** * Properties of the forms and of the run *)

Section FormsAndRun.

Import Forms Run.

(** The dicts of the two forms bind every parameter of the three entry
    points: [financial_analysis] from the financial dict,
    [analyze_marketing_performance] from [Revenue] and the marketing dict,
    [analyze_business] from the two dicts merged.  No key is unexpected, no
    parameter is left over, no key of one form hides a key of the other,
    the defaults of [stock_price] and [shares_outstanding] are never used,
    and each parameter receives the value of the widget of its name. *)
Theorem forms_bind_every_parameter
  (revenue cogs gross_profit sales_marketing rd gna ebitda dep_amort ebit interest
   net_income cash ar inv ppe intangibles ap accrued ltd equity price shares
   spend new_customers customers_start customers_end arpu margin expansion : num) :
  let financial_data :=
    get_financial_form revenue cogs gross_profit sales_marketing rd gna ebitda
      dep_amort ebit interest net_income cash ar inv ppe intangibles ap accrued
      ltd equity price shares in
  let marketing_data :=
    get_marketing_form spend new_customers customers_start customers_end arpu
      margin expansion in
  bind_keywords financial_analysis_signature financial_data
    = inr [revenue; cogs; gross_profit; sales_marketing; rd; gna; ebitda;
           dep_amort; ebit; interest; net_income; cash; ar; inv; ppe;
           intangibles; ap; accrued; ltd; equity; price; shares] /\
  bind_keywords_with analyze_marketing_performance_signature "Revenue" revenue
    marketing_data
    = inr [revenue; spend; new_customers; customers_start; customers_end; arpu;
           margin; expansion] /\
  bind_keywords analyze_business_signature (dict_merge financial_data marketing_data)
    = inr [revenue; spend; new_customers; customers_start; customers_end; arpu;
           margin; expansion; cogs; gross_profit; sales_marketing; rd; gna;
           ebitda; dep_amort; ebit; interest; net_income; cash; ar; inv; ppe;
           intangibles; ap; accrued; ltd; equity; price; shares] /\
  dict_get financial_data "Revenue" = Some revenue.
Proof.
  cbv zeta. repeat apply conj; vm_compute; reflexivity.
Qed.

Variable float_repr : spec_float -> string.
Variable Backend : Type.
Variable call_llm : string -> Backend -> result string * Backend.
Variable str : failure -> string.

Lemma analyze_business_returns_a_dict
  (f : FinancialData num) (m : MarketingData num) (w w' : world Backend)
  (d : pyval) :
  analyze_business float_repr Backend call_llm f m w = (Ok d, w') ->
  exists (fm mm : pyval) (cfo_text cmo_text ceo_text : string),
    d = PDict [("financial_metrics", fm);
               ("financial_report", PStr cfo_text);
               ("marketing_metrics", mm);
               ("marketing_report", PStr cmo_text);
               ("ceo_report", PStr ceo_text)].
Proof.
  unfold analyze_business, financial_analysis, analyze_marketing_performance,
    construct_prompt_financial, construct_prompt_marketing, construct_prompt_ceo,
    bind, lift, call, ret.
  destruct (financial_metrics f) as [fm|e]; [ | discriminate].
  destruct (call_llm (financial_prompt float_repr fm) (backend w)) as [[t1|e] b1];
    cbn [backend sent fst snd]; [ | discriminate].
  destruct (marketing_metrics (Revenue f) m) as [mm|e];
    cbn [backend sent fst snd]; [ | discriminate].
  destruct (call_llm (marketing_prompt float_repr mm) b1) as [[t2|e] b2];
    cbn [backend sent fst snd]; [ | discriminate].
  destruct (call_llm (ceo_prompt t1 t2) b2) as [[t3|e] b3];
    cbn [backend sent fst snd]; [ | discriminate].
  intros [= <- _]. exists fm, mm, t1, t2, t3. reflexivity.
Qed.

(** The run of [main] on the dicts of the forms.  Without configuration
    nothing is computed or sent and the page asks for the key.  Otherwise
    the entry point of the chosen analysis runs on the widget values; when
    it returns, the page shows the success line, the narratives and the
    metrics it returned (for the full analysis: three narratives, then the
    two metric dicts, with no [KeyError]); when it raises, the exception is
    caught and the page shows the failure and nothing of the results.  Any
    analysis type other than the first two runs the marketing analysis, with
    the [Revenue] of the financial form. *)
Theorem run_shows_results_or_the_failure
  (revenue cogs gross_profit sales_marketing rd gna ebitda dep_amort ebit interest
   net_income cash ar inv ppe intangibles ap accrued ltd equity price shares
   spend new_customers customers_start customers_end arpu margin expansion : num)
  (analysis_type : string) (w : world Backend) :
  let financial_data :=
    get_financial_form revenue cogs gross_profit sales_marketing rd gna ebitda
      dep_amort ebit interest net_income cash ar inv ppe intangibles ap accrued
      ltd equity price shares in
  let marketing_data :=
    get_marketing_form spend new_customers customers_start customers_end arpu
      margin expansion in
  let f :=
    {| Revenue := revenue; COGS := cogs; Gross_Profit := gross_profit;
       Sales_and_Marketing := sales_marketing; Research_and_Development := rd;
       General_and_Administrative := gna; EBITDA := ebitda;
       Depreciation_and_Amortization := dep_amort; EBIT := ebit;
       Interest_Expense := interest; Net_Income := net_income;
       cash_equivalents := cash; accounts_receivable := ar; inventory := inv;
       fixed_assets_ppe := ppe; intangible_assets := intangibles;
       accounts_payable := ap; accrued_expenses := accrued;
       long_term_debt := ltd; shareholders_equity := equity;
       stock_price := price; shares_outstanding := shares |} in
  let m :=
    {| marketing_spend := spend; new_customers_acquired := new_customers;
       total_customers_start_period := customers_start;
       total_customers_end_period := customers_end;
       avg_revenue_per_user_monthly := arpu; gross_margin_pct := margin;
       expansion_revenue := expansion |} in
  let failed (e : exn) :=
    [st_error ("Analysis failed: " ++ str (Analysis e)); st_exception (Analysis e)] in
  let run := run_analysis float_repr Backend call_llm str in
  run false analysis_type financial_data marketing_data w
    = ([st_error "Please configure your API key in the sidebar first."], w) /\
  (forall (results : pyval) (w' : world Backend),
     analyze_business float_repr Backend call_llm f m w = (Ok results, w') ->
     exists (fm mm : pyval) (cfo_text cmo_text ceo_text : string),
       results = PDict [("financial_metrics", fm);
                        ("financial_report", PStr cfo_text);
                        ("marketing_metrics", mm);
                        ("marketing_report", PStr cmo_text);
                        ("ceo_report", PStr ceo_text)] /\
       run true "Full Analysis (Financial + Marketing + CEO)"
         financial_data marketing_data w
       = ([st_success "Analysis complete! Review your reports below.";
           st_markdown (PStr "### CFO Financial Analysis");
           st_markdown (PStr "---");
           st_markdown (PStr cfo_text);
           st_markdown (PStr "### CMO Marketing Analysis");
           st_markdown (PStr "---");
           st_markdown (PStr cmo_text);
           st_markdown (PStr "### CEO Business Synthesis");
           st_markdown (PStr "---");
           st_markdown (PStr ceo_text);
           st_json fm;
           st_json mm], w')) /\
  (forall (e : exn) (w' : world Backend),
     analyze_business float_repr Backend call_llm f m w = (Raise e, w') ->
     run true "Full Analysis (Financial + Marketing + CEO)"
       financial_data marketing_data w = (failed e, w')) /\
  run true "Financial Only" financial_data marketing_data w
    = match financial_analysis float_repr Backend call_llm f w with
      | (Ok (metrics, report), w') =>
          ([st_success "Analysis complete!";
            st_markdown (PStr "### CFO Financial Analysis");
            st_markdown (PStr "---");
            st_markdown (PStr report);
            st_json metrics], w')
      | (Raise e, w') => (failed e, w')
      end /\
  (String.eqb analysis_type "Full Analysis (Financial + Marketing + CEO)" = false ->
   String.eqb analysis_type "Financial Only" = false ->
   run true analysis_type financial_data marketing_data w
     = match analyze_marketing_performance float_repr Backend call_llm revenue m w with
       | (Ok (metrics, report), w') =>
           ([st_success "Analysis complete!";
             st_markdown (PStr "### CMO Marketing Analysis");
             st_markdown (PStr "---");
             st_markdown (PStr report);
             st_json metrics], w')
       | (Raise e, w') => (failed e, w')
       end).
Proof.
  cbv zeta.
  assert (B1 : bind_keywords financial_analysis_signature
                 (get_financial_form revenue cogs gross_profit sales_marketing rd
                    gna ebitda dep_amort ebit interest net_income cash ar inv ppe
                    intangibles ap accrued ltd equity price shares)
               = inr [revenue; cogs; gross_profit; sales_marketing; rd; gna; ebitda;
                      dep_amort; ebit; interest; net_income; cash; ar; inv; ppe;
                      intangibles; ap; accrued; ltd; equity; price; shares])
    by (vm_compute; reflexivity).
  assert (B2 : bind_keywords_with analyze_marketing_performance_signature
                 "Revenue" revenue
                 (get_marketing_form spend new_customers customers_start
                    customers_end arpu margin expansion)
               = inr [revenue; spend; new_customers; customers_start;
                      customers_end; arpu; margin; expansion])
    by (vm_compute; reflexivity).
  assert (B3 : bind_keywords analyze_business_signature
                 (dict_merge
                    (get_financial_form revenue cogs gross_profit sales_marketing
                       rd gna ebitda dep_amort ebit interest net_income cash ar
                       inv ppe intangibles ap accrued ltd equity price shares)
                    (get_marketing_form spend new_customers customers_start
                       customers_end arpu margin expansion))
               = inr [revenue; spend; new_customers; customers_start;
                      customers_end; arpu; margin; expansion; cogs; gross_profit;
                      sales_marketing; rd; gna; ebitda; dep_amort; ebit; interest;
                      net_income; cash; ar; inv; ppe; intangibles; ap; accrued;
                      ltd; equity; price; shares])
    by (vm_compute; reflexivity).
  repeat apply conj.
  - reflexivity.
  - intros results w' E.
    destruct (analyze_business_returns_a_dict _ _ _ _ _ E)
      as (fm & mm & t1 & t2 & t3 & ->).
    exists fm, mm, t1, t2, t3. split; [reflexivity | ].
    unfold run_analysis, analysis. cbn [negb].
    replace (String.eqb "Full Analysis (Financial + Marketing + CEO)"
               "Full Analysis (Financial + Marketing + CEO)") with true
      by (symmetry; apply String.eqb_refl).
    unfold analyze_business_by_keyword. rewrite B3.
    change (financial_data_of _) with
      {| Revenue := revenue; COGS := cogs; Gross_Profit := gross_profit;
         Sales_and_Marketing := sales_marketing; Research_and_Development := rd;
         General_and_Administrative := gna; EBITDA := ebitda;
         Depreciation_and_Amortization := dep_amort; EBIT := ebit;
         Interest_Expense := interest; Net_Income := net_income;
         cash_equivalents := cash; accounts_receivable := ar; inventory := inv;
         fixed_assets_ppe := ppe; intangible_assets := intangibles;
         accounts_payable := ap; accrued_expenses := accrued;
         long_term_debt := ltd; shareholders_equity := equity;
         stock_price := price; shares_outstanding := shares |}.
    change (marketing_data_of _) with
      {| marketing_spend := spend; new_customers_acquired := new_customers;
         total_customers_start_period := customers_start;
         total_customers_end_period := customers_end;
         avg_revenue_per_user_monthly := arpu; gross_margin_pct := margin;
         expansion_revenue := expansion |}.
    rewrite E. reflexivity.
  - intros e w' E.
    unfold run_analysis, analysis. cbn [negb].
    replace (String.eqb "Full Analysis (Financial + Marketing + CEO)"
               "Full Analysis (Financial + Marketing + CEO)") with true
      by (symmetry; apply String.eqb_refl).
    unfold analyze_business_by_keyword. rewrite B3.
    change (financial_data_of _) with
      {| Revenue := revenue; COGS := cogs; Gross_Profit := gross_profit;
         Sales_and_Marketing := sales_marketing; Research_and_Development := rd;
         General_and_Administrative := gna; EBITDA := ebitda;
         Depreciation_and_Amortization := dep_amort; EBIT := ebit;
         Interest_Expense := interest; Net_Income := net_income;
         cash_equivalents := cash; accounts_receivable := ar; inventory := inv;
         fixed_assets_ppe := ppe; intangible_assets := intangibles;
         accounts_payable := ap; accrued_expenses := accrued;
         long_term_debt := ltd; shareholders_equity := equity;
         stock_price := price; shares_outstanding := shares |}.
    change (marketing_data_of _) with
      {| marketing_spend := spend; new_customers_acquired := new_customers;
         total_customers_start_period := customers_start;
         total_customers_end_period := customers_end;
         avg_revenue_per_user_monthly := arpu; gross_margin_pct := margin;
         expansion_revenue := expansion |}.
    rewrite E. reflexivity.
  - unfold run_analysis, analysis. cbn [negb].
    replace (String.eqb "Financial Only" "Full Analysis (Financial + Marketing + CEO)")
      with false by reflexivity.
    replace (String.eqb "Financial Only" "Financial Only") with true by reflexivity.
    unfold financial_analysis_by_keyword. rewrite B1.
    change (financial_data_of _) with
      {| Revenue := revenue; COGS := cogs; Gross_Profit := gross_profit;
         Sales_and_Marketing := sales_marketing; Research_and_Development := rd;
         General_and_Administrative := gna; EBITDA := ebitda;
         Depreciation_and_Amortization := dep_amort; EBIT := ebit;
         Interest_Expense := interest; Net_Income := net_income;
         cash_equivalents := cash; accounts_receivable := ar; inventory := inv;
         fixed_assets_ppe := ppe; intangible_assets := intangibles;
         accounts_payable := ap; accrued_expenses := accrued;
         long_term_debt := ltd; shareholders_equity := equity;
         stock_price := price; shares_outstanding := shares |}.
    match goal with
    | |- context [financial_analysis float_repr Backend call_llm ?f w] =>
        destruct (financial_analysis float_repr Backend call_llm f w)
          as [[[metrics report]|e] w']
    end; reflexivity.
  - intros T1 T2.
    unfold run_analysis, analysis. cbn [negb]. rewrite T1, T2.
    cbn [get_financial_form dict_get String.eqb Ascii.eqb Bool.eqb].
    unfold analyze_marketing_performance_by_keyword. rewrite B2.
    change (marketing_data_of _) with
      {| marketing_spend := spend; new_customers_acquired := new_customers;
         total_customers_start_period := customers_start;
         total_customers_end_period := customers_end;
         avg_revenue_per_user_monthly := arpu; gross_margin_pct := margin;
         expansion_revenue := expansion |}.
    change (argument _ 0) with revenue.
    match goal with
    | |- context [analyze_marketing_performance float_repr Backend call_llm ?r ?m w] =>
        destruct (analyze_marketing_performance float_repr Backend call_llm r m w)
          as [[[metrics report]|e] w']
    end; reflexivity.
Qed.

End FormsAndRun.

Lemma run_shows_results_or_the_failure_witness :
  let f := underflow_financial_data in
  let m := sample_marketing_data in
  Run.run_analysis placeholder_repr nat answering_collaborator placeholder_str true
    "Full Analysis (Financial + Marketing + CEO)"
    (Forms.get_financial_form
       (Revenue f) (COGS f) (Gross_Profit f) (Sales_and_Marketing f)
       (Research_and_Development f) (General_and_Administrative f) (EBITDA f)
       (Depreciation_and_Amortization f) (EBIT f) (Interest_Expense f)
       (Net_Income f) (cash_equivalents f) (accounts_receivable f) (inventory f)
       (fixed_assets_ppe f) (intangible_assets f) (accounts_payable f)
       (accrued_expenses f) (long_term_debt f) (shareholders_equity f)
       (stock_price f) (shares_outstanding f))
    (Forms.get_marketing_form
       (marketing_spend m) (new_customers_acquired m)
       (total_customers_start_period m) (total_customers_end_period m)
       (avg_revenue_per_user_monthly m) (gross_margin_pct m) (expansion_revenue m))
    fresh_world
  = ([Run.st_error "Analysis failed: <exception>";
      Run.st_exception (Run.Analysis ZeroDivisionError)], fresh_world).
Proof.
  cbv zeta.
  pose proof (run_shows_results_or_the_failure placeholder_repr nat
                answering_collaborator placeholder_str
                (Revenue underflow_financial_data) (COGS underflow_financial_data)
                (Gross_Profit underflow_financial_data)
                (Sales_and_Marketing underflow_financial_data)
                (Research_and_Development underflow_financial_data)
                (General_and_Administrative underflow_financial_data)
                (EBITDA underflow_financial_data)
                (Depreciation_and_Amortization underflow_financial_data)
                (EBIT underflow_financial_data)
                (Interest_Expense underflow_financial_data)
                (Net_Income underflow_financial_data)
                (cash_equivalents underflow_financial_data)
                (accounts_receivable underflow_financial_data)
                (inventory underflow_financial_data)
                (fixed_assets_ppe underflow_financial_data)
                (intangible_assets underflow_financial_data)
                (accounts_payable underflow_financial_data)
                (accrued_expenses underflow_financial_data)
                (long_term_debt underflow_financial_data)
                (shareholders_equity underflow_financial_data)
                (stock_price underflow_financial_data)
                (shares_outstanding underflow_financial_data)
                (marketing_spend sample_marketing_data)
                (new_customers_acquired sample_marketing_data)
                (total_customers_start_period sample_marketing_data)
                (total_customers_end_period sample_marketing_data)
                (avg_revenue_per_user_monthly sample_marketing_data)
                (gross_margin_pct sample_marketing_data)
                (expansion_revenue sample_marketing_data)
                "Full Analysis (Financial + Marketing + CEO)" fresh_world) as H.
  cbv zeta in H. destruct H as (_ & _ & H & _).
  apply (H ZeroDivisionError fresh_world).
  vm_compute. reflexivity.
Defined.

(** ** The page of [display_results] *)

(** [display_results] reads five keys, in the order [financial_report],
    [marketing_report], [ceo_report], [financial_metrics],
    [marketing_metrics].  When the dict has all five it shows the whole
    page: the success line, then each report under its heading, then the
    two metrics.  Otherwise it stops with the [KeyError] of the first key,
    in that order, that is missing, after the success line has been
    shown. *)
Theorem display_results_needs_five_keys (results : pyval) :
  snd (Run.display_results results) =
    option_map Run.KeyError
      (find (fun k => match getitem results k with
                      | Some _ => false
                      | None => true
                      end)
         ["financial_report"; "marketing_report"; "ceo_report";
          "financial_metrics"; "marketing_metrics"]) /\
  (snd (Run.display_results results) = None <->
   forall k,
     In k ["financial_report"; "marketing_report"; "ceo_report";
           "financial_metrics"; "marketing_metrics"] ->
     getitem results k <> None) /\
  (forall financial_report marketing_report ceo_report
          financial_metrics marketing_metrics : pyval,
     getitem results "financial_report" = Some financial_report ->
     getitem results "marketing_report" = Some marketing_report ->
     getitem results "ceo_report" = Some ceo_report ->
     getitem results "financial_metrics" = Some financial_metrics ->
     getitem results "marketing_metrics" = Some marketing_metrics ->
     Run.display_results results =
       ([Run.st_success "Analysis complete! Review your reports below.";
         Run.st_markdown (PStr "### CFO Financial Analysis");
         Run.st_markdown (PStr "---");
         Run.st_markdown financial_report;
         Run.st_markdown (PStr "### CMO Marketing Analysis");
         Run.st_markdown (PStr "---");
         Run.st_markdown marketing_report;
         Run.st_markdown (PStr "### CEO Business Synthesis");
         Run.st_markdown (PStr "---");
         Run.st_markdown ceo_report;
         Run.st_json financial_metrics;
         Run.st_json marketing_metrics], None)) /\
  (exists rest,
     fst (Run.display_results results)
     = Run.st_success "Analysis complete! Review your reports below." :: rest).
Proof.
  unfold Run.display_results. cbn [find].
  destruct (getitem results "financial_report") as [v1|] eqn:E1.
  2:{ cbv zeta. cbn [fst snd option_map]. repeat apply conj.
      - reflexivity.
      - discriminate.
      - intros H. exfalso. apply (H "financial_report"); [cbn; tauto | exact E1].
      - discriminate.
      - eexists. reflexivity. }
  destruct (getitem results "marketing_report") as [v2|] eqn:E2.
  2:{ cbv zeta. cbn [fst snd option_map]. repeat apply conj.
      - reflexivity.
      - discriminate.
      - intros H. exfalso. apply (H "marketing_report"); [cbn; tauto | exact E2].
      - discriminate.
      - eexists. reflexivity. }
  destruct (getitem results "ceo_report") as [v3|] eqn:E3.
  2:{ cbv zeta. cbn [fst snd option_map]. repeat apply conj.
      - reflexivity.
      - discriminate.
      - intros H. exfalso. apply (H "ceo_report"); [cbn; tauto | exact E3].
      - discriminate.
      - eexists. reflexivity. }
  destruct (getitem results "financial_metrics") as [v4|] eqn:E4.
  2:{ cbv zeta. cbn [fst snd option_map]. repeat apply conj.
      - reflexivity.
      - discriminate.
      - intros H. exfalso. apply (H "financial_metrics"); [cbn; tauto | exact E4].
      - discriminate.
      - eexists. reflexivity. }
  destruct (getitem results "marketing_metrics") as [v5|] eqn:E5.
  2:{ cbv zeta. cbn [fst snd option_map]. repeat apply conj.
      - reflexivity.
      - discriminate.
      - intros H. exfalso. apply (H "marketing_metrics"); [cbn; tauto | exact E5].
      - discriminate.
      - eexists. reflexivity. }
  cbv zeta. cbn [fst snd option_map]. repeat apply conj.
  - reflexivity.
  - intros _ k Hk. cbn in Hk.
    destruct Hk as [<- | [<- | [<- | [<- | [<- | []]]]]]; congruence.
  - reflexivity.
  - intros ? ? ? ? ? [= <-] [= <-] [= <-] [= <-] [= <-]. reflexivity.
  - eexists. reflexivity.
Qed.

Lemma display_results_needs_five_keys_witness :
  snd (Run.display_results
         (PDict [("financial_report", PStr "cfo"); ("ceo_report", PStr "ceo")]))
  = Some (Run.KeyError "marketing_report").
Proof.
  destruct (display_results_needs_five_keys
              (PDict [("financial_report", PStr "cfo"); ("ceo_report", PStr "ceo")]))
    as (H & _).
  rewrite H. reflexivity.
Defined.

(** ** Market data left at their defaults *)

Lemma zero_quotient_is_zero (c x : num) :
  Num.is_finite c = true -> Num.truediv (Int 0) c = Ok x -> truthy x = false.
Proof.
  destruct c as [b|f]; cbn [Num.truediv]; intros Hc.
  - destruct (b =? 0)%Z; [discriminate | ].
    cbn [B64.of_ratio]. cbn [B64.is_finite]. intros [= <-]. reflexivity.
  - cbn [Num.to_float rbind].
    change (B64.of_Z 0) with (S754_zero false). cbn [B64.is_finite rbind].
    destruct f as [s|s| |s m e]; cbn in Hc |- *; try discriminate;
      intros [= <-]; reflexivity.
Qed.

Lemma int_quotient_finite (a b : Z) (x : num) :
  Num.truediv (Int a) (Int b) = Ok x -> Num.is_finite x = true.
Proof.
  cbn [Num.truediv]. destruct (b =? 0)%Z; [discriminate | ].
  destruct (B64.is_finite (B64.of_ratio a b)) eqn:E; [ | discriminate].
  intros [= <-]. exact E.
Qed.

Lemma round_of_zero_is_zero (x y : num) (n : N) :
  truthy x = false -> Num.round x n = Ok y -> truthy y = false.
Proof.
  destruct x as [z|f]; cbn [Num.round].
  - intros H [= <-]. exact H.
  - destruct f as [s|s| |s m e]; cbn; try discriminate.
    intros _ [= <-]. reflexivity.
Qed.

(** With the market data at the defaults of the signature
    ([stock_price=0], [shares_outstanding=1]) and int statements, the
    market capitalisation is 0: the report gives a zero for [P/E],
    [Market/Book] and [Price/Sales] whatever the amounts are, and [EV] is
    exactly [long_term_debt - cash_equivalents]. *)
Theorem default_market_data_reports_zero
  (a : FinancialData num) (rep : pyval) (income equity revenue debt cash : Z) :
  stock_price a = Int 0 ->
  shares_outstanding a = Int 1 ->
  Net_Income a = Int income ->
  shareholders_equity a = Int equity ->
  Revenue a = Int revenue ->
  long_term_debt a = Int debt ->
  cash_equivalents a = Int cash ->
  financial_metrics a = Ok rep ->
  (exists pe mb ps : num,
     reports rep "Market" "P/E" pe /\ truthy pe = false /\
     reports rep "Market" "Market/Book" mb /\ truthy mb = false /\
     reports rep "Market" "Price/Sales" ps /\ truthy ps = false) /\
  reports rep "Market" "EV" (Int (debt - cash)).
Proof.
  intros Hp Hs Hni Hse HRev Hd Hc H. unfold financial_metrics in H.
  apply rbind_ok in H. destruct H as (r & Hr & H).
  pose proof (financial_ratios_spec _ _ Hr) as S.
  apply financial_results_inv in H.
  destruct H as (Current & Quick & Cash & Interval & Debt_Ratio & Multiplier & LTD &
                 TIE & Cash_Coverage & Total_Asset & NWC' & Fixed_Asset &
                 Gross_Margin & Profit_Margin & ROA & ROE & Profitability_Lever &
                 Efficiency_Lever & Leverage_Lever & Calculated_ROE & PE &
                 Market_Book & Price_Sales & EV & EV_EBITDA & Inv_Turnover & DSI &
                 Rec_Turnover & DSO &
                 _ & _ & _ & _ & _ & (M1 & M2 & M3 & M4 & _) & _ & ->).
  pose proof (fr_market_cap _ _ S) as Hmc.
  rewrite Hp, Hs in Hmc. cbn in Hmc. injection Hmc as Hmc.
  (* the three multiples *)
  assert (Zpe : truthy (pe_ratio r) = false).
  { pose proof (fr_pe_ratio _ _ S) as E. rewrite Hp, Hs, Hni in E.
    cbn [of_int PyNumber_num] in E.
    destruct (truthy (Int income) && truthy (Int 1)).
    - apply rbind_ok in E. destruct E as (t & Et & E).
      apply (zero_quotient_is_zero t); [ | exact E].
      exact (int_quotient_finite _ _ _ Et).
    - injection E as <-. reflexivity. }
  assert (Zmb : truthy (market_to_book r) = false).
  { pose proof (fr_market_to_book _ _ S) as E. rewrite <- Hmc, Hse in E.
    unfold ratio_or_zero in E. cbn [of_int PyNumber_num] in E.
    destruct (truthy (Int equity)).
    - apply (zero_quotient_is_zero (Int equity)); [reflexivity | exact E].
    - injection E as <-. reflexivity. }
  assert (Zps : truthy (price_sales r) = false).
  { pose proof (fr_price_sales _ _ S) as E. rewrite <- Hmc, HRev in E.
    unfold ratio_or_zero in E. cbn [of_int PyNumber_num] in E.
    destruct (truthy (Int revenue)).
    - apply (zero_quotient_is_zero (Int revenue)); [reflexivity | exact E].
    - injection E as <-. reflexivity. }
  split.
  - exists PE, Market_Book, Price_Sales.
    repeat apply conj; try reflexivity.
    + exact (round_of_zero_is_zero _ _ _ Zpe M1).
    + exact (round_of_zero_is_zero _ _ _ Zmb M2).
    + exact (round_of_zero_is_zero _ _ _ Zps M3).
  - pose proof (fr_enterprise_value _ _ S) as E.
    rewrite <- Hmc, Hd, Hc in E. cbn in E. injection E as E.
    rewrite <- E in M4. cbn in M4. injection M4 as <-.
    reflexivity.
Qed.

Lemma default_market_data_reports_zero_witness :
  exists rep,
    financial_metrics default_market_financial_data = Ok rep /\
    reports rep "Market" "EV" (Int (350000 - 250000)).
Proof.
  eexists. split; [vm_compute; reflexivity | ].
  match goal with
  | |- reports ?rep _ _ _ =>
      exact (proj2 (default_market_data_reports_zero default_market_financial_data
                      rep 203820 600000 1200000 350000 250000
                      eq_refl eq_refl eq_refl eq_refl eq_refl eq_refl eq_refl
                      ltac:(vm_compute; reflexivity)))
  end.
Defined.

(** ** The whole analysis on inputs of the forms *)


